(** * E-mergo App Inspector: a shallow embedding of the controller module

    The development follows [qs-emergo-app-inspector.js].  JavaScript
    values whose dynamic type decides the behaviour of the code (detail
    values, search terms, flags tested for truthiness) are kept as
    [value]; objects of a fixed shape are records; code that can raise a
    [TypeError] returns a [result]. *)

From Stdlib Require Import String Ascii List ZArith Lia Bool.
From Stdlib Require Import DecimalString Sorted Permutation OrdersEx.
From stdpp Require Import gmap strings.
Import ListNotations.

Local Open Scope string_scope.
Local Open Scope Z_scope.
Set Warnings "-register-all".

(** ** JavaScript values *)

(** Plain data as the host hands it over.  Objects list their own
    enumerable properties in enumeration order; their keys are ordinary
    names (no key shadows a method of [Object.prototype]). *)
Inductive value : Type :=
| VUndefined
| VNull
| VBool (b : bool)
| VNum (n : Z)
| VStr (s : string)
| VArr (elems : list value)
| VObj (props : list (string * value)).

(** Code that throws. *)
Inductive result (A : Type) : Type :=
| Ok (a : A)
| Throw (msg : string).
Arguments Ok {A} a.
Arguments Throw {A} msg.

Definition bind {A B} (r : result A) (k : A -> result B) : result B :=
  match r with
  | Ok a => k a
  | Throw m => Throw m
  end.

Notation "'let*' x ':=' e 'in' k" := (bind e (fun x => k))
  (at level 10, x name, e at level 100, k at level 200).

Fixpoint mapM {A B} (f : A -> result B) (l : list A) : result (list B) :=
  match l with
  | [] => Ok []
  | x :: r =>
      let* y := f x in
      let* ys := mapM f r in
      Ok (y :: ys)
  end.

Module Js.

Definition string_of_Z (n : Z) : string := NilZero.string_of_int (Z.to_int n).
Definition string_of_nat (n : nat) : string := NilZero.string_of_uint (Nat.to_uint n).

(** [!!v] *)
Definition truthy (v : value) : bool :=
  match v with
  | VUndefined | VNull => false
  | VBool b => b
  | VNum n => negb (n =? 0)
  | VStr s => negb (String.eqb s "")
  | VArr _ | VObj _ => true
  end.

(** [a || b] and [a && b] *)
Definition or (a b : value) : value := if truthy a then a else b.
Definition and (a b : value) : value := if truthy a then b else a.

Definition isArray (v : value) : bool :=
  match v with VArr _ => true | _ => false end.

(** The abstract operation ToString, and an array element as
    [Array.prototype.join] prints it. *)
Fixpoint ToString (v : value) : string :=
  match v with
  | VUndefined => "undefined"
  | VNull => "null"
  | VBool true => "true"
  | VBool false => "false"
  | VNum n => string_of_Z n
  | VStr s => s
  | VArr l =>
      String.concat ","
        (List.map (fun x => match x with
                            | VUndefined | VNull => ""
                            | _ => ToString x
                            end) l)
  | VObj _ => "[object Object]"
  end.

Definition element_string (x : value) : string :=
  match x with
  | VUndefined | VNull => ""
  | _ => ToString x
  end.

(** [l.join(sep)] *)
Definition join (sep : string) (l : list value) : string :=
  String.concat sep (List.map element_string l).

(** [a + s] where [s] is a string *)
Definition add_string (a : value) (s : string) : value :=
  VStr (ToString a ++ s).

Fixpoint indexed {A} (i : nat) (l : list A) : list (string * A) :=
  match l with
  | [] => []
  | x :: r => (string_of_nat i, x) :: indexed (S i) r
  end.

(** Own enumerable properties, as [for (i in v)] visits them. *)
Definition own_entries (v : value) : list (string * value) :=
  match v with
  | VObj o => o
  | VArr l => indexed 0 l
  | VStr s =>
      indexed 0 (List.map (fun c => VStr (String c EmptyString))
                          (list_ascii_of_string s))
  | _ => []
  end.

Fixpoint assoc {A} (k : string) (o : list (string * A)) : option A :=
  match o with
  | [] => None
  | (k', v) :: r => if String.eqb k k' then Some v else assoc k r
  end.

(** [v.length] for arrays and strings *)
Definition builtin_length (v : value) : option Z :=
  match v with
  | VArr l => Some (Z.of_nat (List.length l))
  | VStr s => Some (Z.of_nat (String.length s))
  | _ => None
  end.

(** [v.hasOwnProperty(k)], for [v] neither null nor undefined *)
Definition hasOwnProperty (v : value) (k : string) : bool :=
  match assoc k (own_entries v) with
  | Some _ => true
  | None =>
      String.eqb k "length" &&
      match builtin_length v with Some _ => true | None => false end
  end.

(** [v[k]], for [v] neither null nor undefined: a missing property
    reads as [undefined]. *)
Definition get (v : value) (k : string) : value :=
  match assoc k (own_entries v) with
  | Some x => x
  | None =>
      if String.eqb k "length" then
        match builtin_length v with Some n => VNum n | None => VUndefined end
      else VUndefined
  end.

(** [o[k] = v] on a plain object *)
Fixpoint set {A} (k : string) (v : A) (o : list (string * A)) : list (string * A) :=
  match o with
  | [] => [(k, v)]
  | (k', v') :: r =>
      if String.eqb k k' then (k, v) :: r else (k', v') :: set k v r
  end.

(** [_.omit(o, keys)] *)
Definition omit {A} (keys : list string) (o : list (string * A)) : list (string * A) :=
  List.filter (fun kv => negb (existsb (String.eqb (fst kv)) keys)) o.

End Js.

(** ** The host platform

    Everything the module takes from its environment: string functions
    of the JavaScript runtime, the translator, the session options the
    base URI is built from, and the data-definition helpers of
    [util/app-info]. *)

Record dataDefinition := {
  dd_label : value;
  dd_value : list value;
  dd_isCode : value
}.

Class Host := {
  toLowerCase : string -> string;
  toUpperCase : string -> string;
  localeCompare : string -> string -> Z;
  encodeURIComponent : string -> string;
  translator_get : string -> string;
  JSON_stringify : value -> value;
  globalOpts_isSecure : bool;
  globalOpts_host : string;
  globalOpts_port : value;
  globalOpts_prefix : string;
  appInfo_getDataDefinition : value -> list (string * dataDefinition);
  appInfo_getChildrenDataDefinition : list value -> list (string * dataDefinition)
}.

(** ** Host data about sheets and their visualizations *)

(** The fields of a visualization that the module reads; the object
    ids and types are strings. *)
Record qInfo := { qId : string; qType : string }.

Record extensionMeta := {
  meta_name : string;
  meta_template : string;
  meta_isThirdParty : value
}.

Record vizProperties := {
  props_qInfo : qInfo;
  props_extensionMeta : option extensionMeta;
  props_title : value;
  props_subtitle : value;
  props_other : list (string * value)
}.

Record masterobject := {
  mo_qInfo_qId : string;
  mo_qMetaDef_title : value;
  mo_other : list (string * value)
}.

(** An element of [sheet.visualizations], with [cell.name] flattened;
    [errors] and [children] are arrays. *)
Record visualization := {
  cell_name : string;
  viz_errors : list value;
  viz_properties : vizProperties;
  viz_children : list value;
  viz_masterobject : option masterobject
}.

(** An entry of the extension list, [{}] when the template is unknown. *)
Record extensionInfo := {
  ext_name : option string;
  ext_version : value;
  ext_description : value;
  ext_author : value;
  ext_bundle : value
}.

(** ** Display items *)

(** The fields this module reads or writes on an item.  A field that
    may be missing is an [option] ([None] is [undefined]); [details] is
    the raw map before [prepareItem] and the array of rows after it. *)
Inductive item : Type := Item {
  id : string;
  label : option string;
  icon : option string;
  isThirdParty : value;
  isMasterObject : value;
  count : value;
  details : value;
  errors : value;
  searchTerms : value;
  items : option (list item);
  properties : option value;
  children : option value;
  layout : option value;
  code : option (list (string * value));
  preview : option string;
  asset : option string;
  visualizations : option (list visualization)
}.

(** Assignments to a field of an item. *)
Definition set_searchTerms (it : item) (v : value) : item :=
  Item (id it) (label it) (icon it) (isThirdParty it) (isMasterObject it)
       (count it) (details it) (errors it) v (items it) (properties it)
       (children it) (layout it) (code it) (preview it) (asset it)
       (visualizations it).

Definition set_details (it : item) (v : value) : item :=
  Item (id it) (label it) (icon it) (isThirdParty it) (isMasterObject it)
       (count it) v (errors it) (searchTerms it) (items it) (properties it)
       (children it) (layout it) (code it) (preview it) (asset it)
       (visualizations it).

Definition set_code (it : item) (c : option (list (string * value))) : item :=
  Item (id it) (label it) (icon it) (isThirdParty it) (isMasterObject it)
       (count it) (details it) (errors it) (searchTerms it) (items it)
       (properties it) (children it) (layout it) c (preview it) (asset it)
       (visualizations it).

Definition set_preview (it : item) (p : option string) : item :=
  Item (id it) (label it) (icon it) (isThirdParty it) (isMasterObject it)
       (count it) (details it) (errors it) (searchTerms it) (items it)
       (properties it) (children it) (layout it) (code it) p (asset it)
       (visualizations it).

(** ** prepareItem *)

Section PrepareItem.
Context `{Host}.

(** [i[0].toUpperCase() + i.substr(1)]; [i[0]] is [undefined] for the
    empty key. *)
Definition capitalize (i : string) : result string :=
  match i with
  | EmptyString => Throw "Cannot read properties of undefined (reading 'toUpperCase')"
  | String c r => Ok (toUpperCase (String c EmptyString) ++ r)
  end.

(** The value of a details entry: its own [value] property when it
    has one, the entry itself otherwise. *)
Definition detailValue (e : value) : value :=
  if Js.hasOwnProperty e "value" then Js.get e "value" else e.

(** [false === value || (value && value.length)] *)
Definition isListed (v : value) : bool :=
  match v with
  | VBool false => true
  | _ => Js.truthy (Js.and v (Js.get v "length"))
  end.

(** [null === e || "undefined" === typeof e] *)
Definition isNullish (e : value) : bool :=
  match e with
  | VNull | VUndefined => true
  | _ => false
  end.

(** An entry of the code collection. *)
Definition codeEntry (l : string) (v : value) : value :=
  VObj [("label", VStr l); ("value", v)].

(** The object pushed onto [details] for key [i], if any. *)
Definition detailRow (i : string) (e : value) : result (option value) :=
  let v := detailValue e in
  if isListed v then
    let* lbl :=
      (if Js.truthy (Js.get e "label") then Ok (Js.get e "label")
       else let* c := capitalize i in Ok (VStr c)) in
    Ok (Some (VObj [("name", VStr i);
                    ("label", lbl);
                    ("value", if Js.isArray v then v else VArr [v]);
                    ("isCode", VBool (Js.truthy (Js.get e "isCode")))]))
  else Ok None.

(** The loop [for (i in item.details || {})] over the keys [keys]. *)
Fixpoint detailRows (d : value) (keys : list string) : result (list value) :=
  match keys with
  | [] => Ok []
  | i :: r =>
      let* row :=
        match Js.assoc i (Js.own_entries d) with
        | Some e => if isNullish e then Ok None else detailRow i e
        | None => Ok None
        end in
      let* rows := detailRows d r in
      Ok (match row with
          | Some x => x :: rows
          | None => rows
          end)
  end.

(** [o.hasOwnProperty(k)] on a plain object *)
Definition hasKey {A} (k : string) (o : list (string * A)) : bool :=
  match Js.assoc k o with Some _ => true | None => false end.

(** The code collection of an item without sub-items. *)
Definition prepareCode (it : item) : list (string * value) :=
  let c0 := match code it with Some c => c | None => [] end in
  let c1 :=
    match layout it with
    | Some l =>
        if hasKey "layout" c0 then c0
        else Js.set "layout" (codeEntry "Layout" (JSON_stringify l)) c0
    | None => c0
    end in
  let c2 :=
    match properties it with
    | Some p =>
        if hasKey "properties" c1 then c1
        else Js.set "properties" (codeEntry "Properties" (JSON_stringify p)) c1
    | None => c1
    end in
  match children it with
  | Some ch =>
      if Js.truthy ch && negb (hasKey "children" c2)
      then Js.set "children" (codeEntry "Children" (JSON_stringify ch)) c2
      else c2
  | None => c2
  end.

Definition prepareItem (it : item) : result item :=
  let st0 := Js.or (searchTerms it) (VStr "") in
  let* st1 :=
    (if Js.truthy (Js.and (details it) (Js.get (details it) "tags")) then
       match Js.get (Js.get (details it) "tags") "value" with
       | VArr l => Ok (Js.add_string st0 (Js.join " " l ++ " "))
       | _ => Throw "item.details.tags.value.join is not a function"
       end
     else Ok st0) in
  let d := Js.or (details it) (VObj []) in
  let* rows := detailRows d (List.map fst (Js.own_entries d)) in
  let it1 := set_details (set_searchTerms it st1) (VArr rows) in
  Ok (match items it with
      | Some _ => it1
      | None => set_code it1 (Some (prepareCode it1))
      end).

End PrepareItem.

(** ** Predicates used to state the properties of [prepareItem] *)

(** A value whose [length] is non-zero: a non-empty string, a non-empty
    array, or an object carrying a truthy [length] of its own. *)
Definition nonzeroLength (v : value) : Prop :=
  match v with
  | VStr s => s <> ""
  | VArr l => l <> []
  | VObj o => exists n, Js.assoc "length" o = Some n /\ Js.truthy n = true
  | _ => False
  end.

(** A row of the prepared [details] array. *)
Definition isDetailRow (r : value) : Prop :=
  exists (name : string) (lbl : value) (vs : list value) (c : bool),
    r = VObj [("name", VStr name); ("label", lbl);
              ("value", VArr vs); ("isCode", VBool c)].


(** The entry of key [i] is listed: it is defined and its value passes
    the test of the loop. *)
Definition listedEntry (e : value) : bool :=
  negb (isNullish e) && isListed (detailValue e).

(** ** Single-object URLs *)

Section Urls.
Context `{Host}.

(** [s.replace(/\/+$/g, "")] *)
Fixpoint stripTrailingSlashes (s : string) : string :=
  match s with
  | EmptyString => EmptyString
  | String c r =>
      match stripTrailingSlashes r with
      | EmptyString => if Ascii.eqb c "/" then EmptyString else String c EmptyString
      | r' => String c r'
      end
  end.

(** The base URI of the app, without the project directory. *)
Definition baseURI : string :=
  (if globalOpts_isSecure then "https://" else "http://")
    ++ globalOpts_host ++ ":" ++ Js.ToString globalOpts_port
    ++ stripTrailingSlashes globalOpts_prefix ++ "/".

(** [options.opts || "nointeraction,noselections"] *)
Definition defaultOpts (opts : option string) : string :=
  match opts with
  | Some o => if String.eqb o "" then "nointeraction,noselections" else o
  | None => "nointeraction,noselections"
  end.

Definition getSingleSheetUrl (appId sheetId : string) (opts : option string) : string :=
  baseURI ++ "single/?appid=" ++ encodeURIComponent appId
          ++ "&sheet=" ++ sheetId ++ "&opt=" ++ defaultOpts opts.

Definition getSingleVizUrl (appId objId : string) (opts : option string) : string :=
  baseURI ++ "single/?appid=" ++ encodeURIComponent appId
          ++ "&obj=" ++ objId ++ "&opt=" ++ defaultOpts opts.

(** ** getSheetInfo *)

(** [info.map(function (a, index) { ... })] from index [index] on. *)
Fixpoint addSheetPreviews (appId : string) (index : nat) (info : list item) : list item :=
  match info with
  | [] => []
  | a :: r =>
      (match index with
       | O => a
       | S _ =>
           set_preview a
             (Some (getSingleSheetUrl appId (id a) (Some "nointeraction,noselections")))
       end) :: addSheetPreviews appId (S index) r
  end.

(** What [getSheetInfo] resolves to once [appInfo.sheets] has delivered
    [info]. *)
Definition getSheetInfo (appId : string) (info : list item) : list item :=
  addSheetPreviews appId 0 info.

End Urls.

(** ** getUniqueAppObjectsFromSheets *)

(** The object built for every visualization of every sheet. *)
Record sheetObject := {
  so_id : string;
  so_sheet : string;
  so_errors : list value;
  so_meta : extensionMeta;
  so_properties : vizProperties;
  so_children : list value;
  so_masterobject : option masterobject
}.

(** [a.properties.qInfo.qType] *)
Definition so_qType (a : sheetObject) : string :=
  qType (props_qInfo (so_properties a)).

(** [_.uniq(array, false, iteratee)]: the first element of every key,
    in order of appearance. *)
Fixpoint uniqFrom {A K} (eqb : K -> K -> bool) (key : A -> K)
         (seen : list K) (array : list A) : list A :=
  match array with
  | [] => []
  | x :: r =>
      if existsb (eqb (key x)) seen then uniqFrom eqb key seen r
      else x :: uniqFrom eqb key (seen ++ [key x]) r
  end.

Definition uniq {A K} (eqb : K -> K -> bool) (key : A -> K) (array : list A) : list A :=
  uniqFrom eqb key [] array.

(** [a === b] on labels *)
Definition label_eqb (a b : option string) : bool :=
  match a, b with
  | Some x, Some y => String.eqb x y
  | None, None => true
  | _, _ => false
  end.

(** A stable sort by a three-way comparator, as [Array.prototype.sort]
    is for a consistent comparator. *)
Fixpoint insertBy {A} (cmp : A -> A -> Z) (x : A) (l : list A) : list A :=
  match l with
  | [] => [x]
  | y :: r => if cmp x y <=? 0 then x :: y :: r else y :: insertBy cmp x r
  end.

Definition sortBy {A} (cmp : A -> A -> Z) (l : list A) : list A :=
  fold_right (insertBy cmp) [] l.

(** The metadata used when the extension list does not know the
    template: [{}]. *)
Definition noExtension : extensionInfo :=
  {| ext_name := None; ext_version := VUndefined; ext_description := VUndefined;
     ext_author := VUndefined; ext_bundle := VUndefined |}.

(** Records as the values they are in the running program. *)
Definition extensionMeta_value (m : extensionMeta) : value :=
  VObj [("name", VStr (meta_name m)); ("template", VStr (meta_template m));
        ("isThirdParty", meta_isThirdParty m)].

(** The properties object as a value, for the host functions that take
    it whole. *)
Definition vizProperties_value (p : vizProperties) : value :=
  VObj (("qInfo", VObj [("qId", VStr (qId (props_qInfo p)));
                        ("qType", VStr (qType (props_qInfo p)))])
        :: match props_extensionMeta p with
           | Some m => [("extensionMeta", extensionMeta_value m)]
           | None => []
           end
        ++ [("title", props_title p); ("subtitle", props_subtitle p)]
        ++ props_other p).

Definition masterobject_value (m : masterobject) : value :=
  VObj (("qInfo", VObj [("qId", VStr (mo_qInfo_qId m))])
        :: ("qMetaDef", VObj [("title", mo_qMetaDef_title m)])
        :: mo_other m).

Definition label_value (l : option string) : value :=
  match l with
  | Some s => VStr s
  | None => VUndefined
  end.

Section UniqueAppObjects.
Context `{Host}.

(** The sheet objects derived from the sheet info, flattened by one
    level. *)
Definition sheetObjectsOf (sheetInfo : list item) : list sheetObject :=
  flat_map
    (fun sheet =>
       List.map
         (fun object =>
            {| so_id := cell_name object;
               so_sheet := id sheet;
               so_errors := viz_errors object;
               so_meta :=
                 match props_extensionMeta (viz_properties object) with
                 | Some m => m
                 | None =>
                     {| meta_name := qType (props_qInfo (viz_properties object));
                        meta_template := qType (props_qInfo (viz_properties object));
                        meta_isThirdParty := VBool false |}
                 end;
               so_properties := viz_properties object;
               so_children := viz_children object;
               so_masterobject := viz_masterobject object |})
         (match visualizations sheet with
          | Some v => v
          | None => []
          end))
    sheetInfo.

(** [{ label: ..., value: ... }] *)
Definition detail (l : string) (v : value) : value :=
  VObj [("label", VStr l); ("value", v)].

Definition dataEntry (d : dataDefinition) : value :=
  VObj [("label", dd_label d); ("value", VArr (dd_value d)); ("isCode", dd_isCode d)].

(** [t && t.qStringExpression ? t.qStringExpression.qExpr : t] *)
Definition titleValue (t : value) : value :=
  if Js.truthy (Js.and t (Js.get t "qStringExpression"))
  then Js.get (Js.get t "qStringExpression") "qExpr"
  else t.

(** [sheetInfo.find(function (b) { return b.id === sheet; })] *)
Definition findSheet (sheetInfo : list item) (sheet : string) : option item :=
  List.find (fun b => String.eqb (id b) sheet) sheetInfo.

(** The loop [for (i in data)]: every entry is stored in the details
    and its values are appended to the search terms. *)
Definition addDataDetails (data : list (string * dataDefinition))
           (acc : list (string * value) * string) : list (string * value) * string :=
  fold_left
    (fun acc kv =>
       (Js.set (fst kv) (dataEntry (snd kv)) (fst acc),
        (snd acc ++ (Js.join " " (dd_value (snd kv)) ++ " "))%string))
    data acc.

(** [mo && mo.qInfo.qId] and [mo && mo.qMetaDef.title || null] *)
Definition masterObjectId (mo : option masterobject) : value :=
  match mo with
  | Some m => VStr (mo_qInfo_qId m)
  | None => VUndefined
  end.

Definition masterObjectTitle (mo : option masterobject) : value :=
  Js.or (match mo with
         | Some m => mo_qMetaDef_title m
         | None => VUndefined
         end) VNull.

(** The labels of the sheets of a group, with their multiplicity. *)
Definition sheetLabels (sheets : list item) : list value :=
  List.map
    (fun a =>
       let count :=
         List.length (List.filter (fun b => label_eqb (label a) (label b)) sheets) in
       VStr ((if (1 <? Z.of_nat count) then Js.string_of_nat count ++ " x " else "")
             ++ Js.ToString (label_value (label a))))
    (uniq label_eqb label sheets).

(** One sub-item of a group of several objects; the search terms of the
    parent are threaded through. *)
Definition subItemOf (sheetInfo : list item) (appId : string)
           (a : sheetObject) (terms : string) : result (item * string) :=
  let* sheet :=
    match findSheet sheetInfo (so_sheet a) with
    | Some b => Ok b
    | None => Throw "Cannot read properties of undefined (reading 'label')"
    end in
  let details0 :=
    [("masterobject",
      detail (translator_get "properties.masterItem")
             (masterObjectTitle (so_masterobject a)));
     ("title",
      detail (translator_get "properties.titleExpression")
             (titleValue (props_title (so_properties a))));
     ("subtitle",
      detail (translator_get "properties.subtitle")
             (titleValue (props_subtitle (so_properties a))));
     ("sheet",
      detail (translator_get "Common.Sheet") (label_value (label sheet)))] in
  let code0 :=
    [("properties",
      codeEntry "Properties" (JSON_stringify (vizProperties_value (so_properties a))))] in
  let '(code1, data) :=
    match so_children a with
    | _ :: _ =>
        (Js.set "children"
                (codeEntry "Children" (JSON_stringify (VArr (so_children a)))) code0,
         appInfo_getChildrenDataDefinition (so_children a))
    | [] =>
        (code0,
         match so_masterobject a with
         | Some m => appInfo_getDataDefinition (masterobject_value m)
         | None => appInfo_getDataDefinition (vizProperties_value (so_properties a))
         end)
    end in
  let '(details1, terms1) := addDataDetails data (details0, terms) in
  let subItem :=
    {| id := so_id a; label := None; icon := None; isThirdParty := VUndefined;
       isMasterObject := masterObjectId (so_masterobject a);
       count := VUndefined;
       details := VObj details1;
       errors := VArr (so_errors a);
       searchTerms := VUndefined;
       items := None; properties := None; children := None; layout := None;
       code := Some code1;
       preview := Some (getSingleVizUrl appId (so_id a)
                                        (Some "nointeraction,noselections"));
       asset := None; visualizations := None |} in
  let* prepared := prepareItem subItem in
  Ok (prepared, terms1).

(** [objects.map(function (a) { ... })] of the multi-item branch. *)
Fixpoint subItemsOf (sheetInfo : list item) (appId : string)
         (objects : list sheetObject) (terms : string) : result (list item * string) :=
  match objects with
  | [] => Ok ([], terms)
  | a :: r =>
      let* st := subItemOf sheetInfo appId a terms in
      let* rest := subItemsOf sheetInfo appId r (snd st) in
      Ok (fst st :: fst rest, snd rest)
  end.

(** [l.length] as a condition *)
Definition nonEmpty {A} (l : list A) : bool :=
  match l with
  | [] => false
  | _ :: _ => true
  end.

(** The details of a group before any of them is removed. *)
Definition groupDetails (isSingleItem : bool) (first : sheetObject)
           (extensionMetadata : extensionInfo) (sheets : list item) : list (string * value) :=
  [("masterobject",
    detail (translator_get "properties.masterItem")
           (if isSingleItem then masterObjectTitle (so_masterobject first) else VNull));
   ("version",
    detail (translator_get "geo.properties.wms.version")
           (Js.or (ext_version extensionMetadata) VNull));
   ("title",
    detail (translator_get "Common.Title")
           (titleValue (props_title (so_properties first))));
   ("subtitle",
    detail (translator_get "properties.subtitle")
           (titleValue (props_subtitle (so_properties first))));
   ("description",
    detail (translator_get "Common.Description")
           (Js.or (ext_description extensionMetadata) VNull));
   ("author",
    detail (translator_get "Author") (Js.or (ext_author extensionMetadata) VNull));
   ("bundle",
    detail (translator_get "Bundle")
           (Js.or (Js.and (ext_bundle extensionMetadata)
                          (Js.get (ext_bundle extensionMetadata) "name")) VNull));
   ("sheets",
    detail (translator_get "Common.Sheets") (VArr (sheetLabels sheets)))].

(** The callback of [.map] over the unique templates: the grouped item
    of the type of [template], before sorting and before the final
    [prepareItem]. *)
Definition groupItem (sheetInfo : list item)
           (extensionList : list (string * extensionInfo)) (appId : string)
           (sheetObjects : list sheetObject) (template : sheetObject) : result item :=
  let objects :=
    List.filter (fun a => String.eqb (so_qType template) (so_qType a)) sheetObjects in
  match objects with
  | [] => Throw "Cannot read properties of undefined (reading 'errors')"
  | first :: _ =>
      let isMultipleItems := (1 <? Z.of_nat (List.length objects)) in
      let isSingleItem := negb isMultipleItems in
      let hasError :=
        (isSingleItem && nonEmpty (so_errors first))
        || (isMultipleItems && existsb (fun o => nonEmpty (so_errors o)) objects) in
      let* sheets :=
        mapM (fun a =>
                match findSheet sheetInfo (so_sheet a) with
                | Some b => Ok b
                | None => Throw "Cannot read properties of undefined (reading 'label')"
                end) objects in
      let extensionMetadata :=
        match Js.assoc (meta_template (so_meta template)) extensionList with
        | Some e => e
        | None => noExtension
        end in
      let details0 := groupDetails isSingleItem first extensionMetadata sheets in
      let item0 :=
        {| id := so_qType template;
           label := Some (match ext_name extensionMetadata with
                          | Some n => if String.eqb n "" then meta_name (so_meta template) else n
                          | None => meta_name (so_meta template)
                          end);
           icon := Some (if hasError then "debug" else "");
           isThirdParty := meta_isThirdParty (so_meta template);
           isMasterObject :=
             if isSingleItem then masterObjectId (so_masterobject first)
             else VBool false;
           count := if isSingleItem then VNum 0 else VNum (Z.of_nat (List.length objects));
           details := VObj details0;
           errors := if isSingleItem then VArr (so_errors first) else VBool false;
           searchTerms := VStr "";
           items := None; properties := None; children := None; layout := None;
           code := None; preview := None; asset := None; visualizations := None |} in
      if isMultipleItems then
        let* sub := subItemsOf sheetInfo appId objects "" in
        Ok {| id := id item0; label := label item0; icon := icon item0;
              isThirdParty := isThirdParty item0;
              isMasterObject := isMasterObject item0; count := count item0;
              details := VObj (Js.omit ["title"; "subtitle"] details0);
              errors := errors item0;
              searchTerms := VStr (snd sub);
              items := Some (fst sub);
              properties := None; children := None; layout := None;
              code := None; preview := None; asset := None;
              visualizations := None |}
      else
        let data :=
          match so_children first with
          | _ :: _ => appInfo_getChildrenDataDefinition (so_children first)
          | [] => appInfo_getDataDefinition (vizProperties_value (so_properties first))
          end in
        let dt := addDataDetails data (details0, "") in
        Ok {| id := id item0; label := label item0; icon := icon item0;
              isThirdParty := isThirdParty item0;
              isMasterObject := isMasterObject item0; count := count item0;
              details := VObj (fst dt);
              errors := errors item0;
              searchTerms := VStr (snd dt);
              items := None;
              properties := Some (vizProperties_value (so_properties first));
              children := (match so_children first with
                           | _ :: _ => Some (VArr (so_children first))
                           | [] => None
                           end);
              layout := None; code := None;
              preview := Some (getSingleVizUrl appId
                                 (qId (props_qInfo (so_properties first)))
                                 (Some "nointeraction,noselections"));
              asset := None; visualizations := None |}
  end.

(** [a.label.toLowerCase()] *)
Definition lowerLabel (a : item) : string :=
  match label a with
  | Some s => toLowerCase s
  | None => EmptyString
  end.

(** The comparator handed to [sort]. *)
Definition compareLabels (a b : item) : Z :=
  localeCompare (lowerLabel a) (lowerLabel b).

(** The label is a string, so that [toLowerCase] can be called. *)
Definition hasLabel (a : item) : bool :=
  match label a with
  | Some _ => true
  | None => false
  end.

(** [.sort(function (a, b) { ... })]: with two elements or more every
    element is compared, and a missing label throws. *)
Definition sortByLabel (l : list item) : result (list item) :=
  match l with
  | [] | [_] => Ok l
  | _ =>
      if forallb hasLabel l then Ok (sortBy compareLabels l)
      else Throw "Cannot read properties of undefined (reading 'toLowerCase')"
  end.

Definition getUniqueAppObjectsFromSheets (sheetInfo : list item)
           (extensionList : list (string * extensionInfo)) (appId : string) : result (list item) :=
  let sheetObjects := sheetObjectsOf sheetInfo in
  let* grouped :=
    mapM (groupItem sheetInfo extensionList appId sheetObjects)
         (uniq String.eqb so_qType sheetObjects) in
  let* sorted := sortByLabel grouped in
  mapM prepareItem sorted.

End UniqueAppObjects.

(** ** The modal: search *)

(** [s.indexOf(q)] *)
Fixpoint indexOfFrom (i : Z) (s q : string) : Z :=
  if String.prefix q s then i
  else match s with
       | EmptyString => -1
       | String _ r => indexOfFrom (i + 1) r q
       end.

Definition indexOf (s q : string) : Z := indexOfFrom 0 s q.


(** Further assignments to a field of an item. *)
Definition set_label (it : item) (l : option string) : item :=
  Item (id it) l (icon it) (isThirdParty it) (isMasterObject it)
       (count it) (details it) (errors it) (searchTerms it) (items it)
       (properties it) (children it) (layout it) (code it) (preview it)
       (asset it) (visualizations it).

Definition set_icon (it : item) (i : option string) : item :=
  Item (id it) (label it) i (isThirdParty it) (isMasterObject it)
       (count it) (details it) (errors it) (searchTerms it) (items it)
       (properties it) (children it) (layout it) (code it) (preview it)
       (asset it) (visualizations it).

Definition set_asset (it : item) (a : option string) : item :=
  Item (id it) (label it) (icon it) (isThirdParty it) (isMasterObject it)
       (count it) (details it) (errors it) (searchTerms it) (items it)
       (properties it) (children it) (layout it) (code it) (preview it)
       a (visualizations it).

Definition set_items (it : item) (l : option (list item)) : item :=
  Item (id it) (label it) (icon it) (isThirdParty it) (isMasterObject it)
       (count it) (details it) (errors it) (searchTerms it) l
       (properties it) (children it) (layout it) (code it) (preview it)
       (asset it) (visualizations it).

(** The part of the modal's scope that holds the display model; the
    cursor on the active item is not part of the model. *)
Record scope := {
  loading : bool;
  activeAsset : string;
  allItems : list (string * list item);
  filteredItems : list (string * list item);
  selected : list item;
  search_query : string;
  watching : bool
}.

Definition initialScope : scope :=
  {| loading := true; activeAsset := "app"; allItems := []; filteredItems := [];
     selected := []; search_query := ""; watching := false |}.

Section Search.
Context `{Host}.

(** [matchSearchQuery] for the query [query] *)
Definition matchSearchQuery (query : string) (input : value) : bool :=
  Js.truthy input
  && negb (indexOf (toLowerCase (Js.ToString input)) (toLowerCase query) =? -1).

(** The filter of the watcher on [search.query]. *)
Definition matchesQuery (query : string) (a : item) : bool :=
  (Z.of_nat (String.length query) =? 0)
  || matchSearchQuery query (VStr (id a))
  || matchSearchQuery query (label_value (label a))
  || matchSearchQuery query (searchTerms a).

(** The loop [for (i in $scope.allItems)] over the keys [keys]. *)
Definition filterAll (query : string) (all : list (string * list item))
           (keys : list string) (filtered : list (string * list item)) : list (string * list item) :=
  fold_left
    (fun f i =>
       match Js.assoc i all with
       | Some l => Js.set i (List.filter (matchesQuery query) l) f
       | None => f
       end)
    keys filtered.

(** [$scope.assetClicked], as far as the lists go. *)
Definition assetClicked (assetId : string) (s : scope) : scope :=
  {| loading := loading s;
     activeAsset := assetId;
     allItems := allItems s;
     filteredItems := filteredItems s;
     selected := match Js.assoc assetId (filteredItems s) with
                 | Some l => l
                 | None => selected s
                 end;
     search_query := search_query s;
     watching := watching s |}.

(** The watcher on [search.query]. *)
Definition searchQueryChanged (query : string) (s : scope) : scope :=
  assetClicked (activeAsset s)
    {| loading := loading s;
       activeAsset := activeAsset s;
       allItems := allItems s;
       filteredItems :=
         filterAll query (allItems s) (List.map fst (allItems s)) (filteredItems s);
       selected := selected s;
       search_query := query;
       watching := watching s |}.

End Search.

(** ** The modal: loading the display model *)

(** The state of a promise at some moment. *)
Inductive promise (A : Type) : Type :=
| Pending
| Resolved (a : A)
| Rejected (reason : string).
Arguments Pending {A}.
Arguments Resolved {A} a.
Arguments Rejected {A} reason.

(** [p.then(f)] for a callback that returns a plain value *)
Definition promise_then {A B} (p : promise A) (f : A -> B) : promise B :=
  match p with
  | Pending => Pending
  | Resolved a => Resolved (f a)
  | Rejected r => Rejected r
  end.

(** [$q.all(object)]: rejected as soon as a member is, resolved with
    all results once every member is resolved. *)
Fixpoint q_all {A} (ps : list (string * promise A)) : promise (list (string * A)) :=
  match ps with
  | [] => Resolved []
  | (k, p) :: r =>
      match p, q_all r with
      | Rejected m, _ => Rejected m
      | _, Rejected m => Rejected m
      | Resolved a, Resolved l => Resolved ((k, a) :: l)
      | _, _ => Pending
      end
  end.

(** The promises the modal waits for: what the host and the info
    functions of this module have delivered so far. *)
Record hostQueries := {
  q_getAppInfo : promise (list item);
  q_getScriptInfo : promise (list item);
  q_getFieldInfo : promise (list item);
  q_appInfo_sheets : promise (list item);
  q_getDimensionInfo : promise (list item);
  q_getMeasureInfo : promise (list item);
  q_getMasterObjectInfo : promise (list item);
  q_getAlternateStateInfo : promise (list item);
  q_getVariableInfo : promise (list item);
  q_getBookmarkInfo : promise (list item);
  q_appInfo_extensions : promise (list (string * extensionInfo))
}.

(** [$scope.allItems = a] *)
Definition set_allItems (s : scope) (a : list (string * list item)) : scope :=
  {| loading := loading s; activeAsset := activeAsset s; allItems := a;
     filteredItems := filteredItems s; selected := selected s;
     search_query := search_query s; watching := watching s |}.

(** [a.errors && a.errors.length] *)
Definition hasErrors (a : item) : bool :=
  Js.truthy (Js.and (errors a) (Js.get (errors a) "length")).

Section Inspector.
Context `{Host}.

(** The object handed to [$q.all]. *)
Definition inspectorQueries (appId : string) (q : hostQueries) : list (string * promise (list item)) :=
  [("app", q_getAppInfo q);
   ("script", q_getScriptInfo q);
   ("field", q_getFieldInfo q);
   ("sheet", promise_then (q_appInfo_sheets q) (getSheetInfo appId));
   ("dimension", q_getDimensionInfo q);
   ("measure", q_getMeasureInfo q);
   ("masterObject", q_getMasterObjectInfo q);
   ("alternate-state", q_getAlternateStateInfo q);
   ("variable", q_getVariableInfo q);
   ("bookmark", q_getBookmarkInfo q)].

(** The loop that prepares the items of every array of [args]; a throw
    leaves the categories stored so far. *)
Fixpoint prepareCategories (args : list (string * list item))
         (all : list (string * list item)) : list (string * list item) * result unit :=
  match args with
  | [] => (all, Ok tt)
  | (i, l) :: r =>
      match mapM prepareItem l with
      | Ok l' => prepareCategories r (Js.set i l' all)
      | Throw m => (all, Throw m)
      end
  end.

(** Marks the first bookmark with the given id as the start bookmark. *)
Fixpoint markDefaultBookmark (defaultBookmarkId : value) (l : list item) : result (list item) :=
  match l with
  | [] => Ok []
  | a :: r =>
      if (match defaultBookmarkId with
          | VStr d => String.eqb (id a) d
          | _ => false
          end)
      then
        match details a with
        | VArr rows =>
            Ok (set_details (set_icon a (Some "bookmark"))
                  (VArr (rows ++ [VObj [("id", VStr "default");
                                        ("label", VStr (translator_get "Bookmarks.StartBookmark"));
                                        ("value", VArr [VStr (translator_get "Bookmarks.StartBookmark.Hint")])]])%list)
                :: r)
        | _ => Throw "details.push is not a function"
        end
      else
        let* r' := markDefaultBookmark defaultBookmarkId r in
        Ok (a :: r')
  end.

(** The default bookmark id found in the [AppPropsList] item. *)
Definition defaultBookmarkIdOf (all : list (string * list item)) : result value :=
  match Js.assoc "app" all with
  | None => Throw "Cannot read properties of undefined (reading 'find')"
  | Some app =>
      match List.find (fun a => String.eqb (id a) "AppPropsList") app with
      | None => Throw "Cannot read properties of undefined (reading 'layout')"
      | Some a =>
          match layout a with
          | None | Some VUndefined | Some VNull =>
              Throw "Cannot read properties of undefined (reading 'defaultBookmarkId')"
          | Some l => Ok (Js.get l "defaultBookmarkId")
          end
      end
  end.

(** The marking of the default bookmark; the list is read from
    [allItems.bookmarks]. *)
Definition markBookmarks (all : list (string * list item)) : result (list (string * list item)) :=
  let* defaultBookmarkId := defaultBookmarkIdOf all in
  if Js.truthy defaultBookmarkId then
    match Js.assoc "bookmarks" all with
    | None => Throw "Cannot read properties of undefined (reading 'length')"
    | Some l =>
        let* l' := markDefaultBookmark defaultBookmarkId l in
        Ok (Js.set "bookmarks" l' all)
    end
  else Ok all.

(** The error collection: an item with errors is tagged with its asset
    and listed, and so is each of its sub-items with errors. *)
Definition markSubItem (i : string) (a b : item) : item :=
  if hasErrors b
  then set_icon (set_label (set_asset b (Some i)) (label a)) (Some "debug")
  else b.

Definition collectItem (i : string) (a : item) : item * list item :=
  let a1 := if hasErrors a then set_asset a (Some i) else a in
  let a2 := set_items a1 (option_map (List.map (markSubItem i a)) (items a)) in
  (a2,
   ((if hasErrors a then [a2] else [])
      ++ List.filter hasErrors (match items a2 with Some l => l | None => [] end))%list).

(** The items of a category after the collection, and the errors found
    in it. *)
Definition collectCategory (i : string) (l : list item) : list item * list item :=
  (List.map (fun a => fst (collectItem i a)) l,
   flat_map (fun a => snd (collectItem i a)) l).

(** The loop over all categories but [errors] itself. *)
Definition collectErrors (all : list (string * list item)) : list (string * list item) :=
  let marked :=
    List.map (fun kv => if String.eqb (fst kv) "errors" then kv
                        else (fst kv, fst (collectCategory (fst kv) (snd kv)))) all in
  let found :=
    flat_map (fun kv => if String.eqb (fst kv) "errors" then []
                        else snd (collectCategory (fst kv) (snd kv))) all in
  Js.set "errors" found marked.

(** The callback that runs once all information has arrived.  The
    scope is updated step by step, so a throw leaves what was stored
    before it. *)
Definition populate (args : list (string * list item))
           (extensionList : list (string * extensionInfo)) (appId : string)
           (s : scope) : scope * result unit :=
  match prepareCategories args (allItems s) with
  | (all1, Throw m) => (set_allItems s all1, Throw m)
  | (all1, Ok _) =>
      match Js.assoc "sheet" all1 with
      | None => (set_allItems s all1, Throw "Cannot read properties of undefined (reading 'map')")
      | Some sheets =>
          match getUniqueAppObjectsFromSheets sheets extensionList appId with
          | Throw m => (set_allItems s all1, Throw m)
          | Ok uniqObjects =>
              let all2 :=
                Js.set "extension"
                  (List.filter (fun a => Js.truthy (isThirdParty a)) uniqObjects)
                  (Js.set "chart"
                     (List.filter (fun a => negb (Js.truthy (isThirdParty a))) uniqObjects)
                     all1) in
              match markBookmarks all2 with
              | Throw m => (set_allItems s all2, Throw m)
              | Ok all3 =>
                  let all4 := collectErrors (Js.set "errors" [] all3) in
                  ({| loading := false;
                      activeAsset := activeAsset s;
                      allItems := all4;
                      filteredItems := filteredItems s;
                      selected := match Js.assoc "app" all4 with
                                  | Some l => l
                                  | None => []
                                  end;
                      search_query := search_query s;
                      watching := true |}, Ok tt)
              end
          end
      end
  end.

(** What the modal has done with the promises in the state [q]. *)
Inductive loadState : Type :=
| Waiting
| Loaded
| Failed (reason : string).

Definition loadInspector (appId : string) (q : hostQueries) : scope * loadState :=
  match q_all (inspectorQueries appId q) with
  | Pending => (initialScope, Waiting)
  | Rejected m => (initialScope, Failed m)
  | Resolved args =>
      match q_appInfo_extensions q with
      | Pending => (initialScope, Waiting)
      | Rejected m => (initialScope, Failed m)
      | Resolved extensionList =>
          match populate args extensionList appId initialScope with
          | (s, Ok _) => (s, Loaded)
          | (s, Throw m) => (s, Failed m)
          end
      end
  end.

End Inspector.

(** ** openApp *)

Module OpenApp.

(** What a promise handed out by [openApp] stands for. *)
Inductive promiseKind : Type :=
| NotFound (message : string)
| AlreadyApp (appId : string)
| CurrentApp
| Opening (appId : string).

(** A promise object: [ref] tells two promises of the same kind apart. *)
Record promiseRef := { ref : nat; kind : promiseKind }.


(** The module state: the map [_apps], the calls of [qlik.openApp] made
    so far, and the number of promises created. *)
Record state := {
  apps : gmap string promiseRef;
  opened : list string;
  created : nat
}.

(** The module as loaded: [_apps = {}]. *)
Definition initial : state :=
  {| apps := ∅; opened := []; created := 0 |}.


Section WithCurrentApp.
Variable currApp_id : string.



(** [$q.reject(...)] and [$q.resolve(...)]: a new promise. *)
Definition fresh (k : promiseKind) (st : state) : promiseRef * state :=
  ({| ref := created st; kind := k |},
   {| apps := apps st; opened := opened st; created := S (created st) |}).



End WithCurrentApp.

End OpenApp.

(** ** The controller: state machine and modal handle *)

Module Controller.

Inductive fsmState : Type := IDLE | MODAL.
Inductive transitionName : Type := OPEN | CLOSE.

Record transition := {
  from : fsmState;
  to : fsmState;
  name : transitionName
}.

(** The transitions the controller configures its state machine with. *)
Definition transitions : list transition :=
  [ {| from := IDLE; to := MODAL; name := OPEN |};
    {| from := MODAL; to := IDLE; name := CLOSE |} ].

Definition fsmState_eqb (a b : fsmState) : bool :=
  match a, b with
  | IDLE, IDLE | MODAL, MODAL => true
  | _, _ => false
  end.

Definition transitionName_eqb (a b : transitionName) : bool :=
  match a, b with
  | OPEN, OPEN | CLOSE, CLOSE => true
  | _, _ => false
  end.

(** Modelled from the spec: [util.StateMachine], whose source is not
    part of this module.  A named transition fires when the table has
    it for the current state; otherwise the state stays as it is. *)
Definition fire (table : list transition) (n : transitionName) (st : fsmState) : option fsmState :=
  option_map to
    (List.find (fun t => fsmState_eqb (from t) st && transitionName_eqb (name t) n) table).

(** The controller: the state of [fsm], the variable [modal], whether
    [showAppInspectorForApp] is still waiting for [openApp], and the
    dialogs the controller has closed. *)
Record state := {
  fsm : fsmState;
  modal : option nat;
  showing : bool;
  closeCalls : list nat
}.

(** The controller as created. *)
Definition initial : state :=
  {| fsm := IDLE; modal := None; showing := false; closeCalls := [] |}.

Inductive event : Type :=
| Open (inEditState : bool)
| DialogShown (handle : nat)
| ModalClosed
| Destroy.

(** [$scope.open], the end of [showAppInspectorForApp], the callback on
    [modal.closed], and the handler of [$destroy]. *)
Definition step (s : state) (e : event) : state :=
  match e with
  | Open inEditState =>
      if inEditState then
        match fire transitions OPEN (fsm s) with
        | Some st' =>
            {| fsm := st'; modal := modal s; showing := true;
               closeCalls := closeCalls s |}
        | None => s
        end
      else s
  | DialogShown handle =>
      if showing s then
        {| fsm := fsm s; modal := Some handle; showing := false;
           closeCalls := closeCalls s |}
      else s
  | ModalClosed =>
      {| fsm := match fire transitions CLOSE (fsm s) with
                | Some st' => st'
                | None => fsm s
                end;
         modal := None; showing := showing s; closeCalls := closeCalls s |}
  | Destroy =>
      match modal s with
      | Some handle =>
          {| fsm := fsm s; modal := None; showing := showing s;
             closeCalls := (closeCalls s ++ [handle])%list |}
      | None => s
      end
  end.

(** The controller after a sequence of events. *)
Definition run (s : state) (es : list event) : state := fold_left step es s.

End Controller.

(** ** Statements about [prepareItem] *)


(** The rows of the prepared details of an item that carry the name
    [k]. *)
Definition hasRow (it : item) (k : string) : Prop :=
  exists rows row,
    details it = VArr rows /\ In row rows /\ Js.get row "name" = VStr k.

(** ** Statements about the search *)

Definition isSubstring (q s : string) : Prop :=
  exists pre post : string, s = (pre ++ q ++ post)%string.

(** The text a field is searched in; a missing or empty field has
    none. *)
Definition fieldText (v : value) : option string :=
  if Js.truthy v then Some (Js.ToString v) else None.

(** The query occurs in the field, letter case aside. *)
Definition containsCI `{Host} (query : string) (field : value) : Prop :=
  exists text,
    fieldText field = Some text /\
    isSubstring (toLowerCase query) (toLowerCase text).

(** ** Statements about the grouped visualization items *)

(** The visualizations of all sheets, and those of one type. *)
Definition visualizationsOf (sheetInfo : list item) : list visualization :=
  flat_map (fun sheet => match visualizations sheet with
                         | Some v => v
                         | None => []
                         end) sheetInfo.

(** [properties.qInfo.qType] of a visualization *)
Definition vizType (v : visualization) : string :=
  qType (props_qInfo (viz_properties v)).

(** The visualizations of type [t], in the order of the sheets. *)
Definition objectsOfType (sheetInfo : list item) (t : string) : list visualization :=
  List.filter (fun v => String.eqb t (vizType v)) (visualizationsOf sheetInfo).

(** A sheet object stands for the visualization it was built from. *)
Definition builtFrom (a : sheetObject) (v : visualization) : Prop :=
  so_id a = cell_name v /\ so_properties a = viz_properties v.

(** The label of [a] does not come after the label of [b], letter case
    aside. *)
Definition labelsAscend `{Host} (a b : item) : Prop :=
  exists la lb,
    label a = Some la /\ label b = Some lb /\
    localeCompare (toLowerCase la) (toLowerCase lb) <= 0.

(** The data definitions of the host name every entry: no key is the
    empty string. *)
Definition namedData (data : list (string * dataDefinition)) : Prop :=
  Forall (fun kv => fst kv <> EmptyString) data.

(** Details [prepareItem] accepts: every key is a name, and an entry
    under [tags] carries an array. *)
Definition preparableDetails (raw : list (string * value)) : Prop :=
  Forall (fun kv => fst kv <> EmptyString /\
                    (fst kv = "tags" -> exists l, Js.get (snd kv) "value" = VArr l))
         raw.

(** Both data-definition helpers of the host name their entries. *)
Definition namedHost `{Host} : Prop :=
  (forall v : value, namedData (appInfo_getDataDefinition v)) /\
  (forall c : list value, namedData (appInfo_getChildrenDataDefinition c)).

(** ** Statements about loading *)

(** [b] is the object [a] of category [i], as it is or as the error
    collection has tagged it. *)
Definition taggedFrom `{Host} (i : string) (a b : item) : Prop :=
  b = a \/ b = fst (collectItem i a).

(** The promise has delivered a result. *)
Definition isResolved {A} (p : promise A) : Prop :=
  exists a, p = Resolved a.

(** ** A concrete host and sample data

    An ASCII-only runtime and a small app, used to run the definitions. *)

Module Sample.

Definition lowerAscii (c : ascii) : ascii :=
  let n := nat_of_ascii c in
  if ((65 <=? n) && (n <=? 90))%nat then ascii_of_nat (n + 32) else c.

Definition upperAscii (c : ascii) : ascii :=
  let n := nat_of_ascii c in
  if ((97 <=? n) && (n <=? 122))%nat then ascii_of_nat (n - 32) else c.

Fixpoint mapString (f : ascii -> ascii) (s : string) : string :=
  match s with
  | EmptyString => EmptyString
  | String c r => String (f c) (mapString f r)
  end.

Definition compareStrings (a b : string) : Z :=
  match String_as_OT.compare a b with
  | Lt => -1
  | Eq => 0
  | Gt => 1
  end.

Definition fieldsOf (v : value) : list (string * dataDefinition) :=
  match Js.get v "fields" with
  | VArr l => [("fields", {| dd_label := VStr "Fields"; dd_value := l;
                             dd_isCode := VUndefined |})]
  | _ => []
  end.

#[export] Instance host : Host := {|
  toLowerCase := mapString lowerAscii;
  toUpperCase := mapString upperAscii;
  localeCompare := compareStrings;
  encodeURIComponent := fun s => s;
  translator_get := fun s => s;
  JSON_stringify := fun v => VStr (Js.ToString v);
  globalOpts_isSecure := true;
  globalOpts_host := "qlik.example";
  globalOpts_port := VNum 443;
  globalOpts_prefix := "/hub//";
  appInfo_getDataDefinition := fieldsOf;
  appInfo_getChildrenDataDefinition := fun _ => []
|}.

Definition viz (name type title : string) (errs : list value) : visualization :=
  {| cell_name := name;
     viz_errors := errs;
     viz_properties :=
       {| props_qInfo := {| qId := name; qType := type |};
          props_extensionMeta := None;
          props_title := VStr title;
          props_subtitle := VUndefined;
          props_other := [("fields", VArr [VStr "Region"])] |};
     viz_children := [];
     viz_masterobject := None |}.

Definition sheet (i l : string) (v : option (list visualization)) : item :=
  {| id := i; label := Some l; icon := None; isThirdParty := VUndefined;
     isMasterObject := VUndefined; count := VUndefined;
     details := VObj [("description", detail "Description" (VStr ""))];
     errors := VUndefined; searchTerms := VUndefined;
     items := None; properties := None; children := None; layout := None;
     code := None; preview := None; asset := None; visualizations := v |}.

(** A summary entry followed by two sheets: two tables, one bar chart
    without a title. *)
Definition sheetInfo : list item :=
  [ sheet "summary" "Summary" None;
    sheet "s1" "Sales" (Some [viz "t1" "table" "Orders" []; viz "b1" "barchart" "" []]);
    sheet "s2" "Stock" (Some [viz "t2" "table" "Items" [VStr "calc"]]) ].

(** A field item as [getFieldInfo] builds it, with details of every
    kind. *)
Definition fieldItem : item :=
  {| id := "Region"; label := Some "Region"; icon := Some "key";
     isThirdParty := VUndefined; isMasterObject := VUndefined;
     count := VNum 4;
     details :=
       VObj [("table", detail "Table" (VArr [VStr "Sales"; VStr "Stock"]));
             ("tags", detail "Tags" (VArr [VStr "$key"; VStr "$text"]));
             ("comment", VStr "");
             ("hidden", VBool false);
             ("rows", VNum 0);
             ("owner", VNull)];
     errors := VUndefined; searchTerms := VUndefined;
     items := None; properties := Some (VObj [("qName", VStr "Region")]);
     children := None; layout := None; code := None; preview := None;
     asset := None; visualizations := None |}.

Definition preparedFieldItem : item :=
  {| id := "Region"; label := Some "Region"; icon := Some "key";
     isThirdParty := VUndefined; isMasterObject := VUndefined;
     count := VNum 4;
     details :=
       VArr [VObj [("name", VStr "table"); ("label", VStr "Table");
                   ("value", VArr [VStr "Sales"; VStr "Stock"]);
                   ("isCode", VBool false)];
             VObj [("name", VStr "tags"); ("label", VStr "Tags");
                   ("value", VArr [VStr "$key"; VStr "$text"]);
                   ("isCode", VBool false)];
             VObj [("name", VStr "hidden"); ("label", VStr "Hidden");
                   ("value", VArr [VBool false]);
                   ("isCode", VBool false)]];
     errors := VUndefined; searchTerms := VStr "$key $text ";
     items := None; properties := Some (VObj [("qName", VStr "Region")]);
     children := None; layout := None;
     code := Some [("properties",
                    VObj [("label", VStr "Properties");
                          ("value", VStr "[object Object]")])];
     preview := None; asset := None; visualizations := None |}.

(** The scope once the sheets are stored, before any search. *)
Definition loadedScope : scope :=
  {| loading := false; activeAsset := "sheet";
     allItems := [("sheet", sheetInfo)]; filteredItems := [];
     selected := []; search_query := EmptyString; watching := true |}.

(** The options item of the app category, with the default bookmark
    [bm] in its layout. *)
Definition appOptions (bm : value) : item :=
  {| id := "AppPropsList"; label := Some "Options"; icon := None;
     isThirdParty := VUndefined; isMasterObject := VUndefined;
     count := VUndefined;
     details := VObj [("theme", detail "Theme" (VStr "sense"))];
     errors := VUndefined; searchTerms := VUndefined;
     items := None; properties := None; children := None;
     layout := Some (VObj [("defaultBookmarkId", bm)]);
     code := None; preview := None; asset := None; visualizations := None |}.

(** All queries resolved. *)
Definition queries (bm : value) : hostQueries :=
  {| q_getAppInfo := Resolved [appOptions bm];
     q_getScriptInfo := Resolved [];
     q_getFieldInfo := Resolved [fieldItem];
     q_appInfo_sheets := Resolved sheetInfo;
     q_getDimensionInfo := Resolved [];
     q_getMeasureInfo := Resolved [];
     q_getMasterObjectInfo := Resolved [];
     q_getAlternateStateInfo := Resolved [];
     q_getVariableInfo := Resolved [];
     q_getBookmarkInfo := Resolved [];
     q_appInfo_extensions := Resolved [] |}.

End Sample.

(** * Further functions of the module *)

(** ** Statements about the errors, the rows and the code of [prepareItem] *)

(** The entry under [tags], when there is one, carries an array that
    [join] can be called on. *)
Definition tagsJoinable (d : value) : bool :=
  if Js.truthy (Js.and d (Js.get d "tags"))
  then Js.isArray (Js.get (Js.get d "tags") "value")
  else true.

(** The details have a listed entry under the empty key that brings no
    label of its own. *)
Definition unnamedRow (d : value) : bool :=
  match Js.assoc "" (Js.own_entries d) with
  | Some e => listedEntry e && negb (Js.truthy (Js.get e "label"))
  | None => false
  end.

(** The keys of the details whose entry is listed, in enumeration
    order. *)
Definition listedKeys (d : value) : list string :=
  List.filter
    (fun k => match Js.assoc k (Js.own_entries d) with
              | Some e => listedEntry e
              | None => false
              end)
    (List.map fst (Js.own_entries d)).

(** The own property of an item that the code entry [k] is made from,
    with the label of the entry. *)
Definition codeSource (it : item) (k : string) : option (string * value) :=
  if String.eqb k "layout" then option_map (pair "Layout") (layout it)
  else if String.eqb k "properties" then option_map (pair "Properties") (properties it)
  else if String.eqb k "children" then
    match children it with
    | Some ch => if Js.truthy ch then Some ("Children", ch) else None
    | None => None
    end
  else None.

(** The code collection an item brings along. *)
Definition codeOf (it : item) : list (string * value) :=
  match code it with
  | Some c => c
  | None => []
  end.

(** [n] slashes *)
Fixpoint slashes (n : nat) : string :=
  match n with
  | O => EmptyString
  | S m => String "/" (slashes m)
  end.

(** ** Statements about sessions of [openApp] *)

Module OpenAppSpec.
Import OpenApp.

Section WithCurrentApp.
Variable currApp_id : string.





End WithCurrentApp.

End OpenAppSpec.

(** ** Statements about the grouped visualization items: errors and template *)

(** The metadata a visualization is grouped under: its own, or the one
    made up from its type. *)
Definition vizMeta (v : visualization) : extensionMeta :=
  match props_extensionMeta (viz_properties v) with
  | Some m => m
  | None => {| meta_name := vizType v; meta_template := vizType v;
               meta_isThirdParty := VBool false |}
  end.

(** A sheet object with everything it takes from its visualization. *)
Definition madeFrom (a : sheetObject) (v : visualization) : Prop :=
  so_id a = cell_name v /\ so_errors a = viz_errors v /\
  so_meta a = vizMeta v /\ so_properties a = viz_properties v /\
  so_children a = viz_children v /\ so_masterobject a = viz_masterobject v.

(** [object.errors.length] as a condition *)
Definition hasVizErrors (v : visualization) : bool := nonEmpty (viz_errors v).

(** The name the extension list has for the template of the metadata,
    or else the name in the metadata. *)
Definition extensionLabel (extensionList : list (string * extensionInfo))
           (m : extensionMeta) : string :=
  match Js.assoc (meta_template m) extensionList with
  | Some e =>
      match ext_name e with
      | Some n => if String.eqb n "" then meta_name m else n
      | None => meta_name m
      end
  | None => meta_name m
  end.

(** ** The assets of the modal *)

Record assetEntry := { asset_id : string; asset_label : string }.

Section Assets.
Context `{Host}.

(** The list of assets in the inspector modal. *)
Definition assets : list assetEntry :=
  [ {| asset_id := "app"; asset_label := translator_get "App" |};
    {| asset_id := "errors"; asset_label := translator_get "Errors" |};
    {| asset_id := "script"; asset_label := translator_get "Script" |};
    {| asset_id := "field"; asset_label := translator_get "Common.Fields" |};
    {| asset_id := "sheet"; asset_label := translator_get "Common.Sheets" |};
    {| asset_id := "chart"; asset_label := translator_get "Common.Charts" |};
    {| asset_id := "extension"; asset_label := translator_get "Common.Extensions" |};
    {| asset_id := "dimension"; asset_label := translator_get "Common.MasterDimensions" |};
    {| asset_id := "measure"; asset_label := translator_get "Common.MasterMeasures" |};
    {| asset_id := "masterObject"; asset_label := translator_get "library.Visualizations" |};
    {| asset_id := "alternate-state"; asset_label := translator_get "Common.AlternateStates" |};
    {| asset_id := "variable"; asset_label := translator_get "Common.Variables" |};
    {| asset_id := "bookmark"; asset_label := translator_get "Common.Bookmarks" |} ].

(** [_.first(_.pluck(_.where(assets, { id: id }), "label"))]: the label
    of the first asset with the id, [undefined] when there is none. *)
Definition getAssetLabel (i : option string) : option string :=
  match i with
  | Some s =>
      match List.filter (fun a => String.eqb (asset_id a) s) assets with
      | a :: _ => Some (asset_label a)
      | [] => None
      end
  | None => None
  end.

(** [$scope.itemLabel] while [activeAsset] is the active asset. *)
Definition itemLabel (activeAsset : string) (it : item) : result value :=
  if String.eqb "errors" activeAsset then
    match getAssetLabel (asset it) with
    | Some l => Ok (VStr (l ++ " / " ++ Js.ToString (label_value (label it))))
    | None => Throw "Cannot read properties of undefined (reading 'concat')"
    end
  else Ok (label_value (label it)).

End Assets.

(** ** Statements about the loaded display model *)

(** The keys of the object handed to [$q.all]. *)
Definition fetchedKeys : list string :=
  ["app"; "script"; "field"; "sheet"; "dimension"; "measure";
   "masterObject"; "alternate-state"; "variable"; "bookmark"].

(** The sub-items of an item, none when it has no [items]. *)
Definition subItems (a : item) : list item :=
  match items a with
  | Some l => l
  | None => []
  end.

(** The categories as stored before the errors are collected: the
    prepared results of the queries, the two halves of the grouped
    objects, and the empty list of errors. *)
Definition storedCategories (prepared : list (string * list item))
           (uniqObjects : list item) : list (string * list item) :=
  (prepared ++
   [("chart", List.filter (fun a => negb (Js.truthy (isThirdParty a))) uniqObjects);
    ("extension", List.filter (fun a => Js.truthy (isThirdParty a)) uniqObjects);
    ("errors", [])])%list.

(** ** The info functions of the master items *)

(** Further assignments to a field of an item. *)
Definition set_properties (it : item) (p : option value) : item :=
  Item (id it) (label it) (icon it) (isThirdParty it) (isMasterObject it)
       (count it) (details it) (errors it) (searchTerms it) (items it)
       p (children it) (layout it) (code it) (preview it)
       (asset it) (visualizations it).

Definition set_errors (it : item) (e : value) : item :=
  Item (id it) (label it) (icon it) (isThirdParty it) (isMasterObject it)
       (count it) (details it) e (searchTerms it) (items it)
       (properties it) (children it) (layout it) (code it) (preview it)
       (asset it) (visualizations it).

(** An object literal that sets [id] and nothing else. *)
Definition newItem (i : string) : item :=
  {| id := i; label := None; icon := None; isThirdParty := VUndefined;
     isMasterObject := VUndefined; count := VUndefined; details := VUndefined;
     errors := VUndefined; searchTerms := VUndefined; items := None;
     properties := None; children := None; layout := None; code := None;
     preview := None; asset := None; visualizations := None |}.

(** [v.concat(" ")]: a string is extended, an array gets one more
    element, and no other value has a [concat] to call. *)
Definition concatSpace (v : value) : result value :=
  match v with
  | VStr s => Ok (VStr (s ++ " "))
  | VArr l => Ok (VArr (l ++ [VStr " "]))
  | VUndefined | VNull =>
      Throw "Cannot read properties of undefined (reading 'concat')"
  | _ => Throw "value.concat is not a function"
  end.

(** The callback of [info.map] in [getDimensionInfo], [getMeasureInfo],
    [getVariableInfo] and [getBookmarkInfo], for the details entry
    [key] each of them reads. *)
Definition withSearchTerms (key : string) (a : item) : result item :=
  if Js.truthy (Js.and (details a) (Js.get (details a) key)) then
    let* terms := concatSpace (Js.get (Js.get (details a) key) "value") in
    Ok (set_searchTerms a terms)
  else Ok a.

(** What the info functions resolve to once the list of [appInfo] has
    arrived. *)
Definition getDimensionInfo (info : list item) : result (list item) :=
  mapM (withSearchTerms "definition") info.

Definition getMeasureInfo (info : list item) : result (list item) :=
  mapM (withSearchTerms "expression") info.

Definition getBookmarkInfo (info : list item) : result (list item) :=
  mapM (withSearchTerms "fields") info.

(** The entry prepended to the variables; [qLocaleInfo] is
    [app.model.layout.qLocaleInfo]. *)
Definition systemVariables (qLocaleInfo : value) : item :=
  set_properties
    (set_label (newItem "app.model.layout.qLocaleInfo") (Some "System variables"))
    (Some qLocaleInfo).

Definition getVariableInfo (qLocaleInfo : value) (info : list item) : result (list item) :=
  let* infoList := mapM (withSearchTerms "definition") info in
  Ok (systemVariables qLocaleInfo :: infoList).

(** ** The data model *)

(** What the module reads of the result of [getTablesAndKeys]; the
    other properties of every record are kept for the JSON view. *)
Record fieldInTableData := {
  fit_qName : string;
  fit_qKeyType : string;
  fit_qTags : list string;
  fit_qOriginalFields : list string;
  fit_other : list (string * value)
}.

Record tableRecord := {
  tr_qName : string;
  tr_qFields : list fieldInTableData;
  tr_qNoOfRows : value;
  tr_qIsSynthetic : bool;
  tr_other : list (string * value)
}.

Record sourceKeyRecord := {
  sk_qKeyFields : list string;
  sk_other : list (string * value)
}.

Record tablesAndKeys := {
  qtr : list tableRecord;
  qk : list sourceKeyRecord;
  tak_other : list (string * value)
}.

(** The profile of a field of a table, and the profiles of a table. *)
Record fieldProfile := {
  fp_qName : string;
  fp_other : list (string * value)
}.

Record tableProfile := { qFieldProfiling : list fieldProfile }.

(** Records as the values they are in the running program. *)
Definition strings_value (l : list string) : value := VArr (List.map VStr l).

Definition fieldInTableData_value (f : fieldInTableData) : value :=
  VObj (("qName", VStr (fit_qName f)) :: ("qKeyType", VStr (fit_qKeyType f))
        :: ("qTags", strings_value (fit_qTags f))
        :: ("qOriginalFields", strings_value (fit_qOriginalFields f))
        :: fit_other f).

Definition tableRecord_value (t : tableRecord) : value :=
  VObj (("qName", VStr (tr_qName t))
        :: ("qFields", VArr (List.map fieldInTableData_value (tr_qFields t)))
        :: ("qNoOfRows", tr_qNoOfRows t)
        :: ("qIsSynthetic", VBool (tr_qIsSynthetic t))
        :: tr_other t).

Definition sourceKeyRecord_value (k : sourceKeyRecord) : value :=
  VObj (("qKeyFields", strings_value (sk_qKeyFields k)) :: sk_other k).

Definition tablesAndKeys_value (m : tablesAndKeys) : value :=
  VObj (("qtr", VArr (List.map tableRecord_value (qtr m)))
        :: ("qk", VArr (List.map sourceKeyRecord_value (qk m)))
        :: tak_other m).

Definition fieldProfile_value (f : fieldProfile) : value :=
  VObj (("qName", VStr (fp_qName f)) :: fp_other f).

(** The item of the data model as [getDataModelInfo] returns it: the
    item proper, and the two properties only [getFieldInfo] reads. *)
Record dataModelInfo := {
  dm_item : item;
  dm_layout : tablesAndKeys;
  dm_profile : option (list (string * tableProfile))
}.

(** The first callback of [getDataModelInfo]: the profiles of all
    tables, [null] when the engine has no [getTableProfileData]. *)
Definition tableProfiles (getTableProfileData : option (string -> promise tableProfile))
           (model : tablesAndKeys) : promise (option (list (string * tableProfile))) :=
  match getTableProfileData with
  | None => Resolved None
  | Some f =>
      promise_then
        (q_all (fold_left
                  (fun profile qTable =>
                     Js.set (tr_qName qTable) (f (tr_qName qTable)) profile)
                  (qtr model) []))
        Some
  end.

Section DataModel.
Context `{Host}.

(** [a.qName.concat(" (", a.qFields.length, " x ", a.qNoOfRows, ")")] *)
Definition tableLabel (a : tableRecord) : string :=
  tr_qName a ++ " (" ++ Js.string_of_nat (List.length (tr_qFields a)) ++ " x "
    ++ Js.ToString (tr_qNoOfRows a) ++ ")".

(** [a.qName.concat(" (", translator.get("Common.Rows"), ": ", a.qNoOfRows, ")")] *)
Definition syntheticTableLabel (a : tableRecord) : string :=
  tr_qName a ++ " (" ++ translator_get "Common.Rows" ++ ": "
    ++ Js.ToString (tr_qNoOfRows a) ++ ")".

(** A table none of whose fields is a key. *)
Definition isDataIsland (a : tableRecord) : bool :=
  negb (nonEmpty (List.filter
                    (fun b => negb (String.eqb "NOT_KEY" (fit_qKeyType b)))
                    (tr_qFields a))).

(** [-1 !== a.qTags.indexOf("$synthetic")] *)
Definition isSyntheticKey (a : fieldInTableData) : bool :=
  existsb (String.eqb "$synthetic") (fit_qTags a).

(** [a.qName.concat(" [", a.qOriginalFields.join(", "), "]")] *)
Definition syntheticKeyLabel (a : fieldInTableData) : string :=
  fit_qName a ++ " [" ++ Js.join ", " (List.map VStr (fit_qOriginalFields a)) ++ "]".

Definition syntheticKeys (model : tablesAndKeys) : list string :=
  uniq String.eqb (fun s : string => s)
    (List.concat
       (List.map
          (fun a => List.map syntheticKeyLabel (List.filter isSyntheticKey (tr_qFields a)))
          (List.filter (fun a => negb (tr_qIsSynthetic a)) (qtr model)))).

(** The second callback of [getDataModelInfo], on the model and the
    profiles. *)
Definition getDataModelInfo (model : tablesAndKeys)
           (profile : option (list (string * tableProfile))) : dataModelInfo :=
  {| dm_item :=
       {| id := "app.model.engineApp.getTablesAndKeys()";
          label := Some (translator_get "bdi.connect.model");
          icon := None; isThirdParty := VUndefined; isMasterObject := VUndefined;
          count := VUndefined;
          details :=
            VObj [("tables",
                   detail (translator_get "Common.All.Tables")
                     (strings_value
                        (List.map tableLabel
                           (List.filter (fun a => negb (tr_qIsSynthetic a)) (qtr model)))));
                  ("dataIslands",
                   detail "Data islands"
                     (strings_value
                        (List.map tr_qName (List.filter isDataIsland (qtr model)))));
                  ("keys",
                   detail (translator_get "DataModelViewer.Footer.Metadata.Keys")
                     (strings_value
                        (List.map (fun a => Js.join ", " (List.map VStr (sk_qKeyFields a)))
                                  (qk model))));
                  ("syntheticTables",
                   detail "Synthetic tables"
                     (strings_value
                        (List.map syntheticTableLabel
                           (List.filter tr_qIsSynthetic (qtr model)))));
                  ("syntheticKeys",
                   detail "Synthetic keys" (strings_value (syntheticKeys model)))];
          errors := VUndefined; searchTerms := VUndefined; items := None;
          properties := None; children := None;
          layout := Some (tablesAndKeys_value model);
          code := Some [("layout",
                         codeEntry "Datamodel"
                           (JSON_stringify (tablesAndKeys_value model)))];
          preview := None; asset := None; visualizations := None |};
     dm_layout := model;
     dm_profile := profile |}.

End DataModel.

(** ** getFieldInfo *)

(** An entry of [qFieldList.qItems]; the tags may be missing. *)
Record fieldListItem := {
  fl_qName : string;
  fl_qCardinal : value;
  fl_qTags : option (list string)
}.

Section FieldInfo.
Context `{Host}.

(** [b.qFields.filter(function (c) { return c.qName === name; }).length] *)
Definition hasField (name : string) (b : tableRecord) : bool :=
  nonEmpty (List.filter (fun c => String.eqb (fit_qName c) name) (tr_qFields b)).

(** The tables a field occurs in. *)
Definition fieldTablesOf (datamodel : dataModelInfo) (a : fieldListItem) : list tableRecord :=
  List.filter (hasField (fl_qName a)) (qtr (dm_layout datamodel)).

(** [b.qFields.find(function (c) { return c.qName === name; })] *)
Definition fieldProperties (name : string) (b : tableRecord) : value :=
  match List.find (fun c => String.eqb (fit_qName c) name) (tr_qFields b) with
  | Some c => fieldInTableData_value c
  | None => VUndefined
  end.

(** The code collection with the profile of the field in the table. *)
Definition profileCode (profile : list (string * tableProfile))
           (tableName fieldName : string) : result (list (string * value)) :=
  match Js.assoc tableName profile with
  | None => Throw "Cannot read properties of undefined (reading 'qProfiling')"
  | Some t =>
      Ok [("profile",
           codeEntry "Profile"
             (JSON_stringify
                (match List.find (fun c => String.eqb (fp_qName c) fieldName)
                                 (qFieldProfiling t) with
                 | Some c => fieldProfile_value c
                 | None => VUndefined
                 end)))]
  end.

(** The code an item starts with: the profile when profiles are
    available, no collection otherwise. *)
Definition initialCode (datamodel : dataModelInfo) (tableName fieldName : string)
  : result (option (list (string * value))) :=
  match dm_profile datamodel with
  | Some profile =>
      let* c := profileCode profile tableName fieldName in Ok (Some c)
  | None => Ok None
  end.

(** The sub-item of a field for one of its tables. *)
Definition fieldSubItem (datamodel : dataModelInfo) (a : fieldListItem)
           (b : tableRecord) : result item :=
  let item0 :=
    set_properties (newItem (tr_qName b ++ "/" ++ fl_qName a))
                   (Some (fieldProperties (fl_qName a) b)) in
  let* c := initialCode datamodel (tr_qName b) (fl_qName a) in
  prepareItem (set_code item0 c).

(** The callback of [qItems.map]. *)
Definition fieldItemOf (datamodel : dataModelInfo) (a : fieldListItem) : result item :=
  let fieldTables := fieldTablesOf datamodel a in
  let* tags :=
    match fl_qTags a with
    | Some t => Ok t
    | None => Throw "Cannot read properties of undefined (reading 'indexOf')"
    end in
  let item0 :=
    {| id := fl_qName a; label := Some (fl_qName a);
       icon := Some (if existsb (String.eqb "$key") tags then "key" else "");
       isThirdParty := VUndefined; isMasterObject := VUndefined;
       count := fl_qCardinal a;
       details :=
         VObj [("table",
                detail (translator_get "DataModelViewer.searchfield.fieldtype.table")
                       (strings_value (List.map tr_qName fieldTables)));
               ("tags", detail (translator_get "Common.Tags") (strings_value tags))];
       errors := VUndefined; searchTerms := VUndefined; items := None;
       properties := None; children := None; layout := None; code := None;
       preview := None; asset := None; visualizations := None |} in
  if (1 <? Z.of_nat (List.length fieldTables)) then
    let* subs := mapM (fieldSubItem datamodel a) fieldTables in
    Ok (set_items item0 (Some subs))
  else
    match fieldTables with
    | [] =>
        Throw (match dm_profile datamodel with
               | Some _ => "Cannot read properties of undefined (reading 'qName')"
               | None => "Cannot read properties of undefined (reading 'qFields')"
               end)
    | first :: _ =>
        let* c := initialCode datamodel (tr_qName first) (fl_qName a) in
        Ok (set_properties (set_code item0 c)
                           (Some (fieldProperties (fl_qName a) first)))
    end.

(** What [getFieldInfo] resolves to once the field list and the data
    model have arrived. *)
Definition getFieldInfo (qItems : list fieldListItem) (datamodel : dataModelInfo)
  : result (list item) :=
  let* fieldInfo := mapM (fieldItemOf datamodel) qItems in
  let* sorted := sortByLabel fieldInfo in
  Ok (dm_item datamodel :: sorted).

End FieldInfo.

(** ** getScriptInfo *)

(** A script section as [appInfo.script] delivers it: the item, its
    [script] and its [index]. *)
Record scriptSection := {
  sec_item : item;
  sec_script : option value;
  sec_index : Z
}.

(** An entry of the result of [checkScriptSyntax]. *)
Record scriptError := {
  qTabIx : Z;
  qLineInTab : Z;
  qTextPos : Z;
  qErrLen : Z
}.

Section ScriptInfo.

(** [util.substr_utf8_bytes] *)
Variable substr_utf8_bytes : string -> Z -> Z -> string.

(** The object pushed onto [item.errors]. *)
Definition scriptErrorEntry (qScript : string) (a : scriptError) : value :=
  VObj [("message", VStr ("Line " ++ Js.string_of_Z (qLineInTab a)));
        ("errorData", VArr [VStr (substr_utf8_bytes qScript (qTextPos a) (qErrLen a))])].

(** The callback of [args.info.forEach]. *)
Definition scriptItem (validation : list scriptError) (qScript : string)
           (s : scriptSection) : result item :=
  let c0 := match code (sec_item s) with Some c => c | None => [] end in
  let c1 :=
    match sec_script s with
    | Some v => if hasKey "script" c0 then c0
                else Js.set "script" (codeEntry "Script" v) c0
    | None => c0
    end in
  let item1 := set_code (sec_item s) (Some c1) in
  if nonEmpty validation
     && existsb (fun a => qTabIx a =? sec_index s) validation
  then
    let* errs :=
      match Js.or (errors item1) (VArr []) with
      | VArr l => Ok l
      | _ => Throw "item.errors.push is not a function"
      end in
    Ok (set_errors (set_icon item1 (Some "debug"))
          (VArr (errs ++ List.map (scriptErrorEntry qScript)
                           (List.filter (fun a => qTabIx a =? sec_index s) validation))))
  else Ok item1.

(** What [getScriptInfo] resolves to once the sections, the syntax
    check and the script have arrived. *)
Definition getScriptInfo (info : list scriptSection) (validation : list scriptError)
           (qScript : string) : result (list item) :=
  mapM (scriptItem validation qScript) info.

End ScriptInfo.

(** ** Statements about the info functions *)

(** The entry [key] of the details, when there is one, has a value
    with a [concat]: a string or an array. *)
Definition concatenable (key : string) (a : item) : bool :=
  if Js.truthy (Js.and (details a) (Js.get (details a) key)) then
    match Js.get (Js.get (details a) key) "value" with
    | VStr _ | VArr _ => true
    | _ => false
    end
  else true.

(** The field occurs in some table of the model, and has its tags. *)
Definition fieldInModel (model : tablesAndKeys) (a : fieldListItem) : Prop :=
  fl_qTags a <> None /\
  exists b, In b (qtr model) /\ hasField (fl_qName a) b = true.

(** The table has a profile whenever profiles are available. *)
Definition profiled (datamodel : dataModelInfo) (b : tableRecord) : Prop :=
  forall p, dm_profile datamodel = Some p -> hasKey (tr_qName b) p = true.

(** What [getFieldInfo] needs of a field: its tags, a table it occurs
    in, and a profile for each of its tables. *)
Definition fieldListed (datamodel : dataModelInfo) (a : fieldListItem) : Prop :=
  fl_qTags a <> None /\
  fieldTablesOf datamodel a <> [] /\
  Forall (profiled datamodel) (fieldTablesOf datamodel a).

(** The validation entries of a script section. *)
Definition sectionErrors (validation : list scriptError) (s : scriptSection)
  : list scriptError :=
  List.filter (fun a => qTabIx a =? sec_index s) validation.

(** The errors a section brings along, as a list. *)
Definition ownErrors (s : scriptSection) : list value :=
  match errors (sec_item s) with
  | VArr l => l
  | _ => []
  end.

(** The errors of the section are missing or an array, so that the
    errors of the syntax check can be pushed onto them. *)
Definition pushable (s : scriptSection) : bool :=
  match errors (sec_item s) with
  | VArr _ => true
  | v => negb (Js.truthy v)
  end.

(** ** getAppInfo *)

(** An entry of the list of themes. *)
Record themeEntry := { theme_id : string; theme_name : value }.

(** [v[k]], which throws for [v] null or undefined. *)
Definition prop (v : value) (k : string) : result value :=
  match v with
  | VUndefined | VNull =>
      Throw ("Cannot read properties of undefined (reading '" ++ k ++ "')")
  | _ => Ok (Js.get v k)
  end.

(** [s.replace(":", "")]: the first colon is removed. *)
Fixpoint removeColon (s : string) : string :=
  match s with
  | EmptyString => EmptyString
  | String c r => if Ascii.eqb c ":" then r else String c (removeColon r)
  end.

(** [_.isEmpty(v)] *)
Definition isEmpty (v : value) : bool :=
  match v with
  | VArr l => negb (nonEmpty l)
  | VStr s => String.eqb s ""
  | VObj o => negb (nonEmpty o)
  | _ => true
  end.

(** [_.extend(retval, source)] *)
Definition extend (retval : list (string * value)) (source : value) : list (string * value) :=
  fold_left (fun acc kv => Js.set (fst kv) (snd kv) acc) (Js.own_entries source) retval.

Section AppInfo.
Context `{Host}.

(** [new Date(v).toLocaleString()] and [(v / (1024 * 1024)).toFixed(2)] *)
Variable toLocaleString : value -> string.
Variable toMegabytes : value -> string.

(** The flags of [util]. *)
Variables isQlikCloud isQlikSenseClientManaged isQlikSenseDesktop : bool.

(** [v ? translator.get("Common.Yes") : translator.get("Common.No")] *)
Definition yesNo (v : value) : value :=
  VStr (if Js.truthy v then translator_get "Common.Yes" else translator_get "Common.No").

(** [v ? new Date(v).toLocaleString() : null] *)
Definition dateOrNull (v : value) : value :=
  if Js.truthy v then VStr (toLocaleString v) else VNull.

(** The owner of the app as text. *)
Definition ownerText (owner : value) : value :=
  match owner with
  | VStr s => VStr s
  | _ =>
      if Js.truthy owner
      then VStr (Js.ToString (Js.get owner "userDirectory") ++ "/"
                   ++ Js.ToString (Js.get owner "userId"))
      else VNull
  end.

(** The item of [app.model.layout]. *)
Definition mainLayoutItem (layout : list (string * value)) : result item :=
  let l := VObj layout in
  let* stream :=
    (if Js.truthy (Js.get l "published") then prop (Js.get l "stream") "name"
     else Ok (VStr (translator_get "Common.No"))) in
  Ok (set_details
        (set_label
           {| id := "app.model.layout"; label := None; icon := None;
              isThirdParty := VUndefined; isMasterObject := VUndefined;
              count := VUndefined; details := VUndefined; errors := VUndefined;
              searchTerms := VUndefined; items := None; properties := None;
              children := None; layout := Some l; code := None; preview := None;
              asset := None; visualizations := None |}
           (Some "Main layout"))
        (VObj [("title", detail (translator_get "Common.Title") (Js.get l "qTitle"));
               ("description",
                detail (translator_get "Common.Description") (Js.get l "description"));
               ("filename",
                detail (removeColon (translator_get "AppDetails.FileName"))
                       (Js.get l "qFileName"));
               ("stream", detail "Stream" stream);
               ("createdDate", detail "Created" (dateOrNull (Js.get l "createdDate")));
               ("lastLoadedDate",
                detail (removeColon (translator_get "Toolbar.DataLastLoaded"))
                       (VStr (toLocaleString (Js.get l "qLastReloadTime"))));
               ("publishedDate",
                detail (translator_get "App.PublishedDate")
                       (dateOrNull (Js.get l "publishTime")));
               ("modifiedDate", detail "Modified" (dateOrNull (Js.get l "modifiedDate")));
               ("hasdata", detail "Contains data" (yesNo (Js.get l "qHasData")));
               ("hassectionaccess",
                detail "Section Access" (yesNo (Js.get l "hassectionaccess")))])).

(** [themeList.find(function (a) { return a.id === appprops.theme; })] *)
Definition findTheme (themeList : list themeEntry) (theme : value) : option themeEntry :=
  List.find (fun a => match theme with
                      | VStr t => String.eqb (theme_id a) t
                      | _ => false
                      end) themeList.

(** The item of the app options. *)
Definition appPropsItem (themeList : list themeEntry)
           (appprops : list (string * value)) : result item :=
  let p := VObj appprops in
  let* theme :=
    match findTheme themeList (Js.get p "theme") with
    | Some a => Ok (theme_name a)
    | None => Throw "Cannot read properties of undefined (reading 'name')"
    end in
  let* owner := prop (Js.get p "qMeta") "owner" in
  Ok {| id := "AppPropsList"; label := Some (translator_get "AppDetails.Options");
        icon := None; isThirdParty := VUndefined; isMasterObject := VUndefined;
        count := VUndefined;
        details :=
          VObj [("theme", detail (translator_get "AppDetails.AppTheme") theme);
                ("owner", detail "Owner" (ownerText owner))];
        errors := VUndefined; searchTerms := VUndefined; items := None;
        properties := None; children := None; layout := Some p; code := None;
        preview := None; asset := None; visualizations := None |}.

(** The item of the app properties. *)
Definition metadataItem (props : value) : item :=
  set_properties (set_label (newItem "app.model.getProperties()") (Some "Metadata"))
                 (Some props).

(** The item of the configuration. *)
Definition configurationItem (config : list (string * value)) : result item :=
  let c := VObj config in
  let* sso := prop (Js.get c "qFeatures") "qSSOEnabled" in
  Ok {| id := "app.model.getConfiguration()"; label := Some "Configuration";
        icon := None; isThirdParty := VUndefined; isMasterObject := VUndefined;
        count := VUndefined;
        details :=
          VObj [("installation",
                 detail "Installation"
                   (if isQlikCloud then VStr "Qlik Cloud"
                    else if isQlikSenseClientManaged then VStr "Qlik Sense Client Managed"
                    else if isQlikSenseDesktop then VStr "Qlik Sense Desktop"
                    else VNull));
                ("SSOEnabled",
                 detail "SSO"
                   (VStr (if Js.truthy sso then translator_get "Common.Enabled"
                          else translator_get "Common.No")))];
        errors := VUndefined; searchTerms := VUndefined; items := None;
        properties := None; children := None; layout := Some c; code := None;
        preview := None; asset := None; visualizations := None |}.

(** The item of the repository data [data]. *)
Definition qrsItem (data : value) : item :=
  {| id := "/qrs/app/{id}"; label := Some "QRS";
     icon := None; isThirdParty := VUndefined; isMasterObject := VUndefined;
     count := VUndefined;
     details :=
       VObj [("size",
              detail "File size (MB)" (VStr (toMegabytes (Js.get data "fileSize"))))];
     errors := VUndefined; searchTerms := VUndefined; items := None;
     properties := None; children := None; layout := Some data; code := None;
     preview := None; asset := None; visualizations := None |}.

(** The details of the summary: the id of the app, extended by the
    details of every item. *)
Definition summaryDetails (modelId : string) (infoList : list item) : list (string * value) :=
  fold_left (fun retval it => extend retval (details it)) infoList
            [("id", VStr modelId)].

Definition summaryItem (modelId : string) (infoList : list item) : item :=
  set_details (set_label (newItem modelId) (Some "Summary"))
              (VObj (summaryDetails modelId infoList)).

(** The last callback of [getAppInfo].  [modelId] and [layout] are
    [app.model.id] and [app.model.layout]; the other arguments are the
    members of [args], [qrsApp] being the object the callback before has
    stored there. *)
Definition getAppInfo (modelId : string) (layout : list (string * value))
           (themeList : list themeEntry) (appprops : list (string * value))
           (props : value) (config : list (string * value)) (qrsApp : value)
  : result (list item) :=
  let* main := mainLayoutItem layout in
  let* options := appPropsItem themeList appprops in
  let* configuration := configurationItem config in
  let infoList :=
    ([main; options; metadataItem props; configuration]
       ++ (if isEmpty (Js.get qrsApp "data") then []
           else [qrsItem (Js.get qrsApp "data")]))%list in
  Ok (summaryItem modelId infoList :: infoList).

End AppInfo.

(** ** Statements about getAppInfo *)

(** What the callback reads and cannot do without: the stream of a
    published app, the theme of the app among the themes, the meta data
    of the options and the features of the configuration. *)
Definition appInfoReadable (layout : list (string * value))
           (themeList : list themeEntry) (appprops config : list (string * value)) : Prop :=
  (Js.truthy (Js.get (VObj layout) "published") = true ->
   isNullish (Js.get (VObj layout) "stream") = false) /\
  (exists a, findTheme themeList (Js.get (VObj appprops) "theme") = Some a) /\
  isNullish (Js.get (VObj appprops) "qMeta") = false /\
  isNullish (Js.get (VObj config) "qFeatures") = false.

(** The keys of the details of the items under the summary, in order;
    the last one only with repository data. *)
Definition appDetailKeys (withQrs : bool) : list string :=
  (["title"; "description"; "filename"; "stream"; "createdDate"; "lastLoadedDate";
    "publishedDate"; "modifiedDate"; "hasdata"; "hassectionaccess";
    "theme"; "owner"; "installation"; "SSOEnabled"]
     ++ (if withQrs then ["size"] else []))%list.

(** The ids of the items under the summary. *)
Definition appInfoIds (withQrs : bool) : list string :=
  (["app.model.layout"; "AppPropsList"; "app.model.getProperties()";
    "app.model.getConfiguration()"]
     ++ (if withQrs then ["/qrs/app/{id}"] else []))%list.

(** ** More sample data

    A dimension, a data model with a key field, a script with a syntax
    error and the information of an app with a start bookmark, for the
    host of [Sample]. *)

Module SampleApp.

Definition dimension : item :=
  set_details (set_label (newItem "d1") (Some "Region"))
    (VObj [("definition", detail "Definition" (VStr "Region"));
           ("tags", detail "Tags" (VArr [VStr "geo"]))]).

Definition field (name keyType : string) (tags : list string) : fieldInTableData :=
  {| fit_qName := name; fit_qKeyType := keyType; fit_qTags := tags;
     fit_qOriginalFields := []; fit_other := [] |}.

Definition table (name : string) (fields : list fieldInTableData) : tableRecord :=
  {| tr_qName := name; tr_qFields := fields; tr_qNoOfRows := VNum 10;
     tr_qIsSynthetic := false; tr_other := [] |}.

(** Two tables linked by [Region], and an island. *)
Definition model : tablesAndKeys :=
  {| qtr := [ table "Sales" [field "Region" "ANY_KEY" ["$key"]; field "Amount" "NOT_KEY" []];
              table "Stock" [field "Region" "ANY_KEY" ["$key"]; field "Items" "NOT_KEY" []];
              table "Notes" [field "Note" "NOT_KEY" []] ];
     qk := [ {| sk_qKeyFields := ["Region"]; sk_other := [] |} ];
     tak_other := [] |}.

Definition fields : list fieldListItem :=
  [ {| fl_qName := "Region"; fl_qCardinal := VNum 4; fl_qTags := Some ["$key"] |};
    {| fl_qName := "Amount"; fl_qCardinal := VNum 9; fl_qTags := Some [] |};
    {| fl_qName := "Note"; fl_qCardinal := VNum 2; fl_qTags := Some [] |} ].

Definition appLayout : list (string * value) :=
  [("qTitle", VStr "Sales"); ("qFileName", VStr "sales.qvf");
   ("qLastReloadTime", VStr "2023-02-24"); ("qHasData", VBool true)].

Definition themeList : list themeEntry :=
  [ {| theme_id := "sense"; theme_name := VStr "Sense Classic" |};
    {| theme_id := "horizon"; theme_name := VStr "Sense Horizon" |} ].

(** The layout of the app options, with a start bookmark. *)
Definition appprops : list (string * value) :=
  [("theme", VStr "horizon"); ("qMeta", VObj [("owner", VStr "jane")]);
   ("defaultBookmarkId", VStr "bm1")].

Definition config : list (string * value) :=
  [("qFeatures", VObj [("qIsDesktop", VBool true)])].

(** What [getAppInfo] returns for this app on Qlik Sense Desktop. *)
Definition appInfo : list item :=
  match getAppInfo (H := Sample.host) Js.ToString Js.ToString false false true
                   "app1" appLayout themeList appprops (VObj []) config
                   (VObj [("$$state", VObj [])]) with
  | Ok l => l
  | Throw _ => []
  end.

(** All queries resolved, the [app] query to [appInfo]. *)
Definition queries : hostQueries :=
  {| q_getAppInfo := Resolved appInfo;
     q_getScriptInfo := Resolved [];
     q_getFieldInfo := Resolved [];
     q_appInfo_sheets := Resolved Sample.sheetInfo;
     q_getDimensionInfo := Resolved [];
     q_getMeasureInfo := Resolved [];
     q_getMasterObjectInfo := Resolved [];
     q_getAlternateStateInfo := Resolved [];
     q_getVariableInfo := Resolved [];
     q_getBookmarkInfo := Resolved [];
     q_appInfo_extensions := Resolved [] |}.

End SampleApp.

(** ** Facts about the value model *)

Lemma bind_Ok {A B} (r : result A) (k : A -> result B) (b : B) :
  bind r k = Ok b -> exists a, r = Ok a /\ k a = Ok b.
Proof.
  destruct r as [a|m]; simpl; intros E; [exists a; auto | discriminate].
Qed.

Ltac inv_bind H :=
  let a := fresh "a" in
  let Ha := fresh "Ha" in
  apply bind_Ok in H; destruct H as (a & Ha & H).

Lemma string_of_nat_not_length (n : nat) : Js.string_of_nat n <> "length".
Proof.
  unfold Js.string_of_nat. generalize (Nat.to_uint n). intros d.
  destruct d; simpl; discriminate.
Qed.

Lemma assoc_indexed_length {A} (l : list A) (i : nat) :
  Js.assoc "length" (Js.indexed i l) = None.
Proof.
  revert i. induction l as [|x r IH]; intros i; cbn [Js.assoc Js.indexed];
    [reflexivity|].
  destruct (String.eqb_spec "length" (Js.string_of_nat i)) as [E|_].
  - symmetry in E. destruct (string_of_nat_not_length _ E).
  - apply IH.
Qed.

Lemma assoc_In_keys {A} (k : string) (o : list (string * A)) (v : A) :
  Js.assoc k o = Some v -> In k (List.map fst o).
Proof.
  induction o as [|[k' v'] r IH]; simpl; [discriminate|].
  destruct (String.eqb_spec k k') as [->|_]; auto.
Qed.


Lemma isListed_spec (v : value) :
  isListed v = true <-> v = VBool false \/ nonzeroLength v.
Proof.
  destruct v as [| |b|n|s|l|o]; simpl.
  - split; [discriminate | intros [E|[]]; discriminate].
  - split; [discriminate | intros [E|[]]; discriminate].
  - destruct b; simpl.
    + split; [discriminate | intros [E|[]]; discriminate].
    + split; auto.
  - unfold Js.and; simpl. destruct (n =? 0) eqn:E; simpl.
    + rewrite E. simpl. split; [discriminate | intros [?|[]]; discriminate].
    + split; [discriminate | intros [?|[]]; discriminate].
  - unfold Js.and, Js.get; simpl. rewrite assoc_indexed_length. simpl.
    destruct s as [|c s]; simpl.
    + split; [discriminate | intros [?|?]; [discriminate | congruence]].
    + split; [intros _; right; discriminate | reflexivity].
  - unfold Js.and, Js.get; simpl. rewrite assoc_indexed_length. simpl.
    destruct l as [|x l]; simpl.
    + split; [discriminate | intros [?|?]; [discriminate | congruence]].
    + split; [intros _; right; discriminate | reflexivity].
  - unfold Js.and, Js.get; simpl.
    destruct (Js.assoc "length" o) as [n|] eqn:E.
    + split.
      * intros T. right. exists n. auto.
      * intros [?|(n' & E' & T)]; [discriminate|]. congruence.
    + split; [discriminate|].
      intros [?|(n' & E' & T)]; discriminate.
Qed.

(** ** prepareItem: the shape of the result *)


Section PrepareItemFacts.
Context `{Host}.

Lemma detailRow_shape (i : string) (e : value) (r : value) :
  detailRow i e = Ok (Some r) ->
  isDetailRow r /\ Js.get r "name" = VStr i /\ isListed (detailValue e) = true.
Proof.
  unfold detailRow. destruct (isListed (detailValue e)) eqn:L; [|discriminate].
  intros E. inv_bind E. injection E as <-. split; [|split]; auto.
  exists i, a.
  destruct (detailValue e) as [| |b|n|s|l|o]; simpl; eauto.
Qed.

Lemma detailRow_None (i : string) (e : value) :
  detailRow i e = Ok None -> isListed (detailValue e) = false.
Proof.
  unfold detailRow. destruct (isListed (detailValue e)) eqn:L; auto.
  intros E. inv_bind E. discriminate.
Qed.


Lemma detailRows_names (d : value) (keys : list string) (rows : list value) :
  detailRows d keys = Ok rows ->
  forall k : string,
    (exists row, In row rows /\ Js.get row "name" = VStr k) <->
    (In k keys /\
     exists e, Js.assoc k (Js.own_entries d) = Some e /\ listedEntry e = true).
Proof.
  revert rows. induction keys as [|i r IH]; intros rows; cbn [detailRows].
  - intros E. injection E as <-. intros k. split.
    + intros (row & [] & _).
    + intros ([] & _).
  - intros E. inv_bind E. inv_bind E. injection E as <-.
    specialize (IH _ Ha0). intros k.
    assert (Hhead :
      match a with
      | Some row =>
          Js.get row "name" = VStr i /\
          exists e, Js.assoc i (Js.own_entries d) = Some e /\ listedEntry e = true
      | None =>
          forall e, Js.assoc i (Js.own_entries d) = Some e -> listedEntry e = false
      end).
    { unfold listedEntry.
      destruct (Js.assoc i (Js.own_entries d)) as [e|] eqn:Ee.
      - destruct (isNullish e) eqn:N.
        + injection Ha as <-. intros e' [= <-]. rewrite N. reflexivity.
        + destruct a as [row|].
          * apply detailRow_shape in Ha. destruct Ha as (_ & Hn & L).
            split; auto. exists e. rewrite N, L. auto.
          * apply detailRow_None in Ha. intros e' [= <-]. rewrite Ha.
            apply andb_false_r.
      - injection Ha as <-. discriminate. }
    split.
    + intros (row & Hin & Hn). destruct a as [row0|].
      * destruct Hin as [<-|Hin].
        -- destruct Hhead as (Hn0 & He). rewrite Hn in Hn0.
           injection Hn0 as ->. split; [left; auto | auto].
        -- destruct (proj1 (IH k)) as (Hk & He); eauto.
           split; [right; auto | auto].
      * destruct (proj1 (IH k)) as (Hk & He); eauto.
        split; [right; auto | auto].
    + intros ([<-|Hk] & e & He & L).
      * destruct a as [row0|].
        -- exists row0. split; [left; auto | tauto].
        -- rewrite (Hhead e He) in L. discriminate.
      * destruct (proj2 (IH k)) as (row & Hin & Hn); eauto.
        exists row. split; auto. destruct a; [right|]; auto.
Qed.

Lemma prepareItem_details (it it' : item) :
  prepareItem it = Ok it' ->
  exists rows,
    details it' = VArr rows /\
    detailRows (Js.or (details it) (VObj []))
               (List.map fst (Js.own_entries (Js.or (details it) (VObj []))))
    = Ok rows.
Proof.
  unfold prepareItem. intros E. inv_bind E. inv_bind E.
  injection E as <-. exists a0. split; auto.
  destruct (items it); reflexivity.
Qed.


Lemma own_entries_or_empty (d : value) :
  Js.own_entries (Js.or d (VObj [])) = Js.own_entries d.
Proof.
  unfold Js.or. destruct d as [| |b|n|s|l|o]; simpl; auto.
  - destruct b; reflexivity.
  - destruct (n =? 0); reflexivity.
  - destruct s; reflexivity.
Qed.

End PrepareItemFacts.

Section PrepareItemClaims.
Context `{Host}.




(** C9.  A key of the raw details gets a row exactly when its entry is
    neither null nor undefined and the value of the entry is [false] or
    has a non-zero length; an empty string, an empty array, null, the
    number 0 and [true] get no row. *)
Theorem prepareItem_listed_rows (it it' : item) (k : string) (e : value) :
  prepareItem it = Ok it' ->
  Js.assoc k (Js.own_entries (details it)) = Some e ->
  (hasRow it' k <->
   (e <> VNull /\ e <> VUndefined /\
    (detailValue e = VBool false \/ nonzeroLength (detailValue e)))) /\
  (In (detailValue e) [VStr ""; VArr []; VNull; VNum 0; VBool true] ->
   ~ hasRow it' k).
Proof.
  intros E He.
  destruct (prepareItem_details _ _ E) as (rows & Hd & Hr).
  pose proof (detailRows_names _ _ _ Hr k) as Hn.
  rewrite own_entries_or_empty in Hn.
  assert (Hiff : hasRow it' k <-> listedEntry e = true).
  { unfold hasRow. split.
    - intros (rows' & row & Hd' & Hin & Hname).
      rewrite Hd in Hd'. injection Hd' as <-.
      destruct (proj1 Hn) as (_ & e' & He' & L); [eauto|].
      rewrite He in He'. injection He' as <-. exact L.
    - intros L. destruct (proj2 Hn) as (row & Hin & Hname).
      + split; [eapply assoc_In_keys; eauto | eauto].
      + exists rows, row. auto. }
  assert (Hl : listedEntry e = true <->
               (e <> VNull /\ e <> VUndefined /\
                (detailValue e = VBool false \/ nonzeroLength (detailValue e)))).
  { unfold listedEntry. rewrite andb_true_iff, isListed_spec, negb_true_iff.
    split.
    - intros (N & L). repeat split; auto; intros ->; discriminate.
    - intros (N1 & N2 & L). split; auto.
      destruct e; try reflexivity; congruence. }
  split.
  - rewrite Hiff. exact Hl.
  - intros Hv Hrow. apply Hiff, Hl in Hrow.
    destruct Hrow as (_ & _ & [F|L]).
    + rewrite F in Hv. simpl in Hv.
      repeat (destruct Hv as [Hv|Hv]; [discriminate|]). exact Hv.
    + simpl in Hv.
      repeat (destruct Hv as [Hv|Hv];
              [rewrite <- Hv in L; simpl in L; solve [tauto | congruence]|]).
      exact Hv.
Qed.

End PrepareItemClaims.

Section PrepareItemRuns.
#[local] Existing Instance Sample.host.


Lemma prepareItem_listed_rows_witness :
  hasRow Sample.preparedFieldItem "hidden" /\
  ~ hasRow Sample.preparedFieldItem "comment".
Proof.
  assert (E : prepareItem Sample.fieldItem = Ok Sample.preparedFieldItem)
    by (vm_compute; reflexivity).
  split.
  - apply (prepareItem_listed_rows Sample.fieldItem Sample.preparedFieldItem
             "hidden" (VBool false) E); [reflexivity|].
    split; [discriminate|]. split; [discriminate|]. left. reflexivity.
  - apply (prepareItem_listed_rows Sample.fieldItem Sample.preparedFieldItem
             "comment" (VStr "") E); [reflexivity|].
    left. reflexivity.
Defined.

End PrepareItemRuns.

(** ** getSheetInfo *)

Example stripTrailingSlashes_prefix : stripTrailingSlashes "/hub//" = "/hub".
Proof. reflexivity. Qed.

Example stripTrailingSlashes_inner : stripTrailingSlashes "/a//b" = "/a//b".
Proof. reflexivity. Qed.

Section SheetInfo.
Context `{Host}.

Lemma addSheetPreviews_nth (appId : string) (info : list item) (n i : nat) :
  nth_error (addSheetPreviews appId n info) i =
  option_map
    (fun a =>
       match (n + i)%nat with
       | O => a
       | S _ =>
           set_preview a
             (Some (getSingleSheetUrl appId (id a) (Some "nointeraction,noselections")))
       end)
    (nth_error info i).
Proof.
  revert n i. induction info as [|a r IH]; intros n i.
  - destruct i; reflexivity.
  - destruct i as [|i]; cbn [addSheetPreviews nth_error option_map].
    + rewrite Nat.add_0_r. reflexivity.
    + rewrite IH. replace (S n + i)%nat with (n + S i)%nat by lia. reflexivity.
Qed.

Lemma addSheetPreviews_length (appId : string) (info : list item) (n : nat) :
  List.length (addSheetPreviews appId n info) = List.length info.
Proof.
  revert n. induction info as [|a r IH]; intros n; simpl; auto.
Qed.

(** C10.  [getSheetInfo] returns the sheets it received, one for one:
    the entry at index 0 comes back as it was, and every other entry
    comes back with its preview set to the single-sheet URL of the app
    id, its own id and the options [nointeraction,noselections]. *)
Theorem getSheetInfo_previews (appId : string) (info : list item) :
  List.length (getSheetInfo appId info) = List.length info /\
  nth_error (getSheetInfo appId info) 0 = nth_error info 0 /\
  forall (i : nat) (a : item),
    (0 < i)%nat ->
    nth_error info i = Some a ->
    nth_error (getSheetInfo appId info) i =
    Some (set_preview a
            (Some (baseURI ++ "single/?appid=" ++ encodeURIComponent appId
                     ++ "&sheet=" ++ id a
                     ++ "&opt=" ++ "nointeraction,noselections"))).
Proof.
  unfold getSheetInfo. split; [apply addSheetPreviews_length|]. split.
  - rewrite addSheetPreviews_nth. destruct info; reflexivity.
  - intros i a Hi Ha. rewrite addSheetPreviews_nth, Ha. simpl.
    destruct i; [lia | reflexivity].
Qed.

End SheetInfo.

(** ** The controller *)

Module ControllerFacts.
Import Controller.

Lemma fire_transitions (n : transitionName) (st st' : fsmState) :
  fire transitions n st = Some st' ->
  (st = IDLE /\ n = OPEN /\ st' = MODAL) \/
  (st = MODAL /\ n = CLOSE /\ st' = IDLE).
Proof.
  destruct st, n; simpl; intros E; inversion E; auto.
Qed.

Example closed_by_the_user :
  run initial [Open true; DialogShown 7%nat; ModalClosed] = initial.
Proof. reflexivity. Qed.

Example closed_by_destroy :
  run initial [Open true; DialogShown 7%nat; Destroy; ModalClosed]
  = {| fsm := IDLE; modal := None; showing := false; closeCalls := [7%nat] |}.
Proof. reflexivity. Qed.

Example open_outside_edit_state : run initial [Open false] = initial.
Proof. reflexivity. Qed.

Example open_while_open :
  run initial [Open true; Open true] = run initial [Open true].
Proof. reflexivity. Qed.

(** C8.  The state machine only moves from IDLE to MODAL, on OPEN,
    and from MODAL to IDLE, on CLOSE; once the modal has closed the
    machine is in IDLE and the modal handle is cleared; destroying the
    controller closes the modal it holds and clears the handle. *)
Theorem modal_session_lifecycle :
  (forall (n : transitionName) (st st' : fsmState),
      fire transitions n st = Some st' ->
      (st = IDLE /\ n = OPEN /\ st' = MODAL) \/
      (st = MODAL /\ n = CLOSE /\ st' = IDLE)) /\
  (forall (s : state) (e : event),
      fsm (step s e) = fsm s \/
      (fsm s = IDLE /\ fsm (step s e) = MODAL /\ e = Open true) \/
      (fsm s = MODAL /\ fsm (step s e) = IDLE /\ e = ModalClosed)) /\
  (forall s : state,
      fsm (step s ModalClosed) = IDLE /\ modal (step s ModalClosed) = None) /\
  (forall (s : state) (handle : nat),
      modal s = Some handle ->
      modal (step s Destroy) = None /\
      closeCalls (step s Destroy) = (closeCalls s ++ [handle])%list /\
      fsm (step (step s Destroy) ModalClosed) = IDLE).
Proof.
  split; [exact fire_transitions|]. split; [|split].
  - intros [f m sh c] e. destruct e as [[|]|h| |]; destruct f; simpl; auto.
    + destruct sh; simpl; auto.
    + destruct sh; simpl; auto.
    + destruct m; simpl; auto.
    + destruct m; simpl; auto.
  - intros [f m sh c]. destruct f; simpl; auto.
  - intros [f m sh c] handle Hm. simpl in Hm. subst m. destruct f; simpl; auto.
Qed.

End ControllerFacts.

(** ** openApp *)

Module OpenAppFacts.
Import OpenApp.

Section WithCurrentApp.
Variable currApp_id : string.












End WithCurrentApp.


End OpenAppFacts.

(** ** Objects as association lists *)

Lemma assoc_set_same {A} (k : string) (v : A) (o : list (string * A)) :
  Js.assoc k (Js.set k v o) = Some v.
Proof.
  induction o as [|[k' v'] r IH]; cbn [Js.set Js.assoc].
  - rewrite String.eqb_refl. reflexivity.
  - destruct (String.eqb k k') eqn:E; cbn [Js.assoc].
    + rewrite String.eqb_refl. reflexivity.
    + rewrite E. exact IH.
Qed.

Lemma assoc_set_other {A} (k k' : string) (v : A) (o : list (string * A)) :
  k <> k' -> Js.assoc k' (Js.set k v o) = Js.assoc k' o.
Proof.
  intros Hne. induction o as [|[k0 v0] r IH]; cbn [Js.set Js.assoc].
  - destruct (String.eqb_spec k' k); [congruence | reflexivity].
  - destruct (String.eqb_spec k k0) as [->|Hk]; cbn [Js.assoc].
    + destruct (String.eqb_spec k' k0); [congruence | reflexivity].
    + destruct (String.eqb_spec k' k0); [reflexivity | exact IH].
Qed.

(** ** The search *)

Example indexOf_found : indexOf "Sales region" "region" = 6.
Proof. reflexivity. Qed.

Example indexOf_missing : indexOf "Sales" "region" = -1.
Proof. reflexivity. Qed.

Example indexOf_empty : indexOf "" "" = 0.
Proof. reflexivity. Qed.

Lemma prefix_spec (q s : string) :
  String.prefix q s = true <-> exists post, s = (q ++ post)%string.
Proof.
  revert s. induction q as [|c q IH]; intros s.
  - split; [intros _; exists s; reflexivity | destruct s; reflexivity].
  - destruct s as [|c' s]; simpl.
    + split; [discriminate | intros (post & E); discriminate].
    + destruct (Ascii.ascii_dec c c') as [->|Hne].
      * rewrite IH. split; intros (post & E); exists post.
        -- rewrite E. reflexivity.
        -- change (String c' s = String c' (q ++ post)%string) in E. congruence.
      * split; [discriminate|]. intros (post & E).
        change (String c' s = String c (q ++ post)%string) in E. congruence.
Qed.

Lemma indexOfFrom_found (i : Z) (s q : string) :
  0 <= i -> indexOfFrom i s q <> -1 <-> isSubstring q s.
Proof.
  revert i. induction s as [|c s IH]; intros i Hi; cbn [indexOfFrom].
  - destruct (String.prefix q "") eqn:P.
    + split; [|lia]. intros _. apply prefix_spec in P. destruct P as (post & E).
      exists "", post. exact E.
    + split; [congruence|]. intros (pre & post & E).
      destruct pre as [|c' pre].
      * change ("" = (q ++ post)%string) in E.
        assert (String.prefix q "" = true) by (apply prefix_spec; eauto).
        congruence.
      * change ("" = String c' (pre ++ q ++ post)%string) in E. discriminate.
  - destruct (String.prefix q (String c s)) eqn:P.
    + split; [|lia]. intros _. apply prefix_spec in P. destruct P as (post & E).
      exists "", post. exact E.
    + rewrite IH by lia. split.
      * intros (pre & post & E). exists (String c pre), post.
        rewrite E. reflexivity.
      * intros (pre & post & E). destruct pre as [|c' pre].
        -- change (String c s = (q ++ post)%string) in E.
           assert (String.prefix q (String c s) = true) by (apply prefix_spec; eauto).
           congruence.
        -- change (String c s = String c' (pre ++ q ++ post)%string) in E.
           injection E as _ E. exists pre, post. exact E.
Qed.

Section SearchFacts.
Context `{Host}.

Lemma matchSearchQuery_spec (query : string) (input : value) :
  matchSearchQuery query input = true <-> containsCI query input.
Proof.
  unfold matchSearchQuery, containsCI, fieldText, indexOf.
  rewrite andb_true_iff, negb_true_iff, Z.eqb_neq, indexOfFrom_found by lia.
  destruct (Js.truthy input); split.
  - intros (_ & S). eauto.
  - intros (text & [= <-] & S). auto.
  - intros (F & _). discriminate.
  - intros (text & F & _). discriminate.
Qed.

Lemma matchesQuery_spec (query : string) (a : item) :
  matchesQuery query a = true <->
  (query = "" \/
   containsCI query (VStr (id a)) \/
   containsCI query (label_value (label a)) \/
   containsCI query (searchTerms a)).
Proof.
  unfold matchesQuery. rewrite !orb_true_iff, !matchSearchQuery_spec, Z.eqb_eq.
  assert (L : Z.of_nat (String.length query) = 0 <-> query = "").
  { destruct query; simpl; split; try reflexivity; try discriminate; lia. }
  rewrite L. tauto.
Qed.

Lemma filterAll_assoc (query : string) (all : list (string * list item))
      (keys : list string) (filtered : list (string * list item)) (category : string) :
  Js.assoc category (filterAll query all keys filtered) =
  if existsb (String.eqb category) keys
  then match Js.assoc category all with
       | Some l => Some (List.filter (matchesQuery query) l)
       | None => Js.assoc category filtered
       end
  else Js.assoc category filtered.
Proof.
  unfold filterAll. revert filtered.
  induction keys as [|i r IH]; intros filtered; cbn [fold_left existsb]; [reflexivity|].
  rewrite IH. destruct (String.eqb_spec category i) as [->|Hne]; cbn [orb].
  - destruct (Js.assoc i all) as [l|] eqn:E.
    + destruct (existsb (String.eqb i) r); [reflexivity|]. apply assoc_set_same.
    + destruct (existsb (String.eqb i) r); reflexivity.
  - destruct (Js.assoc i all) as [l|] eqn:E; [|reflexivity].
    rewrite assoc_set_other by congruence. reflexivity.
Qed.

Lemma existsb_keys {A} (k : string) (o : list (string * A)) (v : A) :
  Js.assoc k o = Some v -> existsb (String.eqb k) (List.map fst o) = true.
Proof.
  intros E. apply existsb_exists. exists k. split.
  - eapply assoc_In_keys; eauto.
  - apply String.eqb_refl.
Qed.

(** C2.  When the query changes, the filtered list of every category
    holds exactly the items of that category for which the query is
    empty or occurs, letter case aside, in the id, in the label or in
    the search terms; the list shown is the filtered list of the
    active asset. *)
Theorem search_filters_items (query : string) (s : scope)
        (category : string) (all : list item) :
  Js.assoc category (allItems s) = Some all ->
  exists shown : list item,
    Js.assoc category (filteredItems (searchQueryChanged query s)) = Some shown /\
    (forall a : item,
        In a shown <->
        In a all /\
        (query = "" \/
         containsCI query (VStr (id a)) \/
         containsCI query (label_value (label a)) \/
         containsCI query (searchTerms a))) /\
    (category = activeAsset s -> selected (searchQueryChanged query s) = shown).
Proof.
  intros Hall. exists (List.filter (matchesQuery query) all).
  assert (E : Js.assoc category
                (filterAll query (allItems s) (List.map fst (allItems s)) (filteredItems s))
              = Some (List.filter (matchesQuery query) all)).
  { rewrite filterAll_assoc, (existsb_keys _ _ _ Hall), Hall. reflexivity. }
  split; [exact E|]. split.
  - intros a. rewrite filter_In, matchesQuery_spec. reflexivity.
  - intros ->. cbn [searchQueryChanged assetClicked selected filteredItems activeAsset].
    rewrite E. reflexivity.
Qed.

End SearchFacts.

(** ** Lists: mapM, uniq and the stable sort *)

Example uniq_first_of_each :
  uniq String.eqb (fun x : string => x) ["table"; "kpi"; "table"; "map"; "kpi"]
  = ["table"; "kpi"; "map"].
Proof. reflexivity. Qed.

Example sortBy_stable :
  sortBy (fun a b : Z * string => fst a - fst b)
         [(2, "b"); (1, "x"); (2, "a"); (1, "y")]
  = [(1, "x"); (1, "y"); (2, "b"); (2, "a")].
Proof. reflexivity. Qed.

Lemma mapM_Forall2 {A B} (f : A -> result B) (l : list A) (l' : list B) :
  mapM f l = Ok l' -> Forall2 (fun x y => f x = Ok y) l l'.
Proof.
  revert l'. induction l as [|x r IH]; intros l'; cbn [mapM].
  - intros E. injection E as <-. constructor.
  - intros E. inv_bind E. inv_bind E. injection E as <-.
    constructor; auto.
Qed.

Lemma Forall2_map_eq {A B C} (f : A -> C) (g : B -> C) (l : list A) (l' : list B) :
  Forall2 (fun x y => f x = g y) l l' -> List.map f l = List.map g l'.
Proof.
  induction 1; simpl; congruence.
Qed.

Lemma Forall2_In_r {A B} (R : A -> B -> Prop) (l : list A) (l' : list B) (y : B) :
  Forall2 R l l' -> In y l' -> exists x, In x l /\ R x y.
Proof.
  induction 1 as [|x y' l l' Hxy HF IH]; intros Hin; [destruct Hin|].
  destruct Hin as [->|Hin].
  - exists x. split; [left; reflexivity | exact Hxy].
  - destruct (IH Hin) as (x' & Hx' & HR). exists x'. split; [right|]; auto.
Qed.

Lemma Forall2_In_l {A B} (R : A -> B -> Prop) (l : list A) (l' : list B) (x : A) :
  Forall2 R l l' -> In x l -> exists y, In y l' /\ R x y.
Proof.
  induction 1 as [|x' y l l' Hxy HF IH]; intros Hin; [destruct Hin|].
  destruct Hin as [->|Hin].
  - exists y. split; [left; reflexivity | exact Hxy].
  - destruct (IH Hin) as (y' & Hy' & HR). exists y'. split; [right|]; auto.
Qed.

Section Uniq.
Context {A : Type} (key : A -> string).

Lemma existsb_eqb_In (k : string) (seen : list string) :
  existsb (String.eqb k) seen = true <-> In k seen.
Proof.
  rewrite existsb_exists. split.
  - intros (x & Hx & E). apply String.eqb_eq in E. subst. exact Hx.
  - intros Hk. exists k. split; [exact Hk | apply String.eqb_refl].
Qed.

Lemma uniqFrom_In (seen : list string) (l : list A) (x : A) :
  In x (uniqFrom String.eqb key seen l) -> In x l /\ ~ In (key x) seen.
Proof.
  revert seen. induction l as [|y r IH]; intros seen; cbn [uniqFrom]; [intros []|].
  destruct (existsb (String.eqb (key y)) seen) eqn:E.
  - intros Hx. destruct (IH _ Hx). split; [right|]; auto.
  - intros [<-|Hx].
    + split; [left; reflexivity|]. rewrite <- existsb_eqb_In. congruence.
    + destruct (IH _ Hx) as [Hin Hs]. split; [right; exact Hin|].
      intros Hk. apply Hs. apply in_or_app. left. exact Hk.
Qed.

Lemma uniqFrom_NoDup (seen : list string) (l : list A) :
  List.NoDup (List.map key (uniqFrom String.eqb key seen l)).
Proof.
  revert seen. induction l as [|y r IH]; intros seen; cbn [uniqFrom].
  - constructor.
  - destruct (existsb (String.eqb (key y)) seen) eqn:E; [apply IH|].
    cbn [List.map]. constructor; [|apply IH].
    intros Hin. apply in_map_iff in Hin. destruct Hin as (x & Ex & Hx).
    apply uniqFrom_In in Hx. destruct Hx as [_ Hs]. apply Hs.
    apply in_or_app. right. left. congruence.
Qed.

Lemma uniqFrom_covers (seen : list string) (l : list A) (x : A) :
  In x l ->
  In (key x) seen \/ In (key x) (List.map key (uniqFrom String.eqb key seen l)).
Proof.
  revert seen. induction l as [|y r IH]; intros seen; cbn [uniqFrom]; [intros []|].
  intros [->|Hx].
  - destruct (existsb (String.eqb (key x)) seen) eqn:E.
    + left. apply existsb_eqb_In. exact E.
    + right. left. reflexivity.
  - destruct (existsb (String.eqb (key y)) seen) eqn:E.
    + apply IH. exact Hx.
    + destruct (IH (seen ++ [key y])%list Hx) as [Hs|Hu].
      * apply in_app_or in Hs. destruct Hs as [Hs|[Hs|[]]]; [left; exact Hs|].
        right. left. exact Hs.
      * right. right. exact Hu.
Qed.

Lemma uniq_keys (l : list A) :
  List.NoDup (List.map key (uniq String.eqb key l)) /\
  (forall x, In x (uniq String.eqb key l) -> In x l) /\
  (forall k, In k (List.map key (uniq String.eqb key l)) <-> In k (List.map key l)).
Proof.
  unfold uniq. split; [apply uniqFrom_NoDup|]. split.
  - intros x Hx. apply uniqFrom_In in Hx. tauto.
  - intros k. rewrite !in_map_iff. split.
    + intros (x & <- & Hx). apply uniqFrom_In in Hx. exists x. tauto.
    + intros (x & <- & Hx). destruct (uniqFrom_covers [] l x Hx) as [[]|Hu].
      apply in_map_iff in Hu. exact Hu.
Qed.

End Uniq.

Section Sorting.
Context {A : Type} (cmp : A -> A -> Z).

Lemma insertBy_Permutation (x : A) (l : list A) :
  Permutation (insertBy cmp x l) (x :: l).
Proof.
  induction l as [|y r IH]; cbn [insertBy]; [reflexivity|].
  destruct (cmp x y <=? 0); [reflexivity|].
  rewrite IH. apply perm_swap.
Qed.

Lemma sortBy_Permutation (l : list A) : Permutation (sortBy cmp l) l.
Proof.
  unfold sortBy. induction l as [|x r IH]; cbn [fold_right]; [reflexivity|].
  rewrite insertBy_Permutation. constructor. exact IH.
Qed.

Hypothesis cmp_total : forall a b, cmp a b <= 0 \/ cmp b a <= 0.
Hypothesis cmp_trans : forall a b c, cmp a b <= 0 -> cmp b c <= 0 -> cmp a c <= 0.

Lemma insertBy_sorted (x : A) (l : list A) :
  StronglySorted (fun a b => cmp a b <= 0) l ->
  StronglySorted (fun a b => cmp a b <= 0) (insertBy cmp x l).
Proof using cmp_total cmp_trans.
  induction 1 as [|y r Hs IH Hy]; cbn [insertBy].
  - constructor; constructor.
  - destruct (Z.leb_spec (cmp x y) 0) as [Hle|Hgt].
    + constructor; [constructor; auto|].
      constructor; [exact Hle|].
      rewrite List.Forall_forall in *. intros z Hz. eapply cmp_trans; eauto.
    + constructor; [exact IH|].
      assert (Hyx : cmp y x <= 0) by (destruct (cmp_total x y); [lia | auto]).
      rewrite List.Forall_forall in *. intros z Hz.
      apply (Permutation_in _ (insertBy_Permutation x r)) in Hz.
      destruct Hz as [<-|Hz]; auto.
Qed.

Lemma sortBy_sorted (l : list A) :
  StronglySorted (fun a b => cmp a b <= 0) (sortBy cmp l).
Proof using cmp_total cmp_trans.
  unfold sortBy. induction l as [|x r IH]; cbn [fold_right].
  - constructor.
  - apply insertBy_sorted. exact IH.
Qed.

End Sorting.

(** ** getUniqueAppObjectsFromSheets *)

Section UniqueAppObjectsFacts.
Context `{Host}.

Lemma prepareItem_fields (it it' : item) :
  prepareItem it = Ok it' ->
  id it' = id it /\ label it' = label it /\ count it' = count it /\
  items it' = items it /\ preview it' = preview it /\
  isThirdParty it' = isThirdParty it.
Proof.
  unfold prepareItem. intros E. inv_bind E. inv_bind E. injection E as <-.
  destruct (items it) eqn:Ei; repeat split; cbn; try rewrite Ei; reflexivity.
Qed.

Lemma subItemOf_id (sheetInfo : list item) (appId : string) (a : sheetObject)
      (terms : string) (st : item * string) :
  subItemOf sheetInfo appId a terms = Ok st -> id (fst st) = so_id a.
Proof.
  unfold subItemOf. intros E. inv_bind E.
  destruct (so_children a) as [|c cs];
    destruct (addDataDetails _ _) as [details1 terms1];
    inv_bind E; injection E as <-; cbn [fst];
    apply prepareItem_fields in Ha0; destruct Ha0 as (-> & _); reflexivity.
Qed.

Lemma subItemsOf_ids (sheetInfo : list item) (appId : string)
      (objects : list sheetObject) (terms : string) (st : list item * string) :
  subItemsOf sheetInfo appId objects terms = Ok st ->
  List.map id (fst st) = List.map so_id objects.
Proof.
  revert terms st. induction objects as [|a r IH]; intros terms st; cbn [subItemsOf].
  - intros E. injection E as <-. reflexivity.
  - intros E. inv_bind E. inv_bind E. injection E as <-. cbn [fst List.map].
    f_equal; [eapply subItemOf_id; eauto | eapply IH; eauto].
Qed.

Lemma hasKey_set {A} (k k' : string) (v : A) (o : list (string * A)) :
  hasKey k o = true -> hasKey k (Js.set k' v o) = true.
Proof.
  unfold hasKey. destruct (String.eqb_spec k' k) as [->|Hne].
  - rewrite assoc_set_same. reflexivity.
  - rewrite assoc_set_other by exact Hne. auto.
Qed.

Lemma addDataDetails_keeps (k : string) (data : list (string * dataDefinition))
      (acc : list (string * value) * string) :
  hasKey k (fst acc) = true -> hasKey k (fst (addDataDetails data acc)) = true.
Proof.
  unfold addDataDetails. revert acc.
  induction data as [|kv r IH]; intros acc Hk; cbn [fold_left]; [exact Hk|].
  apply IH. cbn [fst]. apply hasKey_set. exact Hk.
Qed.

(** What [groupItem] returns, by the number of objects of the type. *)
Lemma groupItem_inv (sheetInfo : list item)
      (extensionList : list (string * extensionInfo)) (appId : string)
      (sheetObjects : list sheetObject) (template : sheetObject) (g : item) :
  groupItem sheetInfo extensionList appId sheetObjects template = Ok g ->
  let objects :=
    List.filter (fun a => String.eqb (so_qType template) (so_qType a)) sheetObjects in
  id g = so_qType template /\
  (exists l, label g = Some l) /\
  ((1 < List.length objects)%nat ->
   count g = VNum (Z.of_nat (List.length objects)) /\
   (exists subs, items g = Some subs /\ List.map id subs = List.map so_id objects) /\
   (exists raw, details g = VObj raw /\
                hasKey "title" raw = false /\ hasKey "subtitle" raw = false)) /\
  ((List.length objects <= 1)%nat ->
   count g = VNum 0 /\
   items g = None /\
   (exists raw, details g = VObj raw /\
                hasKey "title" raw = true /\ hasKey "subtitle" raw = true) /\
   exists first rest,
     objects = first :: rest /\
     preview g = Some (getSingleVizUrl appId (qId (props_qInfo (so_properties first)))
                                       (Some "nointeraction,noselections"))).
Proof.
  intros E objects. unfold groupItem in E. fold objects in E.
  clearbody objects. destruct objects as [|first rest]; [discriminate|].
  inv_bind E.
  destruct (1 <? Z.of_nat (List.length (first :: rest))) eqn:Em.
  - inv_bind E. injection E as <-. cbn [id label count items details preview].
    split; [reflexivity|]. split; [eauto|]. split.
    + intros _. split; [reflexivity|]. split.
      * exists (fst a0). split; [reflexivity|]. eapply subItemsOf_ids; eauto.
      * eexists. split; [reflexivity|]. split; reflexivity.
    + intros Hle. apply Z.ltb_lt in Em. lia.
  - injection E as <-. cbn [id label count items details preview].
    split; [reflexivity|]. split; [eauto|]. split.
    + intros Hlt. apply Z.ltb_ge in Em. lia.
    + intros _. split; [reflexivity|]. split; [reflexivity|]. split.
      * eexists. split; [reflexivity|].
        split; apply addDataDetails_keeps; reflexivity.
      * exists first, rest. split; reflexivity.
Qed.

End UniqueAppObjectsFacts.

Lemma Forall2_filter {A B} (R : A -> B -> Prop) (p : A -> bool) (q : B -> bool)
      (l : list A) (l' : list B) :
  (forall x y, R x y -> p x = q y) ->
  Forall2 R l l' -> Forall2 R (List.filter p l) (List.filter q l').
Proof.
  intros Hpq. induction 1 as [|x y l l' Hxy HF IH]; cbn [List.filter].
  - constructor.
  - rewrite (Hpq _ _ Hxy). destruct (q y); [constructor|]; auto.
Qed.

Section SheetObjects.
Context `{Host}.

Lemma sheetObjectsOf_visualizations (sheetInfo : list item) :
  Forall2 builtFrom (sheetObjectsOf sheetInfo) (visualizationsOf sheetInfo).
Proof.
  unfold sheetObjectsOf, visualizationsOf.
  induction sheetInfo as [|sheet r IH]; cbn [flat_map]; [constructor|].
  apply Forall2_app; [|exact IH].
  destruct (visualizations sheet) as [v|]; [|constructor].
  induction v as [|o v IHv]; cbn [List.map]; constructor; auto.
  split; reflexivity.
Qed.

Lemma objects_of_template (sheetInfo : list item) (t : string) :
  Forall2 builtFrom
    (List.filter (fun a => String.eqb t (so_qType a)) (sheetObjectsOf sheetInfo))
    (objectsOfType sheetInfo t).
Proof.
  apply Forall2_filter; [|apply sheetObjectsOf_visualizations].
  intros a v [_ Hp]. unfold so_qType, vizType. rewrite Hp. reflexivity.
Qed.

Lemma sheetObjectsOf_types (sheetInfo : list item) :
  List.map so_qType (sheetObjectsOf sheetInfo)
  = List.map vizType (visualizationsOf sheetInfo).
Proof.
  apply Forall2_map_eq.
  eapply Forall2_impl; [apply sheetObjectsOf_visualizations|].
  intros a v [_ Hp]. unfold so_qType, vizType. rewrite Hp. reflexivity.
Qed.

Lemma sortByLabel_Permutation (l l' : list item) :
  sortByLabel l = Ok l' -> Permutation l l'.
Proof.
  unfold sortByLabel. destruct l as [|x [|y r]].
  - intros [= <-]. reflexivity.
  - intros [= <-]. reflexivity.
  - destruct (forallb hasLabel (x :: y :: r)); [|discriminate].
    intros [= <-]. symmetry.
    exact (sortBy_Permutation compareLabels (x :: y :: r)).
Qed.

Lemma getUnique_inv (sheetInfo : list item)
      (extensionList : list (string * extensionInfo)) (appId : string)
      (out : list item) :
  getUniqueAppObjectsFromSheets sheetInfo extensionList appId = Ok out ->
  exists grouped sorted,
    Forall2 (fun t g => groupItem sheetInfo extensionList appId
                                  (sheetObjectsOf sheetInfo) t = Ok g)
            (uniq String.eqb so_qType (sheetObjectsOf sheetInfo)) grouped /\
    sortByLabel grouped = Ok sorted /\
    Forall2 (fun g it => prepareItem g = Ok it) sorted out.
Proof.
  unfold getUniqueAppObjectsFromSheets. intros E. inv_bind E. inv_bind E.
  exists a, a0. split; [|split]; auto using mapM_Forall2.
Qed.

(** Every returned item is the prepared group of one template. *)
Lemma getUnique_item (sheetInfo : list item)
      (extensionList : list (string * extensionInfo)) (appId : string)
      (out : list item) (it : item) :
  getUniqueAppObjectsFromSheets sheetInfo extensionList appId = Ok out ->
  In it out ->
  exists t g,
    In t (sheetObjectsOf sheetInfo) /\
    groupItem sheetInfo extensionList appId (sheetObjectsOf sheetInfo) t = Ok g /\
    prepareItem g = Ok it.
Proof.
  intros E Hin. destruct (getUnique_inv _ _ _ _ E) as (grouped & sorted & Hg & Hs & Hp).
  destruct (Forall2_In_r _ _ _ _ Hp Hin) as (g & Hgin & Hprep).
  apply sortByLabel_Permutation in Hs.
  apply (Permutation_in _ (Permutation_sym Hs)) in Hgin.
  destruct (Forall2_In_r _ _ _ _ Hg Hgin) as (t & Ht & Hgt).
  exists t, g. split; [|split]; auto.
  apply (uniq_keys so_qType). exact Ht.
Qed.

Lemma getUnique_ids (sheetInfo : list item)
      (extensionList : list (string * extensionInfo)) (appId : string)
      (out : list item) :
  getUniqueAppObjectsFromSheets sheetInfo extensionList appId = Ok out ->
  Permutation (List.map id out)
              (List.map so_qType (uniq String.eqb so_qType (sheetObjectsOf sheetInfo))).
Proof.
  intros E. destruct (getUnique_inv _ _ _ _ E) as (grouped & sorted & Hg & Hs & Hp).
  assert (E1 : List.map id sorted = List.map id out).
  { apply Forall2_map_eq. eapply Forall2_impl; [exact Hp|].
    intros g it Hprep. apply prepareItem_fields in Hprep. symmetry. tauto. }
  assert (E2 : List.map so_qType (uniq String.eqb so_qType (sheetObjectsOf sheetInfo))
               = List.map id grouped).
  { apply Forall2_map_eq. eapply Forall2_impl; [exact Hg|].
    intros t g Hgt. apply groupItem_inv in Hgt. symmetry. tauto. }
  rewrite <- E1, E2. apply Permutation_map. symmetry.
  apply sortByLabel_Permutation. exact Hs.
Qed.

End SheetObjects.

Section SortedByLabel.
Context `{Host}.

Hypothesis localeCompare_total :
  forall a b : string, localeCompare a b <= 0 \/ localeCompare b a <= 0.
Hypothesis localeCompare_trans :
  forall a b c : string,
    localeCompare a b <= 0 -> localeCompare b c <= 0 -> localeCompare a c <= 0.

Lemma sortByLabel_sorted (l l' : list item) :
  sortByLabel l = Ok l' ->
  StronglySorted (fun a b => compareLabels a b <= 0) l'.
Proof using localeCompare_total localeCompare_trans.
  unfold sortByLabel. destruct l as [|x [|y r]].
  - intros [= <-]. constructor.
  - intros [= <-]. constructor; constructor.
  - destruct (forallb hasLabel (x :: y :: r)); [|discriminate].
    intros [= <-].
    apply (sortBy_sorted compareLabels) with (l := x :: y :: r);
      unfold compareLabels; eauto.
Qed.

Lemma labelsAscend_transfer (sorted out : list item) :
  Forall2 (fun g it => label it = label g) sorted out ->
  Forall (fun g => exists l, label g = Some l) sorted ->
  StronglySorted (fun a b => compareLabels a b <= 0) sorted ->
  StronglySorted labelsAscend out.
Proof.
  induction 1 as [|g it sorted out Hl HF IH]; intros Hlab Hs.
  - constructor.
  - inversion Hlab as [|? ? (lg & Hg) Hlab']; subst.
    inversion Hs as [|? ? Hs' Hall]; subst.
    constructor; [apply IH; assumption|].
    apply List.Forall_forall. intros it' Hin.
    destruct (Forall2_In_r _ _ _ _ HF Hin) as (g' & Hg'in & Hl').
    rewrite List.Forall_forall in Hall, Hlab'.
    destruct (Hlab' _ Hg'in) as (lg' & Hg').
    specialize (Hall _ Hg'in). unfold compareLabels, lowerLabel in Hall.
    rewrite Hg, Hg' in Hall.
    exists lg, lg'. rewrite Hl, Hl'. auto.
Qed.


End SortedByLabel.

Section GroupedItems.
Context `{Host}.

Lemma no_row_without_key (g it : item) (raw : list (string * value)) (k : string) :
  prepareItem g = Ok it ->
  details g = VObj raw ->
  hasKey k raw = false ->
  ~ hasRow it k.
Proof.
  intros E Hd Hk (rows & row & Hd' & Hin & Hname).
  destruct (prepareItem_details _ _ E) as (rows' & Hd'' & Hr).
  rewrite Hd' in Hd''. injection Hd'' as <-.
  pose proof (detailRows_names _ _ _ Hr k) as Hn.
  rewrite own_entries_or_empty, Hd in Hn. cbn [Js.own_entries] in Hn.
  destruct (proj1 Hn) as (_ & e & He & _); [eauto|].
  unfold hasKey in Hk. rewrite He in Hk. discriminate.
Qed.

(** C7.  Every returned item is the prepared group of one type.  With
    several objects of the type the item has one sub-item for each
    object, in order, and its details have no title and no subtitle
    entry, neither in the group as built nor as rows of the result;
    with exactly one object the item has no sub-items, the details of
    the group keep their title and subtitle entries, and the preview
    is the single-visualization URL of the app id and the id of that
    object. *)
Theorem grouped_item_branches (sheetInfo : list item)
        (extensionList : list (string * extensionInfo)) (appId : string)
        (out : list item) (it : item) :
  getUniqueAppObjectsFromSheets sheetInfo extensionList appId = Ok out ->
  In it out ->
  exists (t : sheetObject) (g : item),
    In t (sheetObjectsOf sheetInfo) /\
    groupItem sheetInfo extensionList appId (sheetObjectsOf sheetInfo) t = Ok g /\
    prepareItem g = Ok it /\
    ((1 < List.length (objectsOfType sheetInfo (id it)))%nat ->
     (exists subs,
         items it = Some subs /\
         List.map id subs = List.map cell_name (objectsOfType sheetInfo (id it))) /\
     (exists raw,
         details g = VObj raw /\
         hasKey "title" raw = false /\ hasKey "subtitle" raw = false) /\
     ~ hasRow it "title" /\ ~ hasRow it "subtitle") /\
    (forall v : visualization,
        objectsOfType sheetInfo (id it) = [v] ->
        items it = None /\
        (exists raw,
            details g = VObj raw /\
            hasKey "title" raw = true /\ hasKey "subtitle" raw = true) /\
        preview it =
        Some (baseURI ++ "single/?appid=" ++ encodeURIComponent appId
                ++ "&obj=" ++ qId (props_qInfo (viz_properties v))
                ++ "&opt=" ++ "nointeraction,noselections")).
Proof.
  intros E Hin.
  destruct (getUnique_item _ _ _ _ _ E Hin) as (t & g & Ht & Hg & Hprep).
  exists t, g. split; [exact Ht|]. split; [exact Hg|]. split; [exact Hprep|].
  pose proof (prepareItem_fields _ _ Hprep) as (Hid & _ & _ & Hitems & Hprev & _).
  pose proof (groupItem_inv _ _ _ _ _ _ Hg) as Hinv. cbv zeta in Hinv.
  destruct Hinv as (Hgid & _ & Hmulti & Hsingle).
  pose proof (objects_of_template sheetInfo (so_qType t)) as Hobj.
  assert (Eid : so_qType t = id it) by congruence.
  rewrite Eid in Hobj, Hmulti, Hsingle.
  assert (Hlen := Hobj). apply Forall2_length in Hlen.
  split.
  - intros Hlt. rewrite <- Hlen in Hlt.
    destruct (Hmulti Hlt) as (_ & (subs & Hsubs & Hids) & (raw & Hraw & Ht1 & Ht2)).
    split; [|split; [|split]].
    + exists subs. split; [congruence|]. rewrite Hids.
      apply Forall2_map_eq. eapply Forall2_impl; [exact Hobj|].
      intros a v [Ha _]. exact Ha.
    + exists raw. auto.
    + eapply no_row_without_key; eauto.
    + eapply no_row_without_key; eauto.
  - intros v Hv. rewrite Hv in Hlen, Hobj. cbn [List.length] in Hlen.
    destruct Hsingle as (_ & Hnone & Hraw & (first & rest & Hfr & Hp)); [lia|].
    split; [congruence|]. split; [exact Hraw|].
    rewrite Hprev, Hp. rewrite Hfr in Hobj.
    inversion Hobj as [|? ? ? ? [_ Hprops] _]; subst.
    rewrite Hprops. reflexivity.
Qed.

End GroupedItems.

(** ** Loading the display model *)

Lemma q_all_Resolved {A} (ps : list (string * promise A)) (args : list (string * A)) :
  q_all ps = Resolved args ->
  Forall2 (fun kp ka => fst kp = fst ka /\ snd kp = Resolved (snd ka)) ps args.
Proof.
  revert args. induction ps as [|[k p] r IH]; intros args; cbn [q_all].
  - intros [= <-]. constructor.
  - destruct p as [|a|m]; destruct (q_all r) as [|l|m']; try discriminate.
    intros [= <-]. constructor; [split; reflexivity | apply IH; reflexivity].
Qed.

Section InspectorFacts.
Context `{Host}.


Lemma collectErrors_assoc (all : list (string * list item)) (k : string) :
  k <> "errors" ->
  Js.assoc k (collectErrors all)
  = option_map (fun l => fst (collectCategory k l)) (Js.assoc k all).
Proof.
  intros Hne. unfold collectErrors. rewrite assoc_set_other by congruence.
  induction all as [|[i l] r IH]; cbn [List.map Js.assoc fst snd]; [reflexivity|].
  destruct (String.eqb_spec i "errors") as [->|Hi]; cbn [Js.assoc fst snd].
  - destruct (String.eqb_spec k "errors"); [congruence | exact IH].
  - destruct (String.eqb_spec k i) as [->|Hk]; [reflexivity | exact IH].
Qed.


(** The start bookmark is looked for under [allItems.bookmarks], a key
    under which no query result is stored: with a default bookmark set
    and no such list, the marking throws. *)
Remark markBookmarks_without_list (all : list (string * list item)) (d : value) :
  defaultBookmarkIdOf all = Ok d ->
  Js.truthy d = true ->
  Js.assoc "bookmarks" all = None ->
  exists m, markBookmarks all = Throw m.
Proof.
  intros Hd Ht Hb. unfold markBookmarks. rewrite Hd. cbn [bind].
  rewrite Ht, Hb. eexists. reflexivity.
Qed.

Lemma tagged_category (i : string) (l : list item) :
  Forall2 (taggedFrom i) l (fst (collectCategory i l)).
Proof.
  unfold collectCategory. cbn [fst].
  induction l as [|a r IH]; cbn [List.map]; constructor; auto.
  right. reflexivity.
Qed.



End InspectorFacts.

Section InspectorClaims.
Context `{Host}.

Lemma inspector_args (appId : string) (q : hostQueries)
      (args : list (string * list item)) :
  q_all (inspectorQueries appId q) = Resolved args ->
  List.map fst args = List.map fst (inspectorQueries appId q) /\
  Forall (fun kp => isResolved (snd kp)) (inspectorQueries appId q) /\
  forall sheets,
    In ("sheet", sheets) args ->
    exists sheets0,
      q_appInfo_sheets q = Resolved sheets0 /\ sheets = getSheetInfo appId sheets0.
Proof.
  intros E. apply q_all_Resolved in E. split; [|split].
  - symmetry. apply Forall2_map_eq. eapply Forall2_impl; [exact E|].
    intros kp ka [Hk _]. exact Hk.
  - apply List.Forall_forall. intros kp Hin.
    destruct (Forall2_In_l _ _ _ _ E Hin) as (ka & _ & _ & Hp).
    exists (snd ka). exact Hp.
  - intros sheets Hin.
    destruct (Forall2_In_r _ _ _ _ E Hin) as (kp & Hkp & Hk & Hp).
    cbn [fst snd] in Hk, Hp. unfold inspectorQueries in Hkp.
    cbn [In] in Hkp.
    repeat (destruct Hkp as [<-|Hkp]; [try discriminate Hk|]); [|destruct Hkp].
    cbn [snd] in Hp. destruct (q_appInfo_sheets q) as [|sheets0|m];
      try discriminate Hp.
    injection Hp as <-. exists sheets0. auto.
Qed.


End InspectorClaims.


(** ** When the functions return *)

Lemma assoc_In {A} (k : string) (o : list (string * A)) (v : A) :
  Js.assoc k o = Some v -> In (k, v) o.
Proof.
  induction o as [|[k' v'] r IH]; cbn [Js.assoc]; [discriminate|].
  destruct (String.eqb_spec k k') as [->|_].
  - intros [= ->]. left. reflexivity.
  - intros E. right. auto.
Qed.

Lemma mapM_returns {A B} (f : A -> result B) (l : list A) :
  Forall (fun x => exists y, f x = Ok y) l -> exists l', mapM f l = Ok l'.
Proof.
  induction 1 as [|x r (y & Hy) _ (l' & Hl')]; cbn [mapM].
  - eexists. reflexivity.
  - rewrite Hy, Hl'. eexists. reflexivity.
Qed.

Lemma Forall_set {A} (P : string * A -> Prop) (k : string) (v : A)
      (o : list (string * A)) :
  P (k, v) -> Forall P o -> Forall P (Js.set k v o).
Proof.
  intros Hkv. induction 1 as [|[k' v'] r Hh Hr IH]; cbn [Js.set].
  - constructor; [exact Hkv | constructor].
  - destruct (String.eqb k k'); constructor; auto.
Qed.

Section Returns.
Context `{Host}.

Lemma detailRows_returns (d : value) (keys : list string) :
  Forall (fun k => k <> "") keys -> exists rows, detailRows d keys = Ok rows.
Proof.
  induction 1 as [|i r Hi _ (rows & Hrows)]; cbn [detailRows].
  - eexists. reflexivity.
  - rewrite Hrows.
    assert (Hrow : exists row,
               match Js.assoc i (Js.own_entries d) with
               | Some e => if isNullish e then Ok None else detailRow i e
               | None => Ok None
               end = Ok row).
    { destruct (Js.assoc i (Js.own_entries d)) as [e|]; [|eexists; reflexivity].
      destruct (isNullish e); [eexists; reflexivity|].
      unfold detailRow. destruct (isListed (detailValue e)); [|eexists; reflexivity].
      destruct (Js.truthy (Js.get e "label")); [eexists; reflexivity|].
      destruct i as [|c i']; [congruence|]. eexists. reflexivity. }
    destruct Hrow as (row & ->). eexists. reflexivity.
Qed.

Lemma prepareItem_returns (it : item) (raw : list (string * value)) :
  details it = VObj raw ->
  preparableDetails raw ->
  exists it', prepareItem it = Ok it'.
Proof.
  intros Hd Hraw. unfold prepareItem. rewrite Hd.
  assert (Ht : exists st,
             (if Js.truthy (Js.and (VObj raw) (Js.get (VObj raw) "tags"))
              then match Js.get (Js.get (VObj raw) "tags") "value" with
                   | VArr l =>
                       Ok (Js.add_string (Js.or (searchTerms it) (VStr ""))
                                         (Js.join " " l ++ " "))
                   | _ => Throw "item.details.tags.value.join is not a function"
                   end
              else Ok (Js.or (searchTerms it) (VStr ""))) = Ok st).
  { destruct (Js.truthy (Js.and (VObj raw) (Js.get (VObj raw) "tags"))) eqn:T;
      [|eexists; reflexivity].
    unfold Js.get at 2. cbn [Js.own_entries].
    unfold Js.and, Js.get in T. cbn [Js.truthy Js.own_entries] in T.
    destruct (Js.assoc "tags" raw) as [e|] eqn:Ee; [|discriminate T].
    apply assoc_In in Ee. unfold preparableDetails in Hraw.
    rewrite List.Forall_forall in Hraw.
    destruct (Hraw _ Ee) as (_ & Harr). cbn [fst snd] in Harr.
    destruct (Harr eq_refl) as (l & Hl). rewrite Hl.
    eexists. reflexivity. }
  destruct Ht as (st & ->). cbn [bind].
  destruct (detailRows_returns (Js.or (VObj raw) (VObj []))
              (List.map fst (Js.own_entries (Js.or (VObj raw) (VObj [])))))
    as (rows & ->).
  - cbn [Js.or Js.truthy Js.own_entries]. unfold preparableDetails in Hraw.
    apply List.Forall_forall. intros k Hk. apply in_map_iff in Hk.
    destruct Hk as ([k' v] & <- & Hin).
    rewrite List.Forall_forall in Hraw. apply (Hraw _ Hin).
  - eexists. reflexivity.
Qed.

End Returns.

Section UniqueAppObjectsReturn.
Context `{Host}.

Hypothesis dataDefinition_named :
  forall v : value, namedData (appInfo_getDataDefinition v).
Hypothesis childrenDataDefinition_named :
  forall c : list value, namedData (appInfo_getChildrenDataDefinition c).

Lemma addDataDetails_preparable (data : list (string * dataDefinition))
      (acc : list (string * value) * string) :
  namedData data ->
  preparableDetails (fst acc) ->
  preparableDetails (fst (addDataDetails data acc)).
Proof.
  unfold addDataDetails. intros Hdata. revert acc.
  induction Hdata as [|[k dd] r Hk _ IH]; intros acc Hacc; cbn [fold_left];
    [exact Hacc|].
  apply IH. cbn [fst snd]. apply Forall_set; [|exact Hacc].
  cbn [fst snd]. split; [exact Hk|]. intros _. eexists. reflexivity.
Qed.

Lemma groupDetails_preparable (single : bool) (first : sheetObject)
      (e : extensionInfo) (sheets : list item) :
  preparableDetails (groupDetails single first e sheets).
Proof.
  unfold groupDetails, preparableDetails.
  repeat (constructor; [cbn [fst]; split; discriminate|]). constructor.
Qed.

Lemma omit_preparable (keys : list string) (raw : list (string * value)) :
  preparableDetails raw -> preparableDetails (Js.omit keys raw).
Proof.
  unfold preparableDetails, Js.omit. rewrite !List.Forall_forall.
  intros Hraw kv Hin. apply filter_In in Hin. apply Hraw. tauto.
Qed.

Lemma findSheet_found (sheetInfo : list item) (a : sheetObject) :
  In a (sheetObjectsOf sheetInfo) ->
  exists b, findSheet sheetInfo (so_sheet a) = Some b.
Proof.
  unfold sheetObjectsOf. intros Hin. apply in_flat_map in Hin.
  destruct Hin as (sheet & Hsheet & Ha). apply in_map_iff in Ha.
  destruct Ha as (object & <- & _). cbn [so_sheet]. unfold findSheet.
  destruct (List.find (fun b => String.eqb (id b) (id sheet)) sheetInfo) as [b|] eqn:E.
  - eauto.
  - pose proof (find_none _ _ E sheet Hsheet) as Hn. cbn beta in Hn.
    rewrite String.eqb_refl in Hn. discriminate.
Qed.

Lemma subItemOf_returns (sheetInfo : list item) (appId : string)
      (a : sheetObject) (terms : string) :
  In a (sheetObjectsOf sheetInfo) ->
  exists st, subItemOf sheetInfo appId a terms = Ok st.
Proof using dataDefinition_named childrenDataDefinition_named.
  intros Hin. unfold subItemOf.
  destruct (findSheet_found _ _ Hin) as (b & ->). cbn [bind].
  set (details0 := [("masterobject", _); ("title", _); ("subtitle", _); ("sheet", _)]).
  assert (H0 : preparableDetails details0).
  { subst details0. unfold preparableDetails.
    repeat (constructor; [cbn [fst]; split; discriminate|]). constructor. }
  destruct (so_children a) as [|c cs].
  - set (data := match so_masterobject a with
                 | Some m => _
                 | None => _
                 end).
    assert (Hd : namedData data) by (subst data; destruct (so_masterobject a); auto).
    pose proof (addDataDetails_preparable data (details0, terms) Hd H0) as Hp.
    destruct (addDataDetails data (details0, terms)) as [details1 terms1].
    cbn [fst] in Hp.
    edestruct prepareItem_returns as (it' & ->); [reflexivity | exact Hp |].
    eexists. reflexivity.
  - pose proof (addDataDetails_preparable _ (details0, terms)
                  (childrenDataDefinition_named (c :: cs)) H0) as Hp.
    destruct (addDataDetails _ (details0, terms)) as [details1 terms1].
    cbn [fst] in Hp.
    edestruct prepareItem_returns as (it' & ->); [reflexivity | exact Hp |].
    eexists. reflexivity.
Qed.

Lemma subItemsOf_returns (sheetInfo : list item) (appId : string)
      (objects : list sheetObject) (terms : string) :
  Forall (fun a => In a (sheetObjectsOf sheetInfo)) objects ->
  exists st, subItemsOf sheetInfo appId objects terms = Ok st.
Proof using dataDefinition_named childrenDataDefinition_named.
  intros Hall. revert terms.
  induction Hall as [|a r Ha _ IH]; intros terms; cbn [subItemsOf].
  - eexists. reflexivity.
  - destruct (subItemOf_returns sheetInfo appId a terms Ha) as (st & ->).
    cbn [bind]. destruct (IH (snd st)) as (rest & ->). eexists. reflexivity.
Qed.

Lemma groupItem_returns (sheetInfo : list item)
      (extensionList : list (string * extensionInfo)) (appId : string)
      (t : sheetObject) :
  In t (sheetObjectsOf sheetInfo) ->
  exists g,
    groupItem sheetInfo extensionList appId (sheetObjectsOf sheetInfo) t = Ok g /\
    hasLabel g = true /\
    exists raw, details g = VObj raw /\ preparableDetails raw.
Proof using dataDefinition_named childrenDataDefinition_named.
  intros Ht. unfold groupItem.
  set (objects := List.filter _ (sheetObjectsOf sheetInfo)).
  assert (Hobj : Forall (fun a => In a (sheetObjectsOf sheetInfo)) objects).
  { apply List.Forall_forall. intros a Ha. apply filter_In in Ha. tauto. }
  assert (Hne : In t objects).
  { apply filter_In. split; [exact Ht | apply String.eqb_refl]. }
  clearbody objects. destruct objects as [|first rest]; [destruct Hne|].
  destruct (mapM_returns
              (fun a => match findSheet sheetInfo (so_sheet a) with
                        | Some b => Ok b
                        | None => Throw "Cannot read properties of undefined (reading 'label')"
                        end) (first :: rest)) as (sheets & ->).
  { eapply List.Forall_impl; [|exact Hobj]. intros a Ha.
    destruct (findSheet_found _ _ Ha) as (b & ->). eauto. }
  cbn [bind].
  destruct (1 <? Z.of_nat (List.length (first :: rest))).
  - destruct (subItemsOf_returns sheetInfo appId (first :: rest) "" Hobj) as (sub & ->).
    cbn [bind]. eexists. split; [reflexivity|]. split; [reflexivity|].
    eexists. split; [reflexivity|].
    apply omit_preparable, groupDetails_preparable.
  - eexists. split; [reflexivity|]. split; [reflexivity|].
    eexists. split; [reflexivity|].
    apply addDataDetails_preparable; [|apply groupDetails_preparable].
    destruct (so_children first); auto.
Qed.

(** For a host whose data definitions name their entries, the function
    returns for every list of sheets. *)
Theorem getUniqueAppObjectsFromSheets_returns (sheetInfo : list item)
        (extensionList : list (string * extensionInfo)) (appId : string) :
  exists out, getUniqueAppObjectsFromSheets sheetInfo extensionList appId = Ok out.
Proof using dataDefinition_named childrenDataDefinition_named.
  unfold getUniqueAppObjectsFromSheets.
  destruct (mapM_returns
              (groupItem sheetInfo extensionList appId (sheetObjectsOf sheetInfo))
              (uniq String.eqb so_qType (sheetObjectsOf sheetInfo)))
    as (grouped & Hg).
  { apply List.Forall_forall. intros t Ht.
    apply (uniq_keys so_qType) in Ht.
    destruct (groupItem_returns sheetInfo extensionList appId t Ht) as (g & Hgt & _).
    eauto. }
  rewrite Hg. cbn [bind].
  assert (Hall : Forall (fun g => hasLabel g = true /\
                                  exists raw, details g = VObj raw /\ preparableDetails raw)
                        grouped).
  { apply List.Forall_forall. intros g Hgin.
    destruct (Forall2_In_r _ _ _ _ (mapM_Forall2 _ _ _ Hg) Hgin) as (t & Ht & Hgt).
    apply (uniq_keys so_qType) in Ht.
    destruct (groupItem_returns sheetInfo extensionList appId t Ht) as (g' & Hgt' & Hg').
    rewrite Hgt in Hgt'. injection Hgt' as <-. exact Hg'. }
  assert (Hs : exists sorted, sortByLabel grouped = Ok sorted).
  { unfold sortByLabel. destruct grouped as [|x [|y r]]; [eauto | eauto |].
    assert (Hl : forallb hasLabel (x :: y :: r) = true).
    { apply forallb_forall. intros g Hgin.
      rewrite List.Forall_forall in Hall. apply (Hall g Hgin). }
    rewrite Hl. eauto. }
  destruct Hs as (sorted & Hs). rewrite Hs. cbn [bind].
  apply mapM_returns. apply List.Forall_forall. intros g Hgin.
  apply sortByLabel_Permutation in Hs.
  apply (Permutation_in _ (Permutation_sym Hs)) in Hgin.
  rewrite List.Forall_forall in Hall.
  destruct (Hall g Hgin) as (_ & raw & Hd & Hraw).
  eapply prepareItem_returns; eauto.
Qed.

End UniqueAppObjectsReturn.

Section OneItemPerType.
Context `{Host}.

(** C1.  For a host whose data definitions name their entries the
    function returns for every list of sheets; and whenever it returns,
    the result has exactly one item for every type that occurs among
    the visualizations of the sheets, identified by that type, and the
    count of an item is the number of objects of its type when there
    are several and 0 when there is exactly one. *)
Theorem one_item_per_type (sheetInfo : list item)
        (extensionList : list (string * extensionInfo)) (appId : string) :
  (namedHost ->
   exists out, getUniqueAppObjectsFromSheets sheetInfo extensionList appId = Ok out) /\
  forall out : list item,
    getUniqueAppObjectsFromSheets sheetInfo extensionList appId = Ok out ->
    List.NoDup (List.map id out) /\
    (forall t : string,
        In t (List.map id out) <->
        In t (List.map vizType (visualizationsOf sheetInfo))) /\
    (forall it : item,
        In it out ->
        let n := List.length (objectsOfType sheetInfo (id it)) in
        (1 <= n)%nat /\
        ((1 < n)%nat -> count it = VNum (Z.of_nat n)) /\
        (n = 1%nat -> count it = VNum 0)).
Proof.
  split.
  { intros [Hd Hc]. apply getUniqueAppObjectsFromSheets_returns; assumption. }
  intros out E. pose proof (getUnique_ids _ _ _ _ E) as Hperm.
  destruct (uniq_keys so_qType (sheetObjectsOf sheetInfo)) as (Hnd & _ & Hk).
  split; [|split].
  - eapply Permutation_NoDup; [symmetry; exact Hperm | exact Hnd].
  - intros t. rewrite <- sheetObjectsOf_types, <- Hk. split.
    + apply Permutation_in. exact Hperm.
    + apply Permutation_in. symmetry. exact Hperm.
  - intros it Hin n.
    destruct (getUnique_item _ _ _ _ _ E Hin) as (t & g & Ht & Hg & Hprep).
    apply prepareItem_fields in Hprep.
    destruct Hprep as (Hid & _ & Hcount & _).
    pose proof (groupItem_inv _ _ _ _ _ _ Hg) as Hinv. cbv zeta in Hinv.
    destruct Hinv as (Hgid & _ & Hmulti & Hsingle).
    assert (Hn : List.length (List.filter (fun a => String.eqb (so_qType t) (so_qType a))
                                          (sheetObjectsOf sheetInfo)) = n).
    { subst n. rewrite Hid, Hgid.
      eapply Forall2_length. apply objects_of_template. }
    rewrite Hn in Hmulti, Hsingle. rewrite Hcount.
    split; [|split].
    + destruct n as [|n']; [|lia]. exfalso.
      apply length_zero_iff_nil in Hn.
      assert (Hf : In t (List.filter (fun a => String.eqb (so_qType t) (so_qType a))
                                     (sheetObjectsOf sheetInfo))).
      { apply filter_In. split; [exact Ht | apply String.eqb_refl]. }
      rewrite Hn in Hf. destruct Hf.
    + intros Hlt. apply Hmulti. exact Hlt.
    + intros H1. apply Hsingle. lia.
Qed.

End OneItemPerType.

(** ** The definitions at work on the sample app *)

Section SampleRuns.
#[local] Existing Instance Sample.host.

Lemma compareStrings_refl (a : string) : String_as_OT.compare a a = Eq.
Proof.
  destruct (String_as_OT.compare_spec a a) as [_|Hlt|Hlt]; [reflexivity| |];
    destruct (StrictOrder_Irreflexive (R := String_as_OT.lt) a Hlt).
Qed.

Lemma compareStrings_le (a b : string) :
  Sample.compareStrings a b <= 0 <-> a = b \/ String_as_OT.lt a b.
Proof.
  unfold Sample.compareStrings.
  destruct (String_as_OT.compare_spec a b) as [E|Hlt|Hgt].
  - split; [auto | lia].
  - split; [auto | lia].
  - split; [lia|]. intros [->|Hlt].
    + destruct (StrictOrder_Irreflexive (R := String_as_OT.lt) b Hgt).
    + destruct (StrictOrder_Irreflexive (R := String_as_OT.lt) a).
      eapply (StrictOrder_Transitive (R := String_as_OT.lt)); eauto.
Qed.

Lemma compareStrings_total (a b : string) :
  Sample.compareStrings a b <= 0 \/ Sample.compareStrings b a <= 0.
Proof.
  rewrite !compareStrings_le.
  destruct (String_as_OT.compare_spec a b) as [E|Hlt|Hgt]; auto.
Qed.

Lemma compareStrings_trans (a b c : string) :
  Sample.compareStrings a b <= 0 ->
  Sample.compareStrings b c <= 0 ->
  Sample.compareStrings a c <= 0.
Proof.
  rewrite !compareStrings_le. intros [->|Hab] [->|Hbc]; auto.
  right. eapply (StrictOrder_Transitive (R := String_as_OT.lt)); eauto.
Qed.

Lemma sample_namedHost : namedHost.
Proof.
  split.
  - intros v. unfold namedData. cbn [appInfo_getDataDefinition Sample.host].
    unfold Sample.fieldsOf. destruct (Js.get v "fields"); repeat constructor.
    discriminate.
  - intros c. constructor.
Qed.

Lemma one_item_per_type_witness :
  exists out,
    getUniqueAppObjectsFromSheets Sample.sheetInfo [] "app1" = Ok out /\
    List.NoDup (List.map id out).
Proof.
  destruct (one_item_per_type Sample.sheetInfo [] "app1") as [Hret Hres].
  destruct (Hret sample_namedHost) as (out & E).
  exists out. split; [exact E|]. apply (Hres out E).
Defined.


Lemma grouped_item_branches_witness :
  exists out it,
    getUniqueAppObjectsFromSheets Sample.sheetInfo [] "app1" = Ok out /\
    nth_error out 1 = Some it /\
    exists t g,
      In t (sheetObjectsOf Sample.sheetInfo) /\
      groupItem Sample.sheetInfo [] "app1" (sheetObjectsOf Sample.sheetInfo) t = Ok g /\
      prepareItem g = Ok it.
Proof.
  eexists. eexists. split; [vm_compute; reflexivity|]. split; [reflexivity|].
  edestruct (grouped_item_branches Sample.sheetInfo [] "app1") as (t & g & Ht & Hg & Hp & _).
  - vm_compute. reflexivity.
  - right. left. reflexivity.
  - exists t, g. auto.
Defined.

Lemma search_filters_items_witness :
  exists shown,
    Js.assoc "sheet" (filteredItems (searchQueryChanged "SAL" Sample.loadedScope))
    = Some shown /\
    selected (searchQueryChanged "SAL" Sample.loadedScope) = shown.
Proof.
  destruct (search_filters_items "SAL" Sample.loadedScope "sheet" Sample.sheetInfo)
    as (shown & Hs & _ & Hsel); [reflexivity|].
  exists shown. split; [exact Hs | apply Hsel; reflexivity].
Defined.

Example sample_loaded :
  let r := loadInspector "app1" (Sample.queries VUndefined) in
  snd r = Loaded /\
  loading (fst r) = false /\
  List.map fst (allItems (fst r))
  = ["app"; "script"; "field"; "sheet"; "dimension"; "measure"; "masterObject";
     "alternate-state"; "variable"; "bookmark"; "chart"; "extension"; "errors"] /\
  option_map (List.map id) (Js.assoc "chart" (allItems (fst r)))
  = Some ["barchart"; "table"] /\
  option_map (List.map id) (Js.assoc "errors" (allItems (fst r))) = Some ["t2"].
Proof. vm_compute. repeat split; reflexivity. Qed.

Example sample_with_start_bookmark :
  let r := loadInspector "app1" (Sample.queries (VStr "bm1")) in
  snd r = Failed "Cannot read properties of undefined (reading 'length')" /\
  loading (fst r) = true /\
  option_map (List.map id) (Js.assoc "chart" (allItems (fst r)))
  = Some ["barchart"; "table"].
Proof. vm_compute. repeat split; reflexivity. Qed.

Example sample_still_waiting :
  loadInspector "app1"
    {| q_getAppInfo := Resolved []; q_getScriptInfo := Resolved [];
       q_getFieldInfo := Resolved []; q_appInfo_sheets := Resolved Sample.sheetInfo;
       q_getDimensionInfo := Resolved []; q_getMeasureInfo := Pending;
       q_getMasterObjectInfo := Resolved []; q_getAlternateStateInfo := Resolved [];
       q_getVariableInfo := Resolved []; q_getBookmarkInfo := Resolved [];
       q_appInfo_extensions := Resolved [] |}
  = (initialScope, Waiting).
Proof. reflexivity. Qed.

End SampleRuns.

(** * Further properties of the module *)

Lemma string_app_assoc (a b c : string) :
  ((a ++ b) ++ c)%string = (a ++ (b ++ c))%string.
Proof.
  induction a as [|x a IH]; [reflexivity|].
  change (String x ((a ++ b) ++ c)%string = String x (a ++ (b ++ c))%string).
  rewrite IH. reflexivity.
Qed.

(** ** prepareItem: when it throws, the order of the rows, the code *)

Section PrepareItemMore.
Context `{Host}.

Lemma detailRows_total (d : value) (keys : list string) :
  unnamedRow d = false -> exists rows, detailRows d keys = Ok rows.
Proof.
  intros U. induction keys as [|i r (rows & IH)]; cbn [detailRows].
  - eexists; reflexivity.
  - rewrite IH.
    destruct (Js.assoc i (Js.own_entries d)) as [e|] eqn:Ee; [|simpl; eauto].
    destruct (isNullish e) eqn:N; [simpl; eauto|].
    unfold detailRow. destruct (isListed (detailValue e)) eqn:L; [|simpl; eauto].
    destruct (Js.truthy (Js.get e "label")) eqn:T; [simpl; eauto|].
    destruct i as [|c i]; [|simpl; eauto].
    exfalso. unfold unnamedRow in U. rewrite Ee in U.
    unfold listedEntry in U. rewrite N, L, T in U. discriminate.
Qed.

Lemma detailRows_unnamed (d : value) (keys : list string) (rows : list value) :
  detailRows d keys = Ok rows -> In "" keys -> unnamedRow d = false.
Proof.
  revert rows. induction keys as [|i r IH]; intros rows; cbn [detailRows].
  - intros _ [].
  - intros E. inv_bind E. inv_bind E. intros [->|Hin]; [|eauto].
    unfold unnamedRow, listedEntry.
    destruct (Js.assoc "" (Js.own_entries d)) as [e|]; [|reflexivity].
    destruct (isNullish e); [reflexivity|].
    unfold detailRow in Ha.
    destruct (isListed (detailValue e)); [|reflexivity].
    destruct (Js.truthy (Js.get e "label")); [reflexivity|].
    simpl in Ha. discriminate.
Qed.

Lemma unnamedRow_or_empty (d : value) :
  unnamedRow (Js.or d (VObj [])) = unnamedRow d.
Proof.
  unfold unnamedRow. rewrite own_entries_or_empty. reflexivity.
Qed.

Lemma prepareItem_when (it : item) :
  tagsJoinable (details it) = true ->
  unnamedRow (details it) = false ->
  exists it', prepareItem it = Ok it'.
Proof.
  unfold prepareItem, tagsJoinable. intros T U.
  rewrite <- unnamedRow_or_empty in U.
  destruct (detailRows_total _
              (List.map fst (Js.own_entries (Js.or (details it) (VObj [])))) U)
    as (rows & ->).
  destruct (Js.truthy (Js.and (details it) (Js.get (details it) "tags"))).
  - destruct (Js.get (Js.get (details it) "tags") "value");
      try discriminate. simpl. eauto.
  - simpl. eauto.
Qed.

(** X1.  [prepareItem] returns exactly when nothing it calls is missing:
    an entry under [tags] carries an array (for [join]), and no listed
    entry without a label sits under the empty key (whose first letter
    cannot be capitalized).  In every other case it throws. *)
Theorem prepareItem_returns_iff (it : item) :
  (exists it', prepareItem it = Ok it') <->
  tagsJoinable (details it) = true /\ unnamedRow (details it) = false.
Proof.
  split.
  - unfold prepareItem, tagsJoinable.
    intros (it' & E). inv_bind E. inv_bind E. split.
    + destruct (Js.truthy (Js.and (details it) (Js.get (details it) "tags")));
        [|reflexivity].
      destruct (Js.get (Js.get (details it) "tags") "value");
        try discriminate. reflexivity.
    + rewrite <- unnamedRow_or_empty.
      destruct (Js.assoc "" (Js.own_entries (Js.or (details it) (VObj []))))
        as [e|] eqn:Ee.
      * eapply detailRows_unnamed; [exact Ha0|].
        eapply assoc_In_keys. exact Ee.
      * unfold unnamedRow. rewrite Ee. reflexivity.
  - intros (T & U). apply prepareItem_when; assumption.
Qed.

Lemma detailRows_order (d : value) (keys : list string) (rows : list value) :
  detailRows d keys = Ok rows ->
  List.map (fun r => Js.get r "name") rows =
  List.map VStr
    (List.filter
       (fun k => match Js.assoc k (Js.own_entries d) with
                 | Some e => listedEntry e
                 | None => false
                 end) keys).
Proof.
  revert rows. induction keys as [|i r IH]; intros rows; cbn [detailRows].
  - intros [= <-]. reflexivity.
  - intros E. inv_bind E. inv_bind E. injection E as <-.
    specialize (IH _ Ha0). cbn [List.filter]. unfold listedEntry.
    destruct (Js.assoc i (Js.own_entries d)) as [e|].
    + destruct (isNullish e).
      * injection Ha as <-. exact IH.
      * destruct a as [row|].
        -- apply detailRow_shape in Ha. destruct Ha as (_ & Hn & ->).
           simpl. rewrite Hn, IH. reflexivity.
        -- apply detailRow_None in Ha. rewrite Ha. exact IH.
    + injection Ha as <-. exact IH.
Qed.

(** X2.  The rows of the prepared details follow the enumeration order
    of the details: their names are the keys of the listed entries, one
    row for every occurrence of such a key, in that order. *)
Theorem prepareItem_rows_in_order (it it' : item) :
  prepareItem it = Ok it' ->
  exists rows,
    details it' = VArr rows /\
    List.map (fun r => Js.get r "name") rows
    = List.map VStr (listedKeys (details it)).
Proof.
  intros E. destruct (prepareItem_details _ _ E) as (rows & Hd & Hr).
  exists rows. split; [exact Hd|].
  apply detailRows_order in Hr. rewrite own_entries_or_empty in Hr.
  exact Hr.
Qed.

Lemma assoc_set {A} (k k' : string) (v : A) (o : list (string * A)) :
  Js.assoc k' (Js.set k v o) = if String.eqb k' k then Some v else Js.assoc k' o.
Proof.
  destruct (String.eqb_spec k' k) as [->|N].
  - apply assoc_set_same.
  - apply assoc_set_other. congruence.
Qed.

Lemma hasKey_false {A} (k : string) (o : list (string * A)) :
  hasKey k o = false -> Js.assoc k o = None.
Proof.
  unfold hasKey. destruct (Js.assoc k o); [discriminate | reflexivity].
Qed.

Lemma hasKey_true {A} (k : string) (o : list (string * A)) :
  hasKey k o = true -> exists v, Js.assoc k o = Some v.
Proof.
  unfold hasKey. destruct (Js.assoc k o); [eauto | discriminate].
Qed.

Lemma prepareCode_assoc (it : item) (k : string) :
  Js.assoc k (prepareCode it) =
  match Js.assoc k (codeOf it) with
  | Some v => Some v
  | None =>
      match codeSource it k with
      | Some (l, v) => Some (codeEntry l (JSON_stringify v))
      | None => None
      end
  end.
Proof.
  unfold prepareCode, codeSource, codeOf.
  set (c0 := match code it with Some c => c | None => [] end).
  set (c1 := match layout it with
             | Some l => if hasKey "layout" c0 then c0
                         else Js.set "layout" (codeEntry "Layout" (JSON_stringify l)) c0
             | None => c0
             end).
  set (c2 := match properties it with
             | Some p => if hasKey "properties" c1 then c1
                         else Js.set "properties"
                                (codeEntry "Properties" (JSON_stringify p)) c1
             | None => c1
             end).
  assert (E1 : Js.assoc k c1 =
               match Js.assoc k c0 with
               | Some v => Some v
               | None => if String.eqb k "layout"
                         then option_map (fun l => codeEntry "Layout" (JSON_stringify l))
                                         (layout it)
                         else None
               end).
  { subst c1. destruct (layout it) as [l|]; simpl.
    - destruct (hasKey "layout" c0) eqn:K.
      + destruct (String.eqb_spec k "layout") as [->|N];
          [|destruct (Js.assoc k c0); reflexivity].
        apply hasKey_true in K. destruct K as (v & ->). reflexivity.
      + rewrite assoc_set. destruct (String.eqb_spec k "layout") as [->|N].
        * rewrite (hasKey_false _ _ K). reflexivity.
        * destruct (Js.assoc k c0); reflexivity.
    - destruct (Js.assoc k c0); [reflexivity|].
      destruct (String.eqb k "layout"); reflexivity. }
  assert (E2 : Js.assoc k c2 =
               match Js.assoc k c1 with
               | Some v => Some v
               | None => if String.eqb k "properties"
                         then option_map
                                (fun p => codeEntry "Properties" (JSON_stringify p))
                                (properties it)
                         else None
               end).
  { subst c2. destruct (properties it) as [p|]; simpl.
    - destruct (hasKey "properties" c1) eqn:K.
      + destruct (String.eqb_spec k "properties") as [->|N];
          [|destruct (Js.assoc k c1); reflexivity].
        apply hasKey_true in K. destruct K as (v & ->). reflexivity.
      + rewrite assoc_set. destruct (String.eqb_spec k "properties") as [->|N].
        * rewrite (hasKey_false _ _ K). reflexivity.
        * destruct (Js.assoc k c1); reflexivity.
    - destruct (Js.assoc k c1); [reflexivity|].
      destruct (String.eqb k "properties"); reflexivity. }
  assert (E3 : Js.assoc k
                 (match children it with
                  | Some ch =>
                      if Js.truthy ch && negb (hasKey "children" c2)
                      then Js.set "children"
                             (codeEntry "Children" (JSON_stringify ch)) c2
                      else c2
                  | None => c2
                  end) =
               match Js.assoc k c2 with
               | Some v => Some v
               | None => if String.eqb k "children"
                         then match children it with
                              | Some ch =>
                                  if Js.truthy ch
                                  then Some (codeEntry "Children" (JSON_stringify ch))
                                  else None
                              | None => None
                              end
                         else None
               end).
  { destruct (children it) as [ch|]; simpl.
    - destruct (Js.truthy ch); simpl.
      + destruct (hasKey "children" c2) eqn:K; simpl.
        * destruct (String.eqb_spec k "children") as [->|N];
            [|destruct (Js.assoc k c2); reflexivity].
          apply hasKey_true in K. destruct K as (v & ->). reflexivity.
        * rewrite assoc_set. destruct (String.eqb_spec k "children") as [->|N].
          -- rewrite (hasKey_false _ _ K). reflexivity.
          -- destruct (Js.assoc k c2); reflexivity.
      + destruct (Js.assoc k c2); [reflexivity|].
        destruct (String.eqb k "children"); reflexivity.
    - destruct (Js.assoc k c2); [reflexivity|].
      destruct (String.eqb k "children"); reflexivity. }
  rewrite E3, E2, E1. clear E1 E2 E3.
  destruct (Js.assoc k c0) as [v|]; [reflexivity|].
  destruct (String.eqb_spec k "layout") as [->|N1].
  - simpl. destruct (layout it); reflexivity.
  - destruct (String.eqb_spec k "properties") as [->|N2].
    + simpl. destruct (properties it); reflexivity.
    + destruct (String.eqb_spec k "children") as [->|N3]; [|reflexivity].
      destruct (children it) as [ch|]; [|reflexivity].
      destruct (Js.truthy ch); reflexivity.
Qed.

(** X3.  The code collection of a prepared item.  An item with
    sub-items keeps the collection it came with.  For any other item the
    collection is an object in which every entry the item brought is
    kept as it was, and in which [layout], [properties] and a truthy
    [children] of the item are added as tab-indented JSON under the
    labels Layout, Properties and Children when no entry of that name
    exists; nothing else is added. *)
Theorem prepareItem_code (it it' : item) :
  prepareItem it = Ok it' ->
  match items it with
  | Some _ => code it' = code it
  | None =>
      exists c',
        code it' = Some c' /\
        forall k : string,
          Js.assoc k c' =
          match Js.assoc k (codeOf it) with
          | Some v => Some v
          | None =>
              match codeSource it k with
              | Some (l, v) => Some (codeEntry l (JSON_stringify v))
              | None => None
              end
          end
  end.
Proof.
  unfold prepareItem. intros E. inv_bind E. inv_bind E. injection E as <-.
  destruct (items it) as [subs|]; [reflexivity|].
  eexists. split; [reflexivity|]. intros k.
  rewrite prepareCode_assoc. reflexivity.
Qed.

End PrepareItemMore.

Section PrepareItemMoreRuns.
#[local] Existing Instance Sample.host.

Lemma prepareItem_rows_in_order_witness :
  exists it',
    prepareItem Sample.fieldItem = Ok it' /\
    exists rows,
      details it' = VArr rows /\
      List.map (fun r => Js.get r "name") rows
      = [VStr "table"; VStr "tags"; VStr "hidden"].
Proof.
  eexists. split; [vm_compute; reflexivity|].
  exact (prepareItem_rows_in_order Sample.fieldItem _ eq_refl).
Defined.

Lemma prepareItem_code_witness :
  exists it' c',
    prepareItem Sample.fieldItem = Ok it' /\
    code it' = Some c' /\
    forall k : string,
      Js.assoc k c' =
      match Js.assoc k (codeOf Sample.fieldItem) with
      | Some v => Some v
      | None =>
          match codeSource Sample.fieldItem k with
          | Some (l, v) => Some (codeEntry l (JSON_stringify v))
          | None => None
          end
      end.
Proof.
  assert (E : prepareItem Sample.fieldItem = Ok Sample.preparedFieldItem)
    by (vm_compute; reflexivity).
  destruct (prepareItem_code Sample.fieldItem Sample.preparedFieldItem E)
    as (c' & Hc & Hk).
  exists Sample.preparedFieldItem, c'. split; [exact E|]. split; assumption.
Defined.

End PrepareItemMoreRuns.

(** ** The base URI *)

Lemma stripTrailingSlashes_spec (s : string) :
  exists n : nat,
    s = (stripTrailingSlashes s ++ slashes n)%string /\
    forall q : string, stripTrailingSlashes s <> (q ++ "/")%string.
Proof.
  induction s as [|c r (n & E & NE)].
  - exists 0%nat. split; [reflexivity|]. intros [|x q]; discriminate.
  - cbn [stripTrailingSlashes].
    destruct (stripTrailingSlashes r) as [|c' r'] eqn:Es.
    + destruct (Ascii.eqb_spec c "/") as [->|Nc].
      * exists (S n). split.
        -- simpl in E. rewrite E at 1. reflexivity.
        -- intros [|x q]; discriminate.
      * exists n. split.
        -- simpl in E. rewrite E at 1. reflexivity.
        -- intros [|x q]; [intros [= ->]; congruence|].
           destruct q; discriminate.
    + exists n. split.
      * rewrite E at 1. reflexivity.
      * intros [|x q]; [discriminate|].
        intros [= -> Eq]. exact (NE q Eq).
Qed.

(** X4.  The base URI is the scheme, the host, the port and the prefix
    of the session, the prefix without its trailing slashes, followed by
    a single slash: what is cut from the prefix is slashes only, and
    what remains does not end in one. *)
Theorem baseURI_prefix `{Host} :
  exists (p : string) (n : nat),
    globalOpts_prefix = (p ++ slashes n)%string /\
    (forall q : string, p <> (q ++ "/")%string) /\
    baseURI =
    ((if globalOpts_isSecure then "https://" else "http://")
       ++ globalOpts_host ++ ":" ++ Js.ToString globalOpts_port ++ p ++ "/")%string.
Proof.
  destruct (stripTrailingSlashes_spec globalOpts_prefix) as (n & E & NE).
  exists (stripTrailingSlashes globalOpts_prefix), n. auto.
Qed.

(** ** The search: empty queries and refined queries *)

Lemma filter_sublist {A} (p : A -> bool) (l : list A) :
  sublist (List.filter p l) l.
Proof.
  induction l as [|x r IH]; cbn [List.filter]; [constructor|].
  destruct (p x); [apply sublist_skip | apply sublist_cons]; exact IH.
Qed.

Lemma isSubstring_trans (a b c : string) :
  isSubstring a b -> isSubstring b c -> isSubstring a c.
Proof.
  intros (pre & post & ->) (pre' & post' & ->).
  exists (pre' ++ pre)%string, (post ++ post')%string.
  rewrite !string_app_assoc. reflexivity.
Qed.

Section SearchMore.
Context `{Host}.

Lemma filtered_category (query : string) (s : scope) (category : string)
      (all : list item) :
  Js.assoc category (allItems s) = Some all ->
  Js.assoc category (filteredItems (searchQueryChanged query s))
  = Some (List.filter (matchesQuery query) all).
Proof.
  intros Hall. cbn [searchQueryChanged assetClicked filteredItems].
  rewrite filterAll_assoc, (existsb_keys _ _ _ Hall), Hall. reflexivity.
Qed.

Lemma shown_category (query : string) (s : scope) (all : list item) :
  Js.assoc (activeAsset s) (allItems s) = Some all ->
  selected (searchQueryChanged query s) = List.filter (matchesQuery query) all.
Proof.
  intros Hall. pose proof (filtered_category query s _ _ Hall) as E.
  cbn [searchQueryChanged assetClicked selected filteredItems activeAsset] in *.
  rewrite E. reflexivity.
Qed.

(** X5.  Whatever the query, the filtered list of a category is a
    sub-sequence of the category: the items that are shown keep their
    order and none is shown twice over.  With the empty query the
    filtered list is the whole category again, and the list on display
    is the whole active category. *)
Theorem search_keeps_order (query : string) (s : scope)
        (category : string) (all : list item) :
  Js.assoc category (allItems s) = Some all ->
  (exists shown,
      Js.assoc category (filteredItems (searchQueryChanged query s)) = Some shown /\
      sublist shown all) /\
  Js.assoc category (filteredItems (searchQueryChanged "" s)) = Some all /\
  (category = activeAsset s -> selected (searchQueryChanged "" s) = all).
Proof.
  intros Hall. split; [|split].
  - exists (List.filter (matchesQuery query) all). split.
    + apply filtered_category, Hall.
    + apply filter_sublist.
  - rewrite (filtered_category _ _ _ _ Hall).
    f_equal. apply List.filter_true.
  - intros ->. rewrite (shown_category _ _ _ Hall). apply List.filter_true.
Qed.

Lemma containsCI_refines (q1 q2 : string) (field : value) :
  isSubstring (toLowerCase q1) (toLowerCase q2) ->
  containsCI q2 field -> containsCI q1 field.
Proof.
  intros S (text & F & S2). exists text. split; [exact F|].
  eapply isSubstring_trans; eassumption.
Qed.

(** X6.  Refining a query narrows the result: when the first query,
    in lower case, occurs in the second, itself not empty, every item
    the second query shows in a category is shown by the first query as
    well. *)
Theorem search_refines (q1 q2 : string) (s : scope)
        (category : string) (all shown1 shown2 : list item) :
  q2 <> "" ->
  isSubstring (toLowerCase q1) (toLowerCase q2) ->
  Js.assoc category (allItems s) = Some all ->
  Js.assoc category (filteredItems (searchQueryChanged q1 s)) = Some shown1 ->
  Js.assoc category (filteredItems (searchQueryChanged q2 s)) = Some shown2 ->
  forall a : item, In a shown2 -> In a shown1.
Proof.
  intros Hne S Hall E1 E2 a.
  rewrite (filtered_category q1 _ _ _ Hall) in E1.
  rewrite (filtered_category q2 _ _ _ Hall) in E2.
  injection E1 as <-. injection E2 as <-.
  rewrite !filter_In, !matchesQuery_spec.
  intros (Hin & [E|M]); [contradiction|]. split; [exact Hin|]. right.
  destruct M as [M|[M|M]]; [left | right; left | right; right];
    eapply containsCI_refines; eassumption.
Qed.

End SearchMore.

Section SearchMoreRuns.
#[local] Existing Instance Sample.host.

Lemma search_keeps_order_witness :
  Js.assoc "sheet" (filteredItems (searchQueryChanged "" Sample.loadedScope))
  = Some Sample.sheetInfo.
Proof.
  exact (proj1 (proj2 (search_keeps_order "s" Sample.loadedScope "sheet"
                         Sample.sheetInfo eq_refl))).
Defined.

Lemma search_refines_witness :
  In (Sample.sheet "summary" "Summary" None)
     (List.filter (matchesQuery "M") Sample.sheetInfo).
Proof.
  refine (search_refines "M" "summ" Sample.loadedScope "sheet" Sample.sheetInfo
            _ _ _ _ eq_refl _ _ _ _).
  - discriminate.
  - exists "sum", "". reflexivity.
  - vm_compute. reflexivity.
  - vm_compute. reflexivity.
  - left. reflexivity.
Defined.

End SearchMoreRuns.

(** ** openApp: what the host is asked and what the caller gets *)

Module OpenAppSessions.
Import OpenApp OpenAppSpec.

Section WithCurrentApp.
Variable currApp_id : string.







End WithCurrentApp.

End OpenAppSessions.

(** ** Grouped visualization items: errors and template *)

Section UniqFirst.
Context {A : Type} (key : A -> string).

Lemma uniqFrom_first (seen : list string) (l : list A) (t : A) :
  In t (uniqFrom String.eqb key seen l) ->
  exists rest, List.filter (fun a => String.eqb (key t) (key a)) l = t :: rest.
Proof.
  revert seen. induction l as [|x r IH]; intros seen; cbn [uniqFrom]; [intros []|].
  destruct (existsb (String.eqb (key x)) seen) eqn:Ex.
  - intros Hin. pose proof (uniqFrom_In key _ _ _ Hin) as (_ & Hns).
    cbn [List.filter]. destruct (String.eqb_spec (key t) (key x)) as [E|_].
    + exfalso. apply Hns. rewrite E. apply existsb_eqb_In. exact Ex.
    + eapply IH. exact Hin.
  - intros [<-|Hin].
    + cbn [List.filter]. rewrite String.eqb_refl. eauto.
    + pose proof (uniqFrom_In key _ _ _ Hin) as (_ & Hns).
      cbn [List.filter]. destruct (String.eqb_spec (key t) (key x)) as [E|_].
      * exfalso. apply Hns. apply in_or_app. right. left. congruence.
      * eapply IH. exact Hin.
Qed.

End UniqFirst.

Lemma hasErrors_array (a : item) (l : list value) :
  errors a = VArr l -> hasErrors a = nonEmpty l.
Proof.
  intros E. unfold hasErrors, Js.and, Js.get. rewrite E.
  cbn [Js.truthy Js.own_entries]. rewrite assoc_indexed_length.
  destruct l as [|x r]; [reflexivity|].
  cbn [String.eqb Ascii.eqb Bool.eqb Js.builtin_length Js.truthy List.length nonEmpty].
  simpl. reflexivity.
Qed.

Section GroupedItemsMore.
Context `{Host}.

Lemma prepareItem_keeps (it it' : item) :
  prepareItem it = Ok it' ->
  icon it' = icon it /\ errors it' = errors it /\
  isMasterObject it' = isMasterObject it /\ asset it' = asset it /\
  layout it' = layout it /\ properties it' = properties it /\
  children it' = children it /\ visualizations it' = visualizations it.
Proof.
  unfold prepareItem. intros E. inv_bind E. inv_bind E. injection E as <-.
  destruct (items it); repeat split; reflexivity.
Qed.

Lemma sheetObjectsOf_madeFrom (sheetInfo : list item) :
  Forall2 madeFrom (sheetObjectsOf sheetInfo) (visualizationsOf sheetInfo).
Proof.
  unfold sheetObjectsOf, visualizationsOf.
  induction sheetInfo as [|sheet r IH]; cbn [flat_map]; [constructor|].
  apply Forall2_app; [|exact IH].
  destruct (visualizations sheet) as [v|]; [|constructor].
  induction v as [|o v IHv]; cbn [List.map]; constructor; auto.
  repeat split; reflexivity.
Qed.

Lemma objects_madeFrom (sheetInfo : list item) (t : string) :
  Forall2 madeFrom
    (List.filter (fun a => String.eqb t (so_qType a)) (sheetObjectsOf sheetInfo))
    (objectsOfType sheetInfo t).
Proof.
  apply Forall2_filter; [|apply sheetObjectsOf_madeFrom].
  intros a v (_ & _ & _ & Hp & _). unfold so_qType, vizType. rewrite Hp. reflexivity.
Qed.

(** Every returned item is the prepared group of a template that
    [uniq] has kept. *)
Lemma getUnique_template (sheetInfo : list item)
      (extensionList : list (string * extensionInfo)) (appId : string)
      (out : list item) (it : item) :
  getUniqueAppObjectsFromSheets sheetInfo extensionList appId = Ok out ->
  In it out ->
  exists t g,
    In t (uniq String.eqb so_qType (sheetObjectsOf sheetInfo)) /\
    groupItem sheetInfo extensionList appId (sheetObjectsOf sheetInfo) t = Ok g /\
    prepareItem g = Ok it.
Proof.
  intros E Hin. destruct (getUnique_inv _ _ _ _ E) as (grouped & sorted & Hg & Hs & Hp).
  destruct (Forall2_In_r _ _ _ _ Hp Hin) as (g & Hgin & Hprep).
  apply sortByLabel_Permutation in Hs.
  apply (Permutation_in _ (Permutation_sym Hs)) in Hgin.
  destruct (Forall2_In_r _ _ _ _ Hg Hgin) as (t & Ht & Hgt).
  exists t, g. auto.
Qed.

Lemma subItemOf_errors (sheetInfo : list item) (appId : string) (a : sheetObject)
      (terms : string) (st : item * string) :
  subItemOf sheetInfo appId a terms = Ok st -> errors (fst st) = VArr (so_errors a).
Proof.
  unfold subItemOf. intros E. inv_bind E.
  destruct (so_children a) as [|c cs];
    destruct (addDataDetails _ _) as [details1 terms1];
    inv_bind E; injection E as <-; cbn [fst];
    apply prepareItem_keeps in Ha0; destruct Ha0 as (_ & -> & _); reflexivity.
Qed.

Lemma subItemsOf_errors (sheetInfo : list item) (appId : string)
      (objects : list sheetObject) (terms : string) (st : list item * string) :
  subItemsOf sheetInfo appId objects terms = Ok st ->
  Forall2 (fun sub a => errors sub = VArr (so_errors a)) (fst st) objects.
Proof.
  revert terms st. induction objects as [|a r IH]; intros terms st; cbn [subItemsOf].
  - intros E. injection E as <-. constructor.
  - intros E. inv_bind E. inv_bind E. injection E as <-. cbn [fst].
    constructor; [eapply subItemOf_errors; eauto | eapply IH; eauto].
Qed.

(** The error fields of a group, by its objects. *)
Lemma groupItem_errors (sheetInfo : list item)
      (extensionList : list (string * extensionInfo)) (appId : string)
      (sheetObjects : list sheetObject) (template : sheetObject) (g : item) :
  groupItem sheetInfo extensionList appId sheetObjects template = Ok g ->
  let objects :=
    List.filter (fun a => String.eqb (so_qType template) (so_qType a)) sheetObjects in
  icon g = Some (if existsb (fun o => nonEmpty (so_errors o)) objects
                 then "debug" else "") /\
  match objects with
  | [first] => errors g = VArr (so_errors first) /\ items g = None
  | _ => errors g = VBool false /\
         exists subs, items g = Some subs /\
                      Forall2 (fun sub a => errors sub = VArr (so_errors a)) subs objects
  end.
Proof.
  intros E objects. unfold groupItem in E. fold objects in E.
  clearbody objects. destruct objects as [|first rest]; [discriminate|].
  inv_bind E.
  destruct rest as [|second rest].
  - cbn in E. injection E as <-. cbn [icon errors items existsb].
    auto.
  - assert (Em : (1 <? Z.of_nat (List.length (first :: second :: rest))) = true).
    { apply Z.ltb_lt. cbn [List.length]. lia. }
    rewrite Em in E. inv_bind E. injection E as <-. cbn [icon errors items].
    cbn [negb andb orb]. split; [reflexivity|]. split; [reflexivity|].
    exists (fst a0). split; [reflexivity|]. eapply subItemsOf_errors; eauto.
Qed.

(** X9.  The error marks of a returned item.  Its icon is [debug]
    exactly when some visualization of its type has errors.  With one
    visualization of the type the item carries the errors of that
    visualization; with several, the item itself carries none (so it is
    not an error of its own), and every sub-item carries the errors of
    its visualization. *)
Theorem grouped_item_errors (sheetInfo : list item)
        (extensionList : list (string * extensionInfo)) (appId : string)
        (out : list item) (it : item) :
  getUniqueAppObjectsFromSheets sheetInfo extensionList appId = Ok out ->
  In it out ->
  let objects := objectsOfType sheetInfo (id it) in
  icon it = Some (if existsb hasVizErrors objects then "debug" else "") /\
  match objects with
  | [v] => errors it = VArr (viz_errors v) /\ hasErrors it = hasVizErrors v
  | _ =>
      errors it = VBool false /\ hasErrors it = false /\
      exists subs,
        items it = Some subs /\
        Forall2 (fun sub v => errors sub = VArr (viz_errors v)) subs objects
  end.
Proof.
  intros E Hin objects.
  destruct (getUnique_template _ _ _ _ _ E Hin) as (t & g & Ht & Hg & Hprep).
  pose proof (prepareItem_fields _ _ Hprep) as (Hid & _ & _ & Hitems & _).
  pose proof (prepareItem_keeps _ _ Hprep) as (Hicon & Herr & _).
  pose proof (groupItem_inv _ _ _ _ _ _ Hg) as (Hgid & _).
  pose proof (groupItem_errors _ _ _ _ _ _ Hg) as Hge. cbv zeta in Hge.
  pose proof (objects_madeFrom sheetInfo (so_qType t)) as Hobj.
  assert (Eid : so_qType t = id it) by congruence.
  rewrite Eid in Hobj, Hge. fold objects in Hobj.
  set (sobjects := List.filter (fun a => String.eqb (id it) (so_qType a))
                               (sheetObjectsOf sheetInfo)) in *.
  clearbody objects sobjects.
  destruct Hge as (Hi & He). split.
  - rewrite Hicon, Hi. f_equal.
    assert (Ex : existsb (fun o => nonEmpty (so_errors o)) sobjects
                 = existsb hasVizErrors objects).
    { clear -Hobj. induction Hobj as [|a v l l' (_ & Ha & _) _ IH]; [reflexivity|].
      cbn [existsb]. unfold hasVizErrors at 1. rewrite Ha, IH. reflexivity. }
    rewrite Ex. reflexivity.
  - assert (Hsubs : forall subs la lv,
               Forall2 (fun sub a => errors sub = VArr (so_errors a)) subs la ->
               Forall2 madeFrom la lv ->
               Forall2 (fun sub v => errors sub = VArr (viz_errors v)) subs lv).
    { clear. intros subs la lv Hf. revert lv.
      induction Hf as [|sub a0 subs0 la0 Hsa _ IH]; intros lv Hm.
      - inversion Hm; subst. constructor.
      - inversion Hm as [|? v0 ? lv0 (_ & Ha0 & _) Hm0]; subst.
        constructor; [congruence | apply IH; exact Hm0]. }
    destruct Hobj as [|a v l l' Hav Hrest].
    + destruct He as (He & subs & Hs & Hf).
      split; [congruence|]. split; [unfold hasErrors; rewrite Herr, He; reflexivity|].
      exists subs. split; [congruence|]. inversion Hf; subst. constructor.
    + destruct Hrest as [|a2 v2 l2 l2' Hav2 Hrest2].
      * destruct He as (He & _). pose proof Hav as (_ & Ha & _).
        rewrite Ha in He. rewrite He in Herr. split; [exact Herr|].
        apply hasErrors_array. exact Herr.
      * destruct He as (He & subs & Hs & Hf).
        split; [congruence|]. split; [unfold hasErrors; rewrite Herr, He; reflexivity|].
        exists subs. split; [congruence|].
        eapply Hsubs; [exact Hf|].
        constructor; [exact Hav|]. constructor; [exact Hav2 | exact Hrest2].
Qed.

(** X10.  The object a group is named after is the first visualization
    of its type, in the order of the sheets: the third-party flag of
    the returned item is the flag in the metadata of that visualization
    (false when it has none), and the label is the name the extension
    list has for its template, or else the name in its metadata. *)
Theorem grouped_item_template (sheetInfo : list item)
        (extensionList : list (string * extensionInfo)) (appId : string)
        (out : list item) (it : item) :
  getUniqueAppObjectsFromSheets sheetInfo extensionList appId = Ok out ->
  In it out ->
  exists (v : visualization) (rest : list visualization),
    objectsOfType sheetInfo (id it) = v :: rest /\
    isThirdParty it = meta_isThirdParty (vizMeta v) /\
    label it = Some (extensionLabel extensionList (vizMeta v)).
Proof.
  intros E Hin.
  destruct (getUnique_template _ _ _ _ _ E Hin) as (t & g & Ht & Hg & Hprep).
  pose proof (prepareItem_fields _ _ Hprep) as (Hid & Hlabel & _ & _ & _ & Hthird).
  pose proof (groupItem_inv _ _ _ _ _ _ Hg) as (Hgid & _).
  destruct (uniqFrom_first so_qType _ _ _ Ht) as (srest & Hfirst).
  pose proof (objects_madeFrom sheetInfo (so_qType t)) as Hobj.
  rewrite Hfirst in Hobj.
  assert (Eid : so_qType t = id it) by congruence. rewrite Eid in Hobj.
  inversion Hobj as [|? v ? rest (_ & _ & Hmeta & _) _ Ea Ev]; subst.
  exists v, rest. split; [reflexivity|].
  unfold groupItem in Hg. rewrite Hfirst in Hg. inv_bind Hg.
  rewrite Hthird, Hlabel. unfold extensionLabel. rewrite <- Hmeta.
  destruct (1 <? Z.of_nat (List.length (t :: srest))).
  - inv_bind Hg. injection Hg as <-. cbn [isThirdParty label]. split; [reflexivity|].
    destruct (Js.assoc (meta_template (so_meta t)) extensionList); reflexivity.
  - injection Hg as <-. cbn [isThirdParty label]. split; [reflexivity|].
    destruct (Js.assoc (meta_template (so_meta t)) extensionList); reflexivity.
Qed.

End GroupedItemsMore.

(** ** The loaded display model *)

Lemma hasKey_existsb {A} (k : string) (o : list (string * A)) :
  hasKey k o = existsb (String.eqb k) (List.map fst o).
Proof.
  unfold hasKey. induction o as [|[k' v] r IH]; cbn [Js.assoc List.map fst existsb];
    [reflexivity|].
  destruct (String.eqb k k'); [reflexivity | exact IH].
Qed.

Lemma set_fresh {A} (k : string) (v : A) (o : list (string * A)) :
  hasKey k o = false -> Js.set k v o = (o ++ [(k, v)])%list.
Proof.
  unfold hasKey. induction o as [|[k' v'] r IH]; cbn [Js.assoc Js.set app];
    [reflexivity|].
  destruct (String.eqb k k'); [discriminate|].
  intros E. rewrite (IH E). reflexivity.
Qed.

Lemma keys_set_present {A} (k : string) (v : A) (o : list (string * A)) :
  hasKey k o = true -> List.map fst (Js.set k v o) = List.map fst o.
Proof.
  unfold hasKey. induction o as [|[k' v'] r IH]; cbn [Js.assoc Js.set List.map fst];
    [discriminate|].
  destruct (String.eqb_spec k k') as [->|N]; [reflexivity|].
  intros E. cbn [List.map fst]. rewrite (IH E). reflexivity.
Qed.

Lemma assoc_app {A} (k : string) (o o' : list (string * A)) :
  Js.assoc k (o ++ o')%list =
  match Js.assoc k o with
  | Some v => Some v
  | None => Js.assoc k o'
  end.
Proof.
  induction o as [|[k' v] r IH]; cbn [Js.assoc app]; [reflexivity|].
  destruct (String.eqb k k'); [reflexivity | exact IH].
Qed.

Lemma fold_set_fresh {A} (new o : list (string * A)) :
  List.NoDup (List.map fst (o ++ new)%list) ->
  fold_left (fun acc kv => Js.set (fst kv) (snd kv) acc) new o = (o ++ new)%list.
Proof.
  revert o. induction new as [|[k v] r IH]; intros o Hnd; cbn [fold_left fst snd].
  - rewrite app_nil_r. reflexivity.
  - assert (Hk : hasKey k o = false).
    { rewrite hasKey_existsb. destruct (existsb (String.eqb k) (List.map fst o)) eqn:Ex;
        [|reflexivity].
      apply existsb_eqb_In in Ex. rewrite List.map_app in Hnd.
      apply NoDup_ListNoDup in Hnd. apply NoDup_app in Hnd.
      destruct Hnd as (_ & Hd & _). exfalso.
      apply (Hd k); [apply list_elem_of_In; exact Ex|].
      apply list_elem_of_In. left. reflexivity. }
    rewrite (set_fresh _ _ _ Hk), IH.
    + rewrite <- app_assoc. reflexivity.
    + rewrite <- app_assoc. exact Hnd.
Qed.

Section LoadedFacts.
Context `{Host}.

Lemma prepareCategories_ok (args all all' : list (string * list item)) (u : unit) :
  prepareCategories args all = (all', Ok u) ->
  exists prepared,
    Forall2 (fun a p => fst a = fst p /\ mapM prepareItem (snd a) = Ok (snd p))
            args prepared /\
    all' = fold_left (fun acc kv => Js.set (fst kv) (snd kv) acc) prepared all.
Proof.
  revert all. induction args as [|[i l] rest IH]; intros all; cbn [prepareCategories].
  - intros [= <- _]. exists []. split; [constructor | reflexivity].
  - destruct (mapM prepareItem l) as [lp|m] eqn:El; [|discriminate].
    intros E. destruct (IH _ E) as (prepared & Hf & ->).
    exists ((i, lp) :: prepared). split; [|reflexivity].
    constructor; [split; [reflexivity | exact El] | exact Hf].
Qed.

Lemma defaultBookmarkIdOf_app (all all' : list (string * list item)) :
  Js.assoc "app" all = Js.assoc "app" all' ->
  defaultBookmarkIdOf all = defaultBookmarkIdOf all'.
Proof.
  unfold defaultBookmarkIdOf. intros ->. reflexivity.
Qed.

(** What a completed load has gone through. *)
Lemma loaded_inv (appId : string) (q : hostQueries) (s : scope) :
  loadInspector appId q = (s, Loaded) ->
  exists args prepared ext uniqObjects sheets d,
    q_all (inspectorQueries appId q) = Resolved args /\
    q_appInfo_extensions q = Resolved ext /\
    Forall2 (fun a p => fst a = fst p /\ mapM prepareItem (snd a) = Ok (snd p))
            args prepared /\
    List.map fst prepared = fetchedKeys /\
    Js.assoc "sheet" prepared = Some sheets /\
    getUniqueAppObjectsFromSheets sheets ext appId = Ok uniqObjects /\
    defaultBookmarkIdOf prepared = Ok d /\ Js.truthy d = false /\
    s = {| loading := false; activeAsset := "app";
           allItems := collectErrors (storedCategories prepared uniqObjects);
           filteredItems := [];
           selected :=
             match Js.assoc "app" (collectErrors (storedCategories prepared uniqObjects)) with
             | Some l => l
             | None => []
             end;
           search_query := ""; watching := true |}.
Proof.
  unfold loadInspector.
  destruct (q_all (inspectorQueries appId q)) as [|args|m] eqn:Eq; try discriminate.
  destruct (q_appInfo_extensions q) as [|ext|m] eqn:Ee; try discriminate.
  destruct (populate args ext appId initialScope) as [s' r] eqn:Ep.
  destruct r as [[]|m]; [|discriminate]. intros [= ->].
  unfold populate in Ep.
  destruct (prepareCategories args (allItems initialScope)) as [all1 r1] eqn:Ec.
  destruct r1 as [u|m]; [|discriminate].
  destruct (prepareCategories_ok _ _ _ _ Ec) as (prepared & Hf & E1).
  assert (Hkeys : List.map fst prepared = fetchedKeys).
  { destruct (inspector_args _ _ _ Eq) as (Hk & _).
    rewrite <- (Forall2_map_eq fst fst args prepared).
    - rewrite Hk. reflexivity.
    - eapply Forall2_impl; [exact Hf|]. intros a p [Ha _]. exact Ha. }
  cbn [allItems initialScope] in E1.
  rewrite fold_set_fresh in E1.
  2:{ cbn [app]. rewrite Hkeys. unfold fetchedKeys.
      repeat (constructor; [cbn [In]; intuition discriminate|]). constructor. }
  cbn [app] in E1. subst all1.
  destruct (Js.assoc "sheet" prepared) as [sheets|] eqn:Es; [|discriminate].
  destruct (getUniqueAppObjectsFromSheets sheets ext appId) as [uniqObjects|m] eqn:Eu;
    [|discriminate].
  assert (Hno : forall k, existsb (String.eqb k) fetchedKeys = false ->
                          hasKey k prepared = false).
  { intros k Hk. rewrite hasKey_existsb, Hkeys. exact Hk. }
  rewrite (set_fresh "chart") in Ep by (apply Hno; reflexivity).
  rewrite (set_fresh "extension") in Ep.
  2:{ rewrite hasKey_existsb, List.map_app, existsb_app, Hkeys. reflexivity. }
  rewrite <- app_assoc in Ep. cbn [app] in Ep.
  destruct (markBookmarks _) as [all3|m] eqn:Em; [|discriminate].
  unfold markBookmarks in Em. inv_bind Em. rename a into d.
  destruct (Js.truthy d) eqn:Td.
  { rewrite assoc_app in Em. rewrite (hasKey_false "bookmarks" prepared) in Em
      by (apply Hno; reflexivity).
    cbn in Em. discriminate. }
  injection Em as <-.
  rewrite (set_fresh "errors") in Ep.
  2:{ rewrite hasKey_existsb, List.map_app, existsb_app, Hkeys. reflexivity. }
  rewrite <- app_assoc in Ep. cbn [app] in Ep.
  injection Ep as <-.
  exists args, prepared, ext, uniqObjects, sheets, d.
  split; [reflexivity|]. split; [reflexivity|]. split; [exact Hf|].
  split; [exact Hkeys|]. split; [exact Es|]. split; [exact Eu|].
  split; [|split; [exact Td | reflexivity]].
  rewrite <- Ha. apply defaultBookmarkIdOf_app.
  rewrite assoc_app.
  destruct (Js.assoc "app" prepared) as [l|] eqn:Ea; [reflexivity|].
  exfalso. assert (Hk : hasKey "app" prepared = true)
    by (rewrite hasKey_existsb, Hkeys; reflexivity).
  unfold hasKey in Hk. rewrite Ea in Hk. discriminate.
Qed.

End LoadedFacts.

Section LoadedModel.
Context `{Host}.

Lemma collectErrors_keys (all : list (string * list item)) :
  hasKey "errors" all = true ->
  List.map fst (collectErrors all) = List.map fst all.
Proof.
  intros Hk. unfold collectErrors.
  set (marked := List.map _ all).
  assert (Em : List.map fst marked = List.map fst all).
  { subst marked. rewrite List.map_map. apply List.map_ext.
    intros [k l]. cbn [fst snd]. destruct (String.eqb k "errors"); reflexivity. }
  rewrite keys_set_present; [exact Em|].
  rewrite hasKey_existsb, Em, <- hasKey_existsb. exact Hk.
Qed.

Lemma stored_keys (prepared : list (string * list item)) (uniqObjects : list item) :
  List.map fst prepared = fetchedKeys ->
  List.map fst (collectErrors (storedCategories prepared uniqObjects))
  = (fetchedKeys ++ ["chart"; "extension"; "errors"])%list.
Proof.
  intros Hkeys.
  assert (Es : List.map fst (storedCategories prepared uniqObjects)
               = (fetchedKeys ++ ["chart"; "extension"; "errors"])%list).
  { unfold storedCategories. rewrite List.map_app, Hkeys. reflexivity. }
  rewrite collectErrors_keys; [exact Es|].
  rewrite hasKey_existsb, Es. reflexivity.
Qed.

Lemma loading_of_populate (args : list (string * list item))
      (ext : list (string * extensionInfo)) (appId : string) :
  let r := populate args ext appId initialScope in
  match snd r with
  | Ok _ => loading (fst r) = false /\ watching (fst r) = true
  | Throw _ => loading (fst r) = true /\ watching (fst r) = false
  end.
Proof.
  unfold populate.
  destruct (prepareCategories args (allItems initialScope)) as [all1 [u|m]];
    [|cbn; auto].
  destruct (Js.assoc "sheet" all1) as [sheets|]; [|cbn; auto].
  destruct (getUniqueAppObjectsFromSheets sheets ext appId) as [u0|m]; [|cbn; auto].
  destruct (markBookmarks _) as [all3|m]; cbn; auto.
Qed.

(** X11.  The loading flag and the search watcher follow the outcome of
    the load: [loading] is switched off, and the watcher on the search
    query installed, exactly when the callback on the queries has run to
    its end.  While a query is pending, and for good after a query is
    rejected or the callback has thrown, the modal stays in its loading
    state.  After a completed load the list on display is the [app]
    category. *)
Theorem loading_until_loaded (appId : string) (q : hostQueries) :
  (loading (fst (loadInspector appId q)) = false <->
   snd (loadInspector appId q) = Loaded) /\
  (watching (fst (loadInspector appId q)) = true <->
   snd (loadInspector appId q) = Loaded) /\
  (snd (loadInspector appId q) = Loaded ->
   Js.assoc "app" (allItems (fst (loadInspector appId q)))
   = Some (selected (fst (loadInspector appId q)))).
Proof.
  split; [|split].
  - unfold loadInspector.
    destruct (q_all (inspectorQueries appId q)) as [|args|m];
      try (cbn; split; discriminate).
    destruct (q_appInfo_extensions q) as [|ext|m];
      try (cbn; split; discriminate).
    pose proof (loading_of_populate args ext appId) as Hl. cbv zeta in Hl.
    destruct (populate args ext appId initialScope) as [s [u|m]]; cbn [fst snd] in *.
    + destruct Hl as (-> & _). split; reflexivity.
    + destruct Hl as (-> & _). split; discriminate.
  - unfold loadInspector.
    destruct (q_all (inspectorQueries appId q)) as [|args|m];
      try (cbn; split; discriminate).
    destruct (q_appInfo_extensions q) as [|ext|m];
      try (cbn; split; discriminate).
    pose proof (loading_of_populate args ext appId) as Hl. cbv zeta in Hl.
    destruct (populate args ext appId initialScope) as [s [u|m]]; cbn [fst snd] in *.
    + destruct Hl as (_ & ->). split; reflexivity.
    + destruct Hl as (_ & ->). split; discriminate.
  - destruct (loadInspector appId q) as [s st] eqn:El. cbn [fst snd].
    intros ->. destruct (loaded_inv _ _ _ El)
      as (args & prepared & ext & uniqObjects & sheets & d & _ & _ & _ & Hkeys & _ & _
          & _ & _ & ->).
    cbn [allItems selected].
    destruct (Js.assoc "app" (collectErrors (storedCategories prepared uniqObjects)))
      as [l|] eqn:Ea; [reflexivity|].
    exfalso.
    assert (Hk : hasKey "app" (collectErrors (storedCategories prepared uniqObjects))
                 = true).
    { rewrite hasKey_existsb, stored_keys by exact Hkeys. reflexivity. }
    unfold hasKey in Hk. rewrite Ea in Hk. discriminate.
Qed.

(** The [app] category of a completed load. *)
Lemma loaded_app (appId : string) (q : hostQueries) :
  snd (loadInspector appId q) = Loaded ->
  exists (app prepared : list item) (d : value),
    q_getAppInfo q = Resolved app /\
    mapM prepareItem app = Ok prepared /\
    defaultBookmarkIdOf [("app", prepared)] = Ok d /\
    Js.truthy d = false.
Proof.
  destruct (loadInspector appId q) as [s st] eqn:El. cbn [snd]. intros ->.
  destruct (loaded_inv _ _ _ El)
    as (args & prepared & ext & uniqObjects & sheets & d & Eq & _ & Hf & Hkeys & _ & _
        & Hd & Td & _).
  apply q_all_Resolved in Eq. unfold inspectorQueries in Eq.
  inversion Eq as [|kp ka ps args' (Hk & Hp) _ Eps Eargs]; subst.
  inversion Hf as [|ka' p args'' prepared' (Hk' & Hm) _ Eargs' Eprep]; subst.
  destruct ka as [k app], p as [k' papp]. cbn [fst snd] in *. subst k k'.
  exists app, papp, d. split; [exact Hp|]. split; [exact Hm|]. split; [|exact Td].
  rewrite <- Hd. apply defaultBookmarkIdOf_app. cbn [Js.assoc].
  reflexivity.
Qed.

(** X12.  A load completes only for an app without a start bookmark:
    after a completed load, the default bookmark id in the layout of the
    [AppPropsList] item of the prepared [app] query is falsy.  (With a
    truthy id the callback reads the length of [allItems.bookmarks], a
    key under which nothing is stored, and throws.) *)
Theorem loaded_without_start_bookmark (appId : string) (q : hostQueries) :
  snd (loadInspector appId q) = Loaded ->
  exists (app prepared : list item) (d : value),
    q_getAppInfo q = Resolved app /\
    mapM prepareItem app = Ok prepared /\
    defaultBookmarkIdOf [("app", prepared)] = Ok d /\
    Js.truthy d = false.
Proof.
  intros Hl. destruct (loaded_app appId q Hl) as (app & prepared & d & Hq & Hm & Hd & Td).
  exists app, prepared, d. auto.
Qed.


Lemma collectErrors_found (all : list (string * list item)) :
  Js.assoc "errors" (collectErrors all)
  = Some (flat_map (fun kv => if String.eqb (fst kv) "errors" then []
                              else snd (collectCategory (fst kv) (snd kv))) all).
Proof.
  unfold collectErrors. apply assoc_set_same.
Qed.

Lemma hasErrors_collectItem (i : string) (a : item) :
  hasErrors (fst (collectItem i a)) = hasErrors a.
Proof.
  unfold collectItem. cbn [fst].
  destruct (hasErrors a) eqn:E; unfold hasErrors in *; exact E.
Qed.

Lemma hasErrors_markSubItem (i : string) (a b : item) :
  hasErrors (markSubItem i a b) = hasErrors b.
Proof.
  unfold markSubItem. destruct (hasErrors b) eqn:E; [|exact E].
  unfold hasErrors in *. exact E.
Qed.

(** The errors an item contributes, and what they carry. *)
Lemma collectItem_found (i : string) (a b : item) :
  In b (snd (collectItem i a)) ->
  hasErrors b = true /\ asset b = Some i /\
  (b = fst (collectItem i a) \/
   (In b (subItems (fst (collectItem i a))) /\
    icon b = Some "debug" /\ label b = label (fst (collectItem i a)))).
Proof.
  unfold collectItem. cbn [fst snd]. intros Hin. apply in_app_or in Hin.
  destruct Hin as [Hin|Hin].
  - destruct (hasErrors a) eqn:Ea; [|destruct Hin].
    destruct Hin as [<-|[]]. split; [|split; [reflexivity | left; reflexivity]].
    unfold hasErrors in *. exact Ea.
  - pose proof Hin as Hsub. apply filter_In in Hin. destruct Hin as (Hin & Hb).
    split; [exact Hb|].
    assert (Hl : label (set_items (if hasErrors a then set_asset a (Some i) else a)
                                  (option_map (List.map (markSubItem i a)) (items a)))
                 = label a)
      by (destruct (hasErrors a); reflexivity).
    cbn [items set_items] in Hin.
    destruct (items a) as [subs|] eqn:Ei; [|destruct Hin]. cbn [option_map] in Hin.
    apply in_map_iff in Hin. destruct Hin as (b0 & <- & Hb0).
    rewrite hasErrors_markSubItem in Hb.
    assert (Em : markSubItem i a b0
                 = set_icon (set_label (set_asset b0 (Some i)) (label a)) (Some "debug"))
      by (unfold markSubItem; rewrite Hb; reflexivity).
    split; [rewrite Em; reflexivity|]. right. split; [|split].
    + unfold subItems. cbn [items set_items]. cbn [option_map].
      apply in_map. exact Hb0.
    + rewrite Em. reflexivity.
    + rewrite Em, Hl. reflexivity.
Qed.

Lemma collectItem_complete (i : string) (a : item) :
  (hasErrors a = true -> In (fst (collectItem i a)) (snd (collectItem i a))) /\
  (forall b, In b (subItems (fst (collectItem i a))) -> hasErrors b = true ->
             In b (snd (collectItem i a))).
Proof.
  unfold collectItem. cbn [fst snd]. split.
  - intros ->. apply in_or_app. left. left. reflexivity.
  - intros b Hin Hb. apply in_or_app. right. apply filter_In. split; [|exact Hb].
    exact Hin.
Qed.

Lemma assoc_NoDup {A} (k : string) (v : A) (o : list (string * A)) :
  List.NoDup (List.map fst o) -> In (k, v) o -> Js.assoc k o = Some v.
Proof.
  induction o as [|[k' v'] r IH]; cbn [List.map fst Js.assoc]; [intros _ []|].
  intros Hnd [[= -> ->]|Hin].
  - rewrite String.eqb_refl. reflexivity.
  - inversion Hnd as [|? ? Hni Hnd']; subst.
    destruct (String.eqb_spec k k') as [->|_]; [|apply IH; assumption].
    exfalso. apply Hni. apply in_map_iff. exists (k', v). auto.
Qed.

Lemma fetchedKeys_NoDup : List.NoDup fetchedKeys.
Proof.
  unfold fetchedKeys.
  repeat (constructor; [cbn [In]; intuition discriminate|]). constructor.
Qed.

Lemma stored_keys_NoDup (prepared : list (string * list item))
      (uniqObjects : list item) :
  List.map fst prepared = fetchedKeys ->
  List.NoDup (List.map fst (storedCategories prepared uniqObjects)).
Proof.
  intros Hkeys. unfold storedCategories. rewrite List.map_app, Hkeys.
  unfold fetchedKeys. cbn [app List.map fst].
  repeat (constructor; [cbn [In]; intuition discriminate|]). constructor.
Qed.

(** Where an entry of the errors comes from. *)
Lemma stored_errors_sound (prepared : list (string * list item))
      (uniqObjects : list item) (b : item) :
  List.map fst prepared = fetchedKeys ->
  In b (flat_map (fun kv => if String.eqb (fst kv) "errors" then []
                            else snd (collectCategory (fst kv) (snd kv)))
                 (storedCategories prepared uniqObjects)) ->
  hasErrors b = true /\
  exists i l a,
    asset b = Some i /\ i <> "errors" /\
    In i (fetchedKeys ++ ["chart"; "extension"; "errors"])%list /\
    Js.assoc i (collectErrors (storedCategories prepared uniqObjects)) = Some l /\
    In a l /\
    (b = a \/ (In b (subItems a) /\ icon b = Some "debug" /\ label b = label a)).
Proof.
  intros Hkeys Hin. apply in_flat_map in Hin. destruct Hin as ([i l] & Hil & Hin).
  cbn [fst snd] in Hin.
  destruct (String.eqb_spec i "errors") as [->|Hne]; [destruct Hin|].
  unfold collectCategory in Hin. cbn [snd] in Hin.
  apply in_flat_map in Hin. destruct Hin as (a & Ha & Hin).
  apply collectItem_found in Hin. destruct Hin as (Hb & Has & Hfrom).
  split; [exact Hb|].
  exists i, (fst (collectCategory i l)), (fst (collectItem i a)).
  split; [exact Has|]. split; [exact Hne|]. split; [|split; [|split]].
  - assert (Es : List.map fst (storedCategories prepared uniqObjects)
                 = (fetchedKeys ++ ["chart"; "extension"; "errors"])%list).
    { unfold storedCategories. rewrite List.map_app, Hkeys. reflexivity. }
    rewrite <- Es. apply in_map_iff. exists (i, l). auto.
  - rewrite collectErrors_assoc by exact Hne.
    rewrite (assoc_NoDup i l); [reflexivity | | exact Hil].
    apply stored_keys_NoDup. exact Hkeys.
  - unfold collectCategory. cbn [fst].
    apply in_map_iff. exists a. auto.
  - exact Hfrom.
Qed.

(** X14.  The [errors] category after a completed load.  Every entry
    has errors of its own and names, in [asset], the category it was
    found in, one of the other categories of the model: the entry is an
    item of that category, or a sub-item of such an item, then shown
    with the icon [debug] and under the label of that item.  And
    nothing is missed: an item of any other category that has errors is
    an entry, and so is every sub-item with errors of any such item. *)
Theorem loaded_errors_category (appId : string) (q : hostQueries) :
  snd (loadInspector appId q) = Loaded ->
  exists errs : list item,
    Js.assoc "errors" (allItems (fst (loadInspector appId q))) = Some errs /\
    (forall b : item,
        In b errs ->
        hasErrors b = true /\
        exists (i : string) (l : list item) (a : item),
          asset b = Some i /\ i <> "errors" /\
          Js.assoc i (allItems (fst (loadInspector appId q))) = Some l /\
          In a l /\
          (b = a \/
           (In b (subItems a) /\ icon b = Some "debug" /\ label b = label a))) /\
    (forall (i : string) (l : list item) (a : item),
        i <> "errors" ->
        Js.assoc i (allItems (fst (loadInspector appId q))) = Some l ->
        In a l ->
        (hasErrors a = true -> In a errs) /\
        (forall b, In b (subItems a) -> hasErrors b = true -> In b errs)).
Proof.
  destruct (loadInspector appId q) as [s st] eqn:El. cbn [fst snd]. intros ->.
  destruct (loaded_inv _ _ _ El)
    as (args & prepared & ext & uniqObjects & sheets & d & _ & _ & _ & Hkeys & _ & _
        & _ & _ & ->).
  cbn [allItems].
  set (stored := storedCategories prepared uniqObjects).
  eexists. split; [apply collectErrors_found|]. split.
  - intros b Hin. subst stored.
    destruct (stored_errors_sound _ _ _ Hkeys Hin)
      as (Hb & i & l & a & Has & Hne & _ & Hl & Ha & Hfrom).
    split; [exact Hb|]. exists i, l, a. auto.
  - intros i l' a' Hne Hl' Ha'.
    rewrite collectErrors_assoc in Hl' by exact Hne.
    destruct (Js.assoc i stored) as [l|] eqn:Ei; [|discriminate].
    cbn [option_map] in Hl'. injection Hl' as <-.
    unfold collectCategory in Ha'. cbn [fst] in Ha'.
    apply in_map_iff in Ha'. destruct Ha' as (a & <- & Ha).
    assert (Hfound : forall b, In b (snd (collectItem i a)) ->
                               In b (flat_map
                                       (fun kv => if String.eqb (fst kv) "errors" then []
                                                  else snd (collectCategory (fst kv) (snd kv)))
                                       stored)).
    { intros b Hb. apply in_flat_map. exists (i, l). split; [apply assoc_In; exact Ei|].
      cbn [fst snd]. destruct (String.eqb_spec i "errors"); [contradiction|].
      unfold collectCategory. cbn [snd]. apply in_flat_map. exists a. auto. }
    destruct (collectItem_complete i a) as (Hc1 & Hc2). split.
    + intros He. apply Hfound, Hc1. rewrite <- hasErrors_collectItem with (i := i).
      exact He.
    + intros b Hb He. apply Hfound, Hc2; assumption.
Qed.

Lemma getAssetLabel_category (k : string) :
  In k (fetchedKeys ++ ["chart"; "extension"; "errors"])%list ->
  exists l, getAssetLabel (Some k) = Some l.
Proof.
  intros Hin. unfold fetchedKeys in Hin. cbn [app In] in Hin.
  repeat (destruct Hin as [<-|Hin]; [eexists; reflexivity|]). destruct Hin.
Qed.

(** X15.  The label of an entry of the [errors] category.  After a
    completed load, with [errors] as the active asset, [itemLabel] does
    not throw for any entry of the category: it returns the label of the
    asset the entry was found in, then [ / ], then the label of the
    entry (the word [undefined] when it has none). *)
Theorem error_item_labels (appId : string) (q : hostQueries)
        (errs : list item) (b : item) :
  snd (loadInspector appId q) = Loaded ->
  Js.assoc "errors" (allItems (fst (loadInspector appId q))) = Some errs ->
  In b errs ->
  exists l : string,
    getAssetLabel (asset b) = Some l /\
    itemLabel "errors" b
    = Ok (VStr (l ++ " / " ++ Js.ToString (label_value (label b)))).
Proof.
  destruct (loadInspector appId q) as [s st] eqn:El. cbn [fst snd]. intros ->.
  destruct (loaded_inv _ _ _ El)
    as (args & prepared & ext & uniqObjects & sheets & d & _ & _ & _ & Hkeys & _ & _
        & _ & _ & ->).
  cbn [allItems]. rewrite collectErrors_found. intros [= <-] Hb.
  destruct (stored_errors_sound _ _ _ Hkeys Hb) as (_ & i & _ & _ & Ha & _ & Hi & _).
  destruct (getAssetLabel_category i Hi) as (l & El').
  exists l. rewrite Ha. split; [exact El'|].
  unfold itemLabel. cbn [String.eqb Ascii.eqb Bool.eqb]. rewrite Ha, El'. reflexivity.
Qed.

(** X16.  After a completed load, every one of the ten queries has
    resolved, its result has been prepared item by item without a
    throw, and the category stored under its key holds these prepared
    items, in order, each as it is or as the error collection has tagged
    it. *)
Theorem loaded_categories (appId : string) (q : hostQueries) :
  snd (loadInspector appId q) = Loaded ->
  Forall (fun kp =>
            exists l prepared final : list item,
              snd kp = Resolved l /\
              mapM prepareItem l = Ok prepared /\
              Js.assoc (fst kp) (allItems (fst (loadInspector appId q))) = Some final /\
              Forall2 (taggedFrom (fst kp)) prepared final)
         (inspectorQueries appId q).
Proof.
  destruct (loadInspector appId q) as [s st] eqn:El. cbn [fst snd]. intros ->.
  destruct (loaded_inv _ _ _ El)
    as (args & prepared & ext & uniqObjects & sheets & d & Eq & _ & Hf & Hkeys & _ & _
        & _ & _ & ->).
  cbn [allItems]. apply q_all_Resolved in Eq.
  apply List.Forall_forall. intros kp Hkp.
  destruct (Forall2_In_l _ _ _ _ Eq Hkp) as (ka & Hka & Hk & Hp).
  destruct (Forall2_In_l _ _ _ _ Hf Hka) as (p & Hpin & Hk' & Hm).
  exists (snd ka), (snd p), (fst (collectCategory (fst kp) (snd p))).
  split; [exact Hp|]. split; [exact Hm|]. split; [|apply tagged_category].
  assert (Hin : In (fst kp) fetchedKeys).
  { rewrite <- Hkeys, Hk, Hk'. apply in_map. exact Hpin. }
  assert (Hne : fst kp <> "errors").
  { intros E. rewrite E in Hin. cbn in Hin. intuition discriminate. }
  rewrite collectErrors_assoc by exact Hne.
  unfold storedCategories. rewrite assoc_app.
  rewrite (assoc_NoDup (fst kp) (snd p) prepared).
  - reflexivity.
  - rewrite Hkeys. apply fetchedKeys_NoDup.
  - rewrite Hk, Hk'. destruct p. exact Hpin.
Qed.

End LoadedModel.

Section LoadedRuns.
#[local] Existing Instance Sample.host.

Lemma sample_is_loaded : snd (loadInspector "app1" (Sample.queries VUndefined)) = Loaded.
Proof. vm_compute. reflexivity. Defined.

Lemma loaded_without_start_bookmark_witness :
  exists (app prepared : list item) (d : value),
    q_getAppInfo (Sample.queries VUndefined) = Resolved app /\
    mapM prepareItem app = Ok prepared /\
    defaultBookmarkIdOf [("app", prepared)] = Ok d /\
    Js.truthy d = false.
Proof.
  exact (loaded_without_start_bookmark "app1" (Sample.queries VUndefined)
           sample_is_loaded).
Defined.


Lemma loaded_errors_category_witness :
  exists errs : list item,
    Js.assoc "errors" (allItems (fst (loadInspector "app1" (Sample.queries VUndefined))))
    = Some errs /\
    forall b : item, In b errs -> hasErrors b = true.
Proof.
  destruct (loaded_errors_category "app1" (Sample.queries VUndefined) sample_is_loaded)
    as (errs & He & Hs & _).
  exists errs. split; [exact He|]. intros b Hb. exact (proj1 (Hs b Hb)).
Defined.

Lemma error_item_labels_witness :
  exists (errs : list item) (b : item) (l : string),
    Js.assoc "errors" (allItems (fst (loadInspector "app1" (Sample.queries VUndefined))))
    = Some errs /\
    nth_error errs 0 = Some b /\
    itemLabel "errors" b
    = Ok (VStr (l ++ " / " ++ Js.ToString (label_value (label b)))).
Proof.
  assert (E : exists errs b,
             Js.assoc "errors"
               (allItems (fst (loadInspector "app1" (Sample.queries VUndefined))))
             = Some errs /\ nth_error errs 0 = Some b).
  { eexists. eexists. split; vm_compute; reflexivity. }
  destruct E as (errs & b & He & Hb).
  destruct (error_item_labels "app1" (Sample.queries VUndefined) errs b
              sample_is_loaded He (nth_error_In _ _ Hb)) as (l & _ & Hl).
  exists errs, b, l. auto.
Defined.

Lemma loaded_categories_witness :
  Forall (fun kp =>
            exists l prepared final : list item,
              snd kp = Resolved l /\
              mapM prepareItem l = Ok prepared /\
              Js.assoc (fst kp)
                (allItems (fst (loadInspector "app1" (Sample.queries VUndefined))))
              = Some final /\
              Forall2 (taggedFrom (fst kp)) prepared final)
         (inspectorQueries "app1" (Sample.queries VUndefined)).
Proof.
  exact (loaded_categories "app1" (Sample.queries VUndefined) sample_is_loaded).
Defined.

Lemma grouped_item_errors_witness :
  exists out it,
    getUniqueAppObjectsFromSheets Sample.sheetInfo [] "app1" = Ok out /\
    nth_error out 1 = Some it /\
    icon it = Some "debug".
Proof.
  eexists. eexists. split; [vm_compute; reflexivity|]. split; [reflexivity|].
  refine (proj1 (grouped_item_errors Sample.sheetInfo [] "app1" _ _ _ _)).
  - vm_compute. reflexivity.
  - right. left. reflexivity.
Defined.

Lemma grouped_item_template_witness :
  exists out it,
    getUniqueAppObjectsFromSheets Sample.sheetInfo [] "app1" = Ok out /\
    nth_error out 1 = Some it /\
    isThirdParty it = VBool false /\ label it = Some "table".
Proof.
  eexists. eexists. split; [vm_compute; reflexivity|]. split; [reflexivity|].
  edestruct (grouped_item_template Sample.sheetInfo [] "app1")
    as (v & rest & Hv & Ht & Hl).
  - vm_compute. reflexivity.
  - right. left. reflexivity.
  - injection Hv as <- _. split; [exact Ht | exact Hl].
Defined.

End LoadedRuns.

(** ** The info functions of the master items *)

Lemma string_app_nil_r (s : string) : (s ++ "")%string = s.
Proof.
  induction s as [|c s IH]; [reflexivity|].
  change (String c (s ++ "")%string = String c s). rewrite IH. reflexivity.
Qed.

Lemma mapM_returns_iff {A B} (f : A -> result B) (l : list A) :
  (exists l', mapM f l = Ok l') <-> Forall (fun x => exists y, f x = Ok y) l.
Proof.
  split; [|apply mapM_returns].
  intros (l' & E). apply mapM_Forall2 in E.
  induction E as [|x y l l' Hxy _ IH]; constructor; eauto.
Qed.

Section MasterItems.
Context `{Host}.

Lemma withSearchTerms_returns_iff (key : string) (a : item) :
  (exists a', withSearchTerms key a = Ok a') <-> concatenable key a = true.
Proof.
  unfold withSearchTerms, concatenable.
  destruct (Js.truthy (Js.and (details a) (Js.get (details a) key)));
    [|split; eauto].
  destruct (Js.get (Js.get (details a) key) "value"); cbn;
    split; eauto; try discriminate; intros (a' & E); discriminate.
Qed.

Lemma withSearchTerms_id (key : string) (a a' : item) :
  withSearchTerms key a = Ok a' -> id a' = id a.
Proof.
  unfold withSearchTerms.
  destruct (Js.truthy (Js.and (details a) (Js.get (details a) key)));
    [|intros [= <-]; reflexivity].
  intros E. inv_bind E. injection E as <-. reflexivity.
Qed.

(** X17.  A master item can be found by the text it is defined by.
    When the details entry the info function reads (the definition of a
    dimension or a variable, the expression of a measure, the fields of
    a bookmark) is present with a string as its value, the search terms
    of the prepared item are that string, a blank, and then the tags if
    any; so, for a runtime whose [toLowerCase] works letter by letter,
    the item matches the query that spells out this string. *)
Theorem master_item_search_terms (key : string) (a a' a'' : item) (s : string) :
  withSearchTerms key a = Ok a' ->
  prepareItem a' = Ok a'' ->
  Js.truthy (Js.and (details a) (Js.get (details a) key)) = true ->
  Js.get (Js.get (details a) key) "value" = VStr s ->
  (exists tags : string, searchTerms a'' = VStr (s ++ " " ++ tags)) /\
  ((forall x y : string, toLowerCase (x ++ y) = (toLowerCase x ++ toLowerCase y)%string) ->
   matchesQuery s a'' = true).
Proof.
  unfold withSearchTerms. intros E1 E2 T V. rewrite T, V in E1.
  cbn in E1. injection E1 as <-.
  assert (Hs : exists tags, searchTerms a'' = VStr (s ++ " " ++ tags)).
  { unfold prepareItem in E2. inv_bind E2. inv_bind E2. injection E2 as <-.
    assert (Hterms : exists tags, a0 = VStr (s ++ " " ++ tags)).
    { cbn [searchTerms set_searchTerms details set_details] in Ha.
      assert (Eor : Js.or (VStr (s ++ " ")) (VStr "") = VStr (s ++ " ")).
      { unfold Js.or. cbn [Js.truthy]. destruct s; reflexivity. }
      rewrite Eor in Ha.
      destruct (Js.truthy (Js.and (details a) (Js.get (details a) "tags"))).
      - destruct (Js.get (Js.get (details a) "tags") "value"); try discriminate.
        injection Ha as <-. unfold Js.add_string. cbn [Js.ToString].
        eexists. rewrite string_app_assoc. reflexivity.
      - injection Ha as <-. exists "". rewrite string_app_nil_r. reflexivity. }
    destruct Hterms as (tags & ->). exists tags.
    destruct (items a); reflexivity. }
  split; [exact Hs|]. intros Hlower. destruct Hs as (tags & Hs).
  apply matchesQuery_spec. right. right. right.
  rewrite Hs. exists (s ++ " " ++ tags)%string. split.
  - unfold fieldText. cbn [Js.truthy Js.ToString]. destruct s; reflexivity.
  - exists "", (toLowerCase (" " ++ tags)). rewrite Hlower. reflexivity.
Qed.

(** X18.  The variables start with the system variables.
    [getVariableInfo] returns exactly when every definition entry among
    the variables has a string or an array as its value (something to
    call [concat] on); its result is then the entry [System variables],
    which carries the locale info of the app as its properties, followed
    by the variables in the order they came in. *)
Theorem getVariableInfo_system_variables (qLocaleInfo : value) (info : list item) :
  ((exists out, getVariableInfo qLocaleInfo info = Ok out) <->
   forallb (concatenable "definition") info = true) /\
  forall out : list item,
    getVariableInfo qLocaleInfo info = Ok out ->
    exists rest : list item,
      out = systemVariables qLocaleInfo :: rest /\
      List.map id rest = List.map id info /\
      label (systemVariables qLocaleInfo) = Some "System variables" /\
      properties (systemVariables qLocaleInfo) = Some qLocaleInfo.
Proof.
  unfold getVariableInfo. split.
  - split.
    + intros (out & E). inv_bind E. apply forallb_forall. intros x Hx.
      apply withSearchTerms_returns_iff.
      pose proof (proj1 (mapM_returns_iff (withSearchTerms "definition") info)
                        (ex_intro _ a Ha)) as Hf.
      rewrite List.Forall_forall in Hf. apply Hf, Hx.
    + intros Hf.
      destruct (proj2 (mapM_returns_iff (withSearchTerms "definition") info))
        as (l & ->); [|cbn; eauto].
      apply List.Forall_forall. intros x Hx. apply withSearchTerms_returns_iff.
      rewrite forallb_forall in Hf. apply Hf, Hx.
  - intros out E. inv_bind E. injection E as <-. exists a.
    split; [reflexivity|]. split; [|split; reflexivity].
    apply mapM_Forall2 in Ha. symmetry. apply Forall2_map_eq.
    eapply Forall2_impl; [exact Ha|]. intros x y Hxy.
    symmetry. eapply withSearchTerms_id. exact Hxy.
Qed.

End MasterItems.

(** ** The data model item *)

Lemma nonEmpty_In {A} (l : list A) : nonEmpty l = true <-> exists x, In x l.
Proof.
  destruct l as [|x r]; cbn.
  - split; [discriminate | intros (x & [])].
  - split; eauto.
Qed.

Lemma nonEmpty_map {A B} (f : A -> B) (l : list A) :
  nonEmpty (List.map f l) = nonEmpty l.
Proof. destruct l; reflexivity. Qed.

Lemma listedEntry_detail (l : string) (vs : list value) :
  listedEntry (detail l (VArr vs)) = nonEmpty vs.
Proof.
  unfold listedEntry, detailValue, detail, Js.hasOwnProperty.
  cbn [isNullish negb andb Js.own_entries Js.assoc String.eqb Ascii.eqb Bool.eqb].
  unfold Js.get.
  cbn [Js.own_entries Js.assoc String.eqb Ascii.eqb Bool.eqb].
  unfold isListed, Js.and, Js.get. cbn [Js.truthy Js.own_entries].
  rewrite assoc_indexed_length.
  destruct vs as [|x r]; [reflexivity|]. simpl. reflexivity.
Qed.

Section PreparedRows.
Context `{Host}.

(** The rows of a prepared item, by the entries of the details. *)
Lemma hasRow_prepared (it it' : item) (k : string) :
  prepareItem it = Ok it' ->
  (hasRow it' k <->
   exists e, Js.assoc k (Js.own_entries (details it)) = Some e /\ listedEntry e = true).
Proof.
  intros E. destruct (prepareItem_details _ _ E) as (rows & Hd & Hr).
  pose proof (detailRows_names _ _ _ Hr k) as Hn.
  rewrite own_entries_or_empty in Hn. unfold hasRow. split.
  - intros (rows' & row & Hd' & Hin & Hname). rewrite Hd in Hd'.
    injection Hd' as <-. apply Hn. eauto.
  - intros (e & He & L). destruct (proj2 Hn) as (row & Hin & Hname).
    + split; [eapply assoc_In_keys; exact He | eauto].
    + exists rows, row. auto.
Qed.

Lemma prepareItem_code_of (it it' : item) :
  prepareItem it = Ok it' -> items it = None -> code it' = Some (prepareCode it).
Proof.
  unfold prepareItem. intros E Hi. inv_bind E. inv_bind E. injection E as <-.
  rewrite Hi. reflexivity.
Qed.

Lemma row_of_strings (l : string) (xs : list string) :
  (exists e, Some (detail l (strings_value xs)) = Some e /\ listedEntry e = true) <->
  xs <> [].
Proof.
  split.
  - intros (e & [= <-] & L). unfold strings_value in L.
    rewrite listedEntry_detail, nonEmpty_map in L. intros ->. discriminate.
  - intros Hne. eexists. split; [reflexivity|]. unfold strings_value.
    rewrite listedEntry_detail, nonEmpty_map. destruct xs; [contradiction | reflexivity].
Qed.

Lemma map_filter_nonempty {A B} (f : A -> B) (p : A -> bool) (l : list A) :
  List.map f (List.filter p l) <> [] <-> exists x, In x l /\ p x = true.
Proof.
  split.
  - intros Hne. destruct (List.filter p l) as [|x r] eqn:E; [contradiction|].
    exists x. apply filter_In. rewrite E. left. reflexivity.
  - intros (x & Hx) Hnil. apply filter_In in Hx.
    destruct (List.filter p l); [destruct Hx | discriminate].
Qed.

Lemma isDataIsland_spec (a : tableRecord) :
  isDataIsland a = true <->
  Forall (fun f => fit_qKeyType f = "NOT_KEY") (tr_qFields a).
Proof.
  unfold isDataIsland. rewrite negb_true_iff. split.
  - intros E. apply List.Forall_forall. intros f Hf.
    destruct (String.eqb_spec "NOT_KEY" (fit_qKeyType f)) as [<-|Hne]; [reflexivity|].
    assert (Hin : In f (List.filter
                          (fun b => negb (String.eqb "NOT_KEY" (fit_qKeyType b)))
                          (tr_qFields a))).
    { apply filter_In. split; [exact Hf|]. apply negb_true_iff.
      apply String.eqb_neq. exact Hne. }
    destruct (List.filter _ (tr_qFields a)); [destruct Hin | discriminate].
  - intros Hall. destruct (List.filter _ (tr_qFields a)) as [|f r] eqn:E; [reflexivity|].
    assert (Hin : In f (f :: r)) by (left; reflexivity).
    rewrite <- E in Hin. apply filter_In in Hin. destruct Hin as (Hf & Hk).
    rewrite List.Forall_forall in Hall. rewrite (Hall f Hf) in Hk. discriminate.
Qed.

Lemma syntheticKeys_nonempty (model : tablesAndKeys) :
  syntheticKeys model <> [] <->
  exists t f, In t (qtr model) /\ tr_qIsSynthetic t = false /\
              In f (tr_qFields t) /\ In "$synthetic" (fit_qTags f).
Proof.
  unfold syntheticKeys.
  set (all := List.concat _).
  destruct (uniq_keys (fun s : string => s) all) as (_ & _ & Hk).
  assert (Hu : uniq String.eqb (fun s : string => s) all <> [] <-> all <> []).
  { split.
    - intros Hne Hnil. rewrite Hnil in Hne. apply Hne. reflexivity.
    - intros Hne Hnil. destruct all as [|x r]; [contradiction|].
      specialize (Hk x). rewrite Hnil in Hk. cbn in Hk.
      apply (proj2 Hk). left. reflexivity. }
  rewrite Hu. subst all. split.
  - intros Hne. destruct (List.concat _) as [|x r] eqn:E; [contradiction|].
    assert (Hin : In x (x :: r)) by (left; reflexivity).
    rewrite <- E in Hin. apply in_concat in Hin. destruct Hin as (l & Hl & Hx).
    apply in_map_iff in Hl. destruct Hl as (t & <- & Ht).
    apply filter_In in Ht. destruct Ht as (Ht & Hs).
    apply in_map_iff in Hx. destruct Hx as (f & _ & Hf).
    apply filter_In in Hf. destruct Hf as (Hf & Hsyn).
    exists t, f. split; [exact Ht|]. split; [apply negb_true_iff; exact Hs|].
    split; [exact Hf|]. unfold isSyntheticKey in Hsyn.
    apply existsb_eqb_In. exact Hsyn.
  - intros (t & f & Ht & Hs & Hf & Hsyn) Hnil.
    assert (Hin : In (syntheticKeyLabel f)
                     (List.concat
                        (List.map
                           (fun a => List.map syntheticKeyLabel
                                       (List.filter isSyntheticKey (tr_qFields a)))
                           (List.filter (fun a => negb (tr_qIsSynthetic a)) (qtr model))))).
    { apply in_concat. eexists. split.
      - apply in_map_iff. exists t. split; [reflexivity|].
        apply filter_In. split; [exact Ht | rewrite Hs; reflexivity].
      - apply in_map. apply filter_In. split; [exact Hf|].
        unfold isSyntheticKey. apply existsb_eqb_In. exact Hsyn. }
    rewrite Hnil in Hin. destruct Hin.
Qed.

(** X19.  The item of the data model, once prepared, shows a row only
    for what the model has: [tables] when some table is not synthetic,
    [syntheticTables] when some table is, [dataIslands] when some table
    has no field that is a key, [keys] when the model has keys, and
    [syntheticKeys] when a field of a table that is not synthetic is
    tagged [$synthetic].  [prepareItem] always returns for it, and its
    code keeps the entry labelled Datamodel. *)
Theorem dataModel_rows (model : tablesAndKeys)
        (profile : option (list (string * tableProfile))) :
  exists it' : item,
    prepareItem (dm_item (getDataModelInfo model profile)) = Ok it' /\
    (hasRow it' "tables" <->
     exists t, In t (qtr model) /\ tr_qIsSynthetic t = false) /\
    (hasRow it' "syntheticTables" <->
     exists t, In t (qtr model) /\ tr_qIsSynthetic t = true) /\
    (hasRow it' "dataIslands" <->
     exists t, In t (qtr model) /\
               Forall (fun f => fit_qKeyType f = "NOT_KEY") (tr_qFields t)) /\
    (hasRow it' "keys" <-> qk model <> []) /\
    (hasRow it' "syntheticKeys" <->
     exists t f, In t (qtr model) /\ tr_qIsSynthetic t = false /\
                 In f (tr_qFields t) /\ In "$synthetic" (fit_qTags f)) /\
    code it' = Some [("layout",
                      codeEntry "Datamodel"
                        (JSON_stringify (tablesAndKeys_value model)))].
Proof.
  destruct (prepareItem_when (dm_item (getDataModelInfo model profile)))
    as (it' & E); [reflexivity | reflexivity |].
  exists it'. split; [exact E|].
  pose proof (hasRow_prepared _ _ "tables" E) as R1.
  pose proof (hasRow_prepared _ _ "syntheticTables" E) as R2.
  pose proof (hasRow_prepared _ _ "dataIslands" E) as R3.
  pose proof (hasRow_prepared _ _ "keys" E) as R4.
  pose proof (hasRow_prepared _ _ "syntheticKeys" E) as R5.
  unfold getDataModelInfo in R1, R2, R3, R4, R5.
  cbn [dm_item details Js.own_entries Js.assoc String.eqb Ascii.eqb Bool.eqb]
    in R1, R2, R3, R4, R5.
  rewrite row_of_strings in R1, R2, R3, R4, R5.
  rewrite R1, R2, R3, R4, R5. clear R1 R2 R3 R4 R5.
  split; [|split; [|split; [|split; [|split]]]].
  - rewrite map_filter_nonempty. split; intros (t & Ht & Hs); exists t;
      (split; [exact Ht|]); [apply negb_true_iff in Hs | rewrite Hs]; auto.
  - apply map_filter_nonempty.
  - rewrite map_filter_nonempty. split; intros (t & Ht & Hs); exists t;
      (split; [exact Ht|]); apply isDataIsland_spec; exact Hs.
  - destruct (qk model); cbn; split; congruence.
  - apply syntheticKeys_nonempty.
  - rewrite (prepareItem_code_of _ _ E) by reflexivity. reflexivity.
Qed.

End PreparedRows.

(** ** getFieldInfo *)

Lemma hasKey_fold_set {A} (f : A -> string) (g : A -> promise tableProfile)
      (l : list A) (acc : list (string * promise tableProfile)) (k : string) :
  hasKey k acc = true \/ (exists t, In t l /\ f t = k) ->
  hasKey k (fold_left (fun profile t => Js.set (f t) (g t) profile) l acc) = true.
Proof.
  revert acc. induction l as [|x r IH]; intros acc; cbn [fold_left].
  - intros [Hk|(t & [] & _)]. exact Hk.
  - intros [Hk|(t & [<-|Ht] & Hf)]; apply IH.
    + left. apply hasKey_set. exact Hk.
    + left. rewrite Hf. unfold hasKey. rewrite assoc_set_same. reflexivity.
    + right. eauto.
Qed.

Lemma tableProfiles_keys (getTableProfileData : option (string -> promise tableProfile))
      (model : tablesAndKeys) (p : list (string * tableProfile)) (t : tableRecord) :
  tableProfiles getTableProfileData model = Resolved (Some p) ->
  In t (qtr model) ->
  hasKey (tr_qName t) p = true.
Proof.
  unfold tableProfiles. destruct getTableProfileData as [f|]; [|discriminate].
  set (ps := fold_left _ (qtr model) []).
  destruct (q_all ps) as [|p'|m] eqn:Eq; try discriminate.
  intros [= <-] Ht. apply q_all_Resolved in Eq.
  assert (Ek : List.map fst ps = List.map fst p').
  { apply Forall2_map_eq. eapply Forall2_impl; [exact Eq|].
    intros kp ka [Hk _]. exact Hk. }
  rewrite hasKey_existsb, <- Ek, <- hasKey_existsb. subst ps.
  apply (hasKey_fold_set tr_qName (fun qTable => f (tr_qName qTable))).
  right. eauto.
Qed.

Section FieldInfoFacts.
Context `{Host}.

Lemma prepareItem_plain (it : item) :
  details it = VUndefined -> exists it', prepareItem it = Ok it'.
Proof.
  intros Hd. apply prepareItem_when; rewrite Hd; reflexivity.
Qed.

Lemma initialCode_returns_iff (datamodel : dataModelInfo) (b : tableRecord)
      (fieldName : string) :
  (exists c, initialCode datamodel (tr_qName b) fieldName = Ok c) <->
  profiled datamodel b.
Proof.
  unfold initialCode, profiled, profileCode, hasKey.
  destruct (dm_profile datamodel) as [p|].
  - destruct (Js.assoc (tr_qName b) p) as [t|] eqn:Et; cbn [bind].
    + split; [|eauto]. intros _ p' [= <-]. rewrite Et. reflexivity.
    + split; [intros (c & E); discriminate|].
      intros Hp. specialize (Hp p eq_refl). rewrite Et in Hp. discriminate.
  - split; [|eauto]. intros _ p' E. discriminate.
Qed.

Lemma fieldSubItem_returns_iff (datamodel : dataModelInfo) (a : fieldListItem)
      (b : tableRecord) :
  (exists it, fieldSubItem datamodel a b = Ok it) <-> profiled datamodel b.
Proof.
  rewrite <- (initialCode_returns_iff datamodel b (fl_qName a)).
  unfold fieldSubItem. split.
  - intros (it & E). inv_bind E. eauto.
  - intros (c & ->). cbn [bind]. apply prepareItem_plain. reflexivity.
Qed.

(** What a sub-item of a field carries. *)
Lemma fieldSubItem_inv (datamodel : dataModelInfo) (a : fieldListItem)
      (b : tableRecord) (sub : item) :
  fieldSubItem datamodel a b = Ok sub ->
  id sub = (tr_qName b ++ "/" ++ fl_qName a)%string /\
  properties sub = Some (fieldProperties (fl_qName a) b) /\
  exists c, code sub = Some c /\
            Js.assoc "properties" c
            = Some (codeEntry "Properties"
                      (JSON_stringify (fieldProperties (fl_qName a) b))).
Proof.
  unfold fieldSubItem. intros E. inv_bind E. rename a0 into c0.
  pose proof (prepareItem_fields _ _ E) as (Hid & _).
  pose proof (prepareItem_keeps _ _ E) as (_ & _ & _ & _ & _ & Hp & _).
  split; [exact Hid|]. split; [exact Hp|].
  eexists. split; [apply (prepareItem_code_of _ _ E); reflexivity|].
  rewrite prepareCode_assoc. unfold codeOf, codeSource.
  cbn [code set_code properties set_properties String.eqb Ascii.eqb Bool.eqb option_map].
  unfold initialCode, profileCode in Ha.
  destruct (dm_profile datamodel) as [p|].
  - destruct (Js.assoc (tr_qName b) p); [|discriminate].
    cbn [bind] in Ha. injection Ha as <-. reflexivity.
  - injection Ha as <-. reflexivity.
Qed.

Lemma length_le_1 {A} (l : list A) :
  (1 <? Z.of_nat (List.length l)) = false -> l = [] \/ exists x, l = [x].
Proof.
  intros E. apply Z.ltb_ge in E. destruct l as [|x [|y r]]; eauto.
  cbn [List.length] in E. lia.
Qed.

Lemma fieldItemOf_returns_iff (datamodel : dataModelInfo) (a : fieldListItem) :
  (exists it, fieldItemOf datamodel a = Ok it) <-> fieldListed datamodel a.
Proof.
  unfold fieldItemOf, fieldListed.
  set (fieldTables := fieldTablesOf datamodel a).
  destruct (fl_qTags a) as [tags|]; cbn [bind].
  2:{ split; [intros (it & E); discriminate | intros (Hn & _); contradiction]. }
  destruct (1 <? Z.of_nat (List.length fieldTables)) eqn:El.
  - assert (Hne : fieldTables <> []).
    { intros Hnil. rewrite Hnil in El. discriminate. }
    split.
    + intros (it & E). inv_bind E. split; [discriminate|]. split; [exact Hne|].
      pose proof (proj1 (mapM_returns_iff _ _) (ex_intro _ _ Ha)) as Hf.
      eapply List.Forall_impl; [|exact Hf].
      intros b Hb. apply (fieldSubItem_returns_iff datamodel a b). exact Hb.
    + intros (_ & _ & Hp).
      destruct (proj2 (mapM_returns_iff (fieldSubItem datamodel a) fieldTables))
        as (subs & ->); [|cbn; eauto].
      eapply List.Forall_impl; [|exact Hp].
      intros b Hb. apply (fieldSubItem_returns_iff datamodel a b). exact Hb.
  - destruct (length_le_1 _ El) as [->|(first & ->)].
    + split; [intros (it & E); discriminate | intros (_ & Hn & _); contradiction].
    + split.
      * intros (it & E). inv_bind E. split; [discriminate|]. split; [discriminate|].
        constructor; [|constructor].
        apply (initialCode_returns_iff datamodel first (fl_qName a)). eauto.
      * intros (_ & _ & Hp). inversion Hp as [|? ? Hf _]; subst.
        apply (initialCode_returns_iff datamodel first (fl_qName a)) in Hf.
        destruct Hf as (c & ->). cbn. eauto.
Qed.

(** What the item of a field carries. *)
Lemma fieldItemOf_inv (datamodel : dataModelInfo) (a : fieldListItem) (it : item) :
  fieldItemOf datamodel a = Ok it ->
  id it = fl_qName a /\ label it = Some (fl_qName a) /\ count it = fl_qCardinal a /\
  (exists tags, fl_qTags a = Some tags /\
                icon it = Some (if existsb (String.eqb "$key") tags then "key" else "")) /\
  ((1 < List.length (fieldTablesOf datamodel a))%nat ->
   exists subs,
     items it = Some subs /\
     Forall2 (fun sub b => fieldSubItem datamodel a b = Ok sub)
             subs (fieldTablesOf datamodel a)) /\
  (forall b, fieldTablesOf datamodel a = [b] ->
             items it = None /\
             properties it = Some (fieldProperties (fl_qName a) b)).
Proof.
  unfold fieldItemOf.
  set (fieldTables := fieldTablesOf datamodel a).
  destruct (fl_qTags a) as [tags|]; cbn [bind]; [|discriminate].
  destruct (1 <? Z.of_nat (List.length fieldTables)) eqn:El.
  - intros E. inv_bind E. injection E as <-.
    cbn [id label count icon items properties set_items].
    split; [reflexivity|]. split; [reflexivity|]. split; [reflexivity|].
    split; [eauto|]. split.
    + intros _. exists a0. split; [reflexivity|].
      apply mapM_Forall2 in Ha. clear -Ha.
      induction Ha; constructor; auto.
    + intros b Hb. rewrite Hb in El. discriminate.
  - destruct (length_le_1 _ El) as [Hnil|(first & Hone)]; rewrite ?Hnil, ?Hone;
      [discriminate|].
    intros E. inv_bind E. injection E as <-.
    cbn [id label count icon items properties set_properties set_code].
    split; [reflexivity|]. split; [reflexivity|]. split; [reflexivity|].
    split; [eauto|]. split.
    + intros Hlt. cbn [List.length] in Hlt. lia.
    + intros b Hb. injection Hb as <-. split; reflexivity.
Qed.

Lemma sortByLabel_returns (l : list item) :
  forallb hasLabel l = true -> exists l', sortByLabel l = Ok l'.
Proof.
  unfold sortByLabel. intros Hl. destruct l as [|x [|y r]]; eauto.
  rewrite Hl. eauto.
Qed.

Lemma getFieldInfo_returns (qItems : list fieldListItem) (datamodel : dataModelInfo) :
  (exists out, getFieldInfo qItems datamodel = Ok out) <->
  Forall (fieldListed datamodel) qItems.
Proof.
  unfold getFieldInfo. split.
  - intros (out & E). inv_bind E.
    pose proof (proj1 (mapM_returns_iff _ _) (ex_intro _ _ Ha)) as Hf.
    eapply List.Forall_impl; [|exact Hf].
    intros x Hx. apply fieldItemOf_returns_iff. exact Hx.
  - intros Hf.
    destruct (proj2 (mapM_returns_iff (fieldItemOf datamodel) qItems))
      as (fieldInfo & E).
    { eapply List.Forall_impl; [|exact Hf].
      intros x Hx. apply fieldItemOf_returns_iff. exact Hx. }
    rewrite E. cbn [bind].
    destruct (sortByLabel_returns fieldInfo) as (sorted & ->); [|cbn; eauto].
    apply forallb_forall. intros it Hin. apply mapM_Forall2 in E.
    destruct (Forall2_In_r _ _ _ _ E Hin) as (a & _ & Ha).
    apply fieldItemOf_inv in Ha. destruct Ha as (_ & Hl & _).
    unfold hasLabel. rewrite Hl. reflexivity.
Qed.

(** X20.  When [getFieldInfo] throws.  With the profiles fetched by
    [getDataModelInfo] itself, [getFieldInfo] returns exactly when
    every field of the field list has its tags and occurs in some table
    of the data model; a field that is listed but is in no table, or
    that has no [qTags], makes the whole function throw. *)
Theorem getFieldInfo_returns_iff
        (getTableProfileData : option (string -> promise tableProfile))
        (model : tablesAndKeys) (profile : option (list (string * tableProfile)))
        (qItems : list fieldListItem) :
  tableProfiles getTableProfileData model = Resolved profile ->
  ((exists out, getFieldInfo qItems (getDataModelInfo model profile) = Ok out) <->
   Forall (fieldInModel model) qItems).
Proof.
  intros Ep. rewrite getFieldInfo_returns.
  assert (Hiff : forall a, fieldListed (getDataModelInfo model profile) a <->
                           fieldInModel model a).
  { intros a. unfold fieldListed, fieldInModel, fieldTablesOf.
    cbn [dm_layout getDataModelInfo]. split.
    - intros (Ht & Hne & _). split; [exact Ht|].
      destruct (List.filter (hasField (fl_qName a)) (qtr model)) as [|b r] eqn:Ef;
        [contradiction|].
      exists b. apply filter_In. rewrite Ef. left. reflexivity.
    - intros (Ht & b & Hb & Hf). split; [exact Ht|]. split.
      + intros Hnil.
        assert (Hin : In b (List.filter (hasField (fl_qName a)) (qtr model)))
          by (apply filter_In; auto).
        rewrite Hnil in Hin. destruct Hin.
      + apply List.Forall_forall. intros t Hin. apply filter_In in Hin.
        destruct Hin as (Hin & _). unfold profiled. cbn [dm_profile getDataModelInfo].
        intros p ->. eapply tableProfiles_keys; eassumption. }
  split; intros Hf; (eapply List.Forall_impl; [|exact Hf]); intros a Ha;
    apply Hiff; exact Ha.
Qed.

(** X21.  The result of [getFieldInfo].  The item of the data model
    comes first; then one item for every field of the field list,
    identified and labelled by the name of the field and counting its
    distinct values.  A field of a single table has no sub-items and
    carries its record in that table as properties; a field of several
    tables has one sub-item for each of them, in order, named
    [table/field], whose code shows the record of the field in that
    table under Properties. *)
Theorem field_items (qItems : list fieldListItem) (datamodel : dataModelInfo)
        (out : list item) :
  getFieldInfo qItems datamodel = Ok out ->
  exists fields : list item,
    out = dm_item datamodel :: fields /\
    Permutation (List.map id fields) (List.map fl_qName qItems) /\
    forall it : item,
      In it fields ->
      exists a : fieldListItem,
        In a qItems /\
        id it = fl_qName a /\ label it = Some (fl_qName a) /\
        count it = fl_qCardinal a /\
        ((1 < List.length (fieldTablesOf datamodel a))%nat ->
         exists subs,
           items it = Some subs /\
           Forall2 (fun sub b =>
                      id sub = (tr_qName b ++ "/" ++ fl_qName a)%string /\
                      exists c, code sub = Some c /\
                                Js.assoc "properties" c
                                = Some (codeEntry "Properties"
                                          (JSON_stringify
                                             (fieldProperties (fl_qName a) b))))
                   subs (fieldTablesOf datamodel a)) /\
        (forall b, fieldTablesOf datamodel a = [b] ->
                   items it = None /\
                   properties it = Some (fieldProperties (fl_qName a) b)).
Proof.
  unfold getFieldInfo. intros E. inv_bind E. inv_bind E. injection E as <-.
  rename a into fieldInfo, a0 into sorted.
  apply mapM_Forall2 in Ha. apply sortByLabel_Permutation in Ha0.
  exists sorted. split; [reflexivity|]. split.
  - rewrite <- Ha0. 
    rewrite (Forall2_map_eq fl_qName id qItems fieldInfo); [reflexivity|].
    eapply Forall2_impl; [exact Ha|]. intros a it Hit.
    apply fieldItemOf_inv in Hit. symmetry. tauto.
  - intros it Hin. apply (Permutation_in _ (Permutation_sym Ha0)) in Hin.
    destruct (Forall2_In_r _ _ _ _ Ha Hin) as (a & Hain & Hit).
    exists a. split; [exact Hain|].
    destruct (fieldItemOf_inv _ _ _ Hit) as (Hid & Hl & Hc & _ & Hmulti & Hsingle).
    split; [exact Hid|]. split; [exact Hl|]. split; [exact Hc|].
    split; [|exact Hsingle].
    intros Hlt. destruct (Hmulti Hlt) as (subs & Hs & Hf).
    exists subs. split; [exact Hs|].
    eapply Forall2_impl; [exact Hf|]. intros sub b Hsub.
    apply fieldSubItem_inv in Hsub. tauto.
Qed.

End FieldInfoFacts.

Section FieldInfoSorted.
Context `{Host}.

Hypothesis localeCompare_total :
  forall a b : string, localeCompare a b <= 0 \/ localeCompare b a <= 0.
Hypothesis localeCompare_trans :
  forall a b c : string,
    localeCompare a b <= 0 -> localeCompare b c <= 0 -> localeCompare a c <= 0.

Lemma Forall2_same {A} (R : A -> A -> Prop) (l : list A) :
  (forall x, R x x) -> Forall2 R l l.
Proof.
  intros HR. induction l; constructor; auto.
Qed.

(** X22.  For a comparison of labels that is a total preorder, the
    fields returned by [getFieldInfo] after the data model item are in
    ascending order of their lower-cased names. *)
Theorem field_items_sorted (qItems : list fieldListItem) (datamodel : dataModelInfo)
        (out : list item) :
  getFieldInfo qItems datamodel = Ok out ->
  exists fields : list item,
    out = dm_item datamodel :: fields /\ StronglySorted labelsAscend fields.
Proof using localeCompare_total localeCompare_trans.
  unfold getFieldInfo. intros E. inv_bind E. inv_bind E. injection E as <-.
  rename a into fieldInfo, a0 into sorted.
  exists sorted. split; [reflexivity|].
  apply (labelsAscend_transfer sorted sorted).
  - apply Forall2_same. reflexivity.
  - apply List.Forall_forall. intros it Hin.
    pose proof (sortByLabel_Permutation _ _ Ha0) as Hp.
    apply (Permutation_in _ (Permutation_sym Hp)) in Hin.
    apply mapM_Forall2 in Ha.
    destruct (Forall2_In_r _ _ _ _ Ha Hin) as (a & _ & Hit).
    apply fieldItemOf_inv in Hit. destruct Hit as (_ & Hl & _). eauto.
  - eapply sortByLabel_sorted; eauto.
Qed.

End FieldInfoSorted.

(** ** getScriptInfo *)

Section ScriptInfoFacts.
Variable substr_utf8_bytes : string -> Z -> Z -> string.

Lemma existsb_filter {A} (p : A -> bool) (l : list A) :
  existsb p l = nonEmpty (List.filter p l).
Proof.
  induction l as [|x r IH]; cbn [existsb List.filter]; [reflexivity|].
  destruct (p x); [reflexivity | exact IH].
Qed.

Lemma flagged_iff (validation : list scriptError) (s : scriptSection) :
  nonEmpty validation && existsb (fun a => qTabIx a =? sec_index s) validation
  = nonEmpty (sectionErrors validation s).
Proof.
  unfold sectionErrors. rewrite existsb_filter.
  destruct validation; reflexivity.
Qed.

Lemma scriptItem_returns_iff (validation : list scriptError) (qScript : string)
      (s : scriptSection) :
  (exists it, scriptItem substr_utf8_bytes validation qScript s = Ok it) <->
  (sectionErrors validation s = [] \/ pushable s = true).
Proof.
  unfold scriptItem. rewrite flagged_iff. unfold pushable.
  cbn [errors set_code].
  destruct (sectionErrors validation s) as [|e r]; cbn [nonEmpty].
  - split; eauto.
  - unfold Js.or.
    destruct (errors (sec_item s)) as [| |b|n|x|l|o]; cbn [Js.truthy bind negb];
      try (split; [eauto | intros _; eauto]; fail).
    + destruct b; cbn [bind negb]; split; eauto;
        try (intros (it & E); discriminate); intros [?|?]; discriminate.
    + destruct (n =? 0); cbn [bind negb]; split; eauto;
        try (intros (it & E); discriminate); intros [?|?]; discriminate.
    + destruct (String.eqb x ""); cbn [bind negb]; split; eauto;
        try (intros (it & E); discriminate); intros [?|?]; discriminate.
    + split; [intros (it & E); discriminate | intros [?|?]; discriminate].
Qed.

Lemma scriptItem_inv (validation : list scriptError) (qScript : string)
      (s : scriptSection) (it : item) :
  scriptItem substr_utf8_bytes validation qScript s = Ok it ->
  id it = id (sec_item s) /\
  (exists c,
      code it = Some c /\
      forall k : string,
        Js.assoc k c =
        match Js.assoc k (codeOf (sec_item s)) with
        | Some v => Some v
        | None => if String.eqb k "script"
                  then option_map (codeEntry "Script") (sec_script s)
                  else None
        end) /\
  match sectionErrors validation s with
  | [] => icon it = icon (sec_item s) /\ errors it = errors (sec_item s)
  | mine =>
      icon it = Some "debug" /\
      errors it = VArr (ownErrors s
                        ++ List.map (scriptErrorEntry substr_utf8_bytes qScript) mine) /\
      hasErrors it = true
  end.
Proof.
  unfold scriptItem. rewrite flagged_iff. fold (codeOf (sec_item s)).
  change (List.filter (fun a => qTabIx a =? sec_index s) validation)
    with (sectionErrors validation s).
  set (c1 := match sec_script s with
             | Some v => if hasKey "script" (codeOf (sec_item s))
                         then codeOf (sec_item s)
                         else Js.set "script" (codeEntry "Script" v) (codeOf (sec_item s))
             | None => codeOf (sec_item s)
             end).
  assert (Hc : forall k : string,
             Js.assoc k c1 =
             match Js.assoc k (codeOf (sec_item s)) with
             | Some v => Some v
             | None => if String.eqb k "script"
                       then option_map (codeEntry "Script") (sec_script s)
                       else None
             end).
  { intros k. subst c1. destruct (sec_script s) as [v|]; cbn [option_map].
    - destruct (hasKey "script" (codeOf (sec_item s))) eqn:K.
      + destruct (String.eqb_spec k "script") as [->|N];
          [|destruct (Js.assoc k (codeOf (sec_item s))); reflexivity].
        apply hasKey_true in K. destruct K as (v' & ->). reflexivity.
      + rewrite assoc_set. destruct (String.eqb_spec k "script") as [->|N].
        * rewrite (hasKey_false _ _ K). reflexivity.
        * destruct (Js.assoc k (codeOf (sec_item s))); reflexivity.
    - destruct (Js.assoc k (codeOf (sec_item s))); [reflexivity|].
      destruct (String.eqb k "script"); reflexivity. }
  clearbody c1.
  destruct (sectionErrors validation s) as [|e r] eqn:Em; cbn [nonEmpty].
  - intros [= <-]. cbn [id code icon errors set_code].
    split; [reflexivity|]. split; [exists c1; auto|]. split; reflexivity.
  - intros E. inv_bind E. injection E as <-.
    cbn [id code icon errors set_code set_icon set_errors].
    split; [reflexivity|]. split; [exists c1; auto|]. split; [reflexivity|].
    assert (Eo : a = ownErrors s).
    { unfold ownErrors. cbn [errors set_code] in Ha. unfold Js.or in Ha.
      destruct (errors (sec_item s)) as [| |b|n|x|l|o]; cbn [Js.truthy] in Ha;
        try (injection Ha as <-; reflexivity); try discriminate.
      - destruct b; [discriminate | injection Ha as <-; reflexivity].
      - destruct (negb (n =? 0)); [discriminate | injection Ha as <-; reflexivity].
      - destruct (negb (String.eqb x "")); [discriminate | injection Ha as <-; reflexivity]. }
    rewrite Eo. split; [reflexivity|].
    erewrite hasErrors_array; [|reflexivity].
    destruct (ownErrors s); reflexivity.
Qed.

(** X23.  The sections of the script and the syntax check.
    [getScriptInfo] returns exactly when every section the syntax check
    has an entry for brings errors that are missing or an array.  It
    then returns one item for every section, in order.  A section
    without an entry in the syntax check keeps its icon and its errors;
    a section with entries gets the icon [debug], and its errors are
    the ones it came with followed by one error for every entry of the
    check for its tab, in order, so that it counts as an item with
    errors.  The code of every item keeps what the section brought and
    gains the script of the section under the label Script when no such
    entry exists. *)
Theorem script_sections (info : list scriptSection) (validation : list scriptError)
        (qScript : string) :
  ((exists out, getScriptInfo substr_utf8_bytes info validation qScript = Ok out) <->
   Forall (fun s => sectionErrors validation s = [] \/ pushable s = true) info) /\
  forall out : list item,
    getScriptInfo substr_utf8_bytes info validation qScript = Ok out ->
    Forall2
      (fun s it =>
         id it = id (sec_item s) /\
         (exists c,
             code it = Some c /\
             forall k : string,
               Js.assoc k c =
               match Js.assoc k (codeOf (sec_item s)) with
               | Some v => Some v
               | None => if String.eqb k "script"
                         then option_map (codeEntry "Script") (sec_script s)
                         else None
               end) /\
         match sectionErrors validation s with
         | [] => icon it = icon (sec_item s) /\ errors it = errors (sec_item s)
         | mine =>
             icon it = Some "debug" /\
             errors it = VArr (ownErrors s
                               ++ List.map (scriptErrorEntry substr_utf8_bytes qScript)
                                    mine) /\
             hasErrors it = true
         end)
      info out.
Proof.
  unfold getScriptInfo. split.
  - rewrite mapM_returns_iff. split; intros Hf;
      (eapply List.Forall_impl; [|exact Hf]); intros s Hs;
      apply (scriptItem_returns_iff validation qScript s); exact Hs.
  - intros out E. apply mapM_Forall2 in E.
    eapply Forall2_impl; [exact E|]. intros s it Hit.
    apply scriptItem_inv. exact Hit.
Qed.

End ScriptInfoFacts.

(** ** getAppInfo *)

Lemma prop_returns_iff (v : value) (k : string) :
  (exists x, prop v k = Ok x) <-> isNullish v = false.
Proof.
  destruct v; cbn; split; eauto; try discriminate; intros (x & E); discriminate.
Qed.

Lemma fold_extend (infoList : list item) (init : list (string * value)) :
  fold_left (fun retval it => extend retval (details it)) infoList init
  = fold_left (fun acc kv => Js.set (fst kv) (snd kv) acc)
              (flat_map (fun it => Js.own_entries (details it)) infoList) init.
Proof.
  revert init. induction infoList as [|it r IH]; intros init; cbn [fold_left flat_map];
    [reflexivity|].
  rewrite IH. unfold extend. rewrite fold_left_app. reflexivity.
Qed.

Section AppInfoFacts.
Context `{Host}.
Variable toLocaleString : value -> string.
Variable toMegabytes : value -> string.
Variables isQlikCloud isQlikSenseClientManaged isQlikSenseDesktop : bool.

Lemma mainLayoutItem_returns_iff (appLayout : list (string * value)) :
  (exists it, mainLayoutItem toLocaleString appLayout = Ok it) <->
  (Js.truthy (Js.get (VObj appLayout) "published") = true ->
   isNullish (Js.get (VObj appLayout) "stream") = false).
Proof.
  unfold mainLayoutItem.
  destruct (Js.truthy (Js.get (VObj appLayout) "published")).
  - rewrite <- (prop_returns_iff _ "name"). split.
    + intros (it & E) _. inv_bind E. eauto.
    + intros Hp. destruct (Hp eq_refl) as (x & ->). cbn [bind]. eauto.
  - cbn [bind]. split; [intros _ E; discriminate | eauto].
Qed.

Lemma appPropsItem_returns_iff (themeList : list themeEntry)
      (appprops : list (string * value)) :
  (exists it, appPropsItem themeList appprops = Ok it) <->
  ((exists a, findTheme themeList (Js.get (VObj appprops) "theme") = Some a) /\
   isNullish (Js.get (VObj appprops) "qMeta") = false).
Proof.
  unfold appPropsItem.
  destruct (findTheme themeList (Js.get (VObj appprops) "theme")) as [a|];
    cbn [bind].
  - rewrite <- (prop_returns_iff _ "owner"). split.
    + intros (it & E). inv_bind E. eauto.
    + intros (_ & x & ->). cbn [bind]. eauto.
  - split; [intros (it & E); discriminate | intros ((a & E) & _); discriminate].
Qed.

Lemma configurationItem_returns_iff (config : list (string * value)) :
  (exists it, configurationItem isQlikCloud isQlikSenseClientManaged
                isQlikSenseDesktop config = Ok it) <->
  isNullish (Js.get (VObj config) "qFeatures") = false.
Proof.
  unfold configurationItem. rewrite <- (prop_returns_iff _ "qSSOEnabled"). split.
  - intros (it & E). inv_bind E. eauto.
  - intros (x & ->). cbn [bind]. eauto.
Qed.

(** X24.  When [getAppInfo] throws.  Its last callback returns exactly
    when a published app has a stream, the theme of the app is one of
    the themes of the theme list, the app options have their meta data
    and the configuration has its features; a theme that is not (or no
    longer) in the list makes the function throw, and with it the whole
    load. *)
Theorem getAppInfo_returns_iff (modelId : string) (appLayout : list (string * value))
        (themeList : list themeEntry) (appprops : list (string * value))
        (props : value) (config : list (string * value)) (qrsApp : value) :
  (exists out,
      getAppInfo toLocaleString toMegabytes
                 isQlikCloud isQlikSenseClientManaged isQlikSenseDesktop
                 modelId appLayout themeList appprops props config qrsApp = Ok out) <->
  appInfoReadable appLayout themeList appprops config.
Proof.
  unfold getAppInfo, appInfoReadable. split.
  - intros (out & E). inv_bind E. inv_bind E. inv_bind E.
    pose proof (proj1 (mainLayoutItem_returns_iff appLayout) (ex_intro _ _ Ha)) as H1.
    pose proof (proj1 (appPropsItem_returns_iff themeList appprops) (ex_intro _ _ Ha0))
      as (H2 & H3).
    pose proof (proj1 (configurationItem_returns_iff config) (ex_intro _ _ Ha1)) as H4.
    auto.
  - intros (H1 & H2 & H3 & H4).
    destruct (proj2 (mainLayoutItem_returns_iff appLayout) H1) as (main & ->).
    destruct (proj2 (appPropsItem_returns_iff themeList appprops) (conj H2 H3))
      as (options & ->).
    destruct (proj2 (configurationItem_returns_iff config) H4) as (configuration & ->).
    cbn [bind]. eauto.
Qed.

Lemma summaryDetails_fresh (modelId : string) (infoList : list item) :
  List.NoDup ("id" :: List.map fst
                        (flat_map (fun it => Js.own_entries (details it)) infoList)) ->
  summaryDetails modelId infoList
  = ("id", VStr modelId) :: flat_map (fun it => Js.own_entries (details it)) infoList.
Proof.
  intros Hnd. unfold summaryDetails. rewrite fold_extend.
  rewrite fold_set_fresh; [reflexivity|]. exact Hnd.
Qed.

Lemma mainLayoutItem_inv (appLayout : list (string * value)) (main : item) :
  mainLayoutItem toLocaleString appLayout = Ok main ->
  id main = "app.model.layout" /\
  List.map fst (Js.own_entries (details main))
  = ["title"; "description"; "filename"; "stream"; "createdDate"; "lastLoadedDate";
     "publishedDate"; "modifiedDate"; "hasdata"; "hassectionaccess"].
Proof.
  unfold mainLayoutItem. intros E. inv_bind E. injection E as <-.
  split; reflexivity.
Qed.

Lemma appPropsItem_inv (themeList : list themeEntry)
      (appprops : list (string * value)) (options : item) :
  appPropsItem themeList appprops = Ok options ->
  id options = "AppPropsList" /\
  layout options = Some (VObj appprops) /\
  List.map fst (Js.own_entries (details options)) = ["theme"; "owner"].
Proof.
  unfold appPropsItem. intros E. inv_bind E. inv_bind E. injection E as <-.
  repeat split; reflexivity.
Qed.

Lemma configurationItem_inv (config : list (string * value)) (configuration : item) :
  configurationItem isQlikCloud isQlikSenseClientManaged isQlikSenseDesktop config
  = Ok configuration ->
  id configuration = "app.model.getConfiguration()" /\
  List.map fst (Js.own_entries (details configuration)) = ["installation"; "SSOEnabled"].
Proof.
  unfold configurationItem. intros E. inv_bind E. injection E as <-.
  split; reflexivity.
Qed.

(** The items of a returned app info, made explicit. *)
Lemma getAppInfo_inv (modelId : string) (appLayout : list (string * value))
      (themeList : list themeEntry) (appprops : list (string * value))
      (props : value) (config : list (string * value)) (qrsApp : value)
      (out : list item) :
  getAppInfo toLocaleString toMegabytes
             isQlikCloud isQlikSenseClientManaged isQlikSenseDesktop
             modelId appLayout themeList appprops props config qrsApp = Ok out ->
  exists main options configuration qrs,
    mainLayoutItem toLocaleString appLayout = Ok main /\
    appPropsItem themeList appprops = Ok options /\
    configurationItem isQlikCloud isQlikSenseClientManaged isQlikSenseDesktop config
    = Ok configuration /\
    qrs = (if isEmpty (Js.get qrsApp "data") then []
           else [qrsItem toMegabytes (Js.get qrsApp "data")]) /\
    out = summaryItem modelId ([main; options; metadataItem props; configuration] ++ qrs)
          :: ([main; options; metadataItem props; configuration] ++ qrs)%list /\
    List.map id ([main; options; metadataItem props; configuration] ++ qrs)%list
    = appInfoIds (negb (isEmpty (Js.get qrsApp "data"))) /\
    List.map fst (flat_map (fun it => Js.own_entries (details it))
                           ([main; options; metadataItem props; configuration] ++ qrs))
    = appDetailKeys (negb (isEmpty (Js.get qrsApp "data"))).
Proof.
  unfold getAppInfo. intros E. inv_bind E. inv_bind E. inv_bind E. injection E as <-.
  rename a into main, a0 into options, a1 into configuration.
  exists main, options, configuration. eexists.
  split; [exact Ha|]. split; [exact Ha0|]. split; [exact Ha1|].
  split; [reflexivity|]. split; [reflexivity|].
  destruct (mainLayoutItem_inv _ _ Ha) as (Hmi & Hmk).
  destruct (appPropsItem_inv _ _ _ Ha0) as (Hoi & _ & Hok).
  destruct (configurationItem_inv _ _ Ha1) as (Hci & Hck).
  split.
  - cbn [List.map app]. rewrite Hmi, Hoi, Hci.
    destruct (isEmpty (Js.get qrsApp "data")); reflexivity.
  - cbn [flat_map app]. rewrite !List.map_app, Hmk, Hok, Hck.
    destruct (isEmpty (Js.get qrsApp "data")); reflexivity.
Qed.

Lemma tagsJoinable_without_tags (d : value) :
  Js.assoc "tags" (Js.own_entries d) = None -> tagsJoinable d = true.
Proof.
  intros E. unfold tagsJoinable, Js.and, Js.get. rewrite E.
  cbn [String.eqb Ascii.eqb Bool.eqb]. destruct (Js.truthy d) eqn:T; [reflexivity|].
  rewrite T. reflexivity.
Qed.

Lemma prepareItem_keys (it : item) :
  existsb (String.eqb "tags") (List.map fst (Js.own_entries (details it))) = false ->
  existsb (String.eqb "") (List.map fst (Js.own_entries (details it))) = false ->
  exists it', prepareItem it = Ok it'.
Proof.
  rewrite <- !hasKey_existsb. intros Ht He. apply prepareItem_when.
  - apply tagsJoinable_without_tags, hasKey_false, Ht.
  - unfold unnamedRow. rewrite (hasKey_false _ _ He). reflexivity.
Qed.

Lemma flat_keys_item (l : list item) (it : item) (k : string) :
  In it l ->
  existsb (String.eqb k)
          (List.map fst (flat_map (fun it => Js.own_entries (details it)) l)) = false ->
  existsb (String.eqb k) (List.map fst (Js.own_entries (details it))) = false.
Proof.
  intros Hin Hf.
  destruct (existsb (String.eqb k) (List.map fst (Js.own_entries (details it)))) eqn:E;
    [|reflexivity].
  rewrite <- Hf. symmetry. apply existsb_eqb_In. apply existsb_eqb_In in E.
  apply in_map_iff in E. destruct E as (kv & Hk & Hkv).
  apply in_map_iff. exists kv. split; [exact Hk|].
  apply in_flat_map. exists it. auto.
Qed.

(** X25.  The result of [getAppInfo].  The summary comes first; under
    it the main layout, the app options (with the layout of the
    [AppPropsList] object as their layout), the meta data and the
    configuration, and last the repository data, which are listed
    exactly when the object stored in [args.qrsApp] has a non-empty
    [data] property of its own.  The details of the summary are the id
    of the app followed by the details of all these items, in order.
    [prepareItem] returns for each of the items. *)
Theorem app_info_items (modelId : string) (appLayout : list (string * value))
        (themeList : list themeEntry) (appprops : list (string * value))
        (props : value) (config : list (string * value)) (qrsApp : value)
        (out : list item) :
  getAppInfo toLocaleString toMegabytes
             isQlikCloud isQlikSenseClientManaged isQlikSenseDesktop
             modelId appLayout themeList appprops props config qrsApp = Ok out ->
  exists (summary : item) (infoList : list item),
    out = summary :: infoList /\
    id summary = modelId /\ label summary = Some "Summary" /\
    List.map id infoList = appInfoIds (negb (isEmpty (Js.get qrsApp "data"))) /\
    details summary
    = VObj (("id", VStr modelId)
              :: flat_map (fun it => Js.own_entries (details it)) infoList) /\
    (exists options, nth_error infoList 1 = Some options /\
                     layout options = Some (VObj appprops)) /\
    exists prepared, mapM prepareItem out = Ok prepared.
Proof.
  intros E.
  destruct (getAppInfo_inv _ _ _ _ _ _ _ _ E)
    as (main & options & configuration & qrs & Hm & Ho & Hc & Hq & -> & Hids & Hkeys).
  set (infoList := ([main; options; metadataItem props; configuration] ++ qrs)%list) in *.
  assert (Hnd : List.NoDup ("id" :: List.map fst
                                      (flat_map (fun it => Js.own_entries (details it))
                                                infoList))).
  { rewrite Hkeys. unfold appDetailKeys.
    destruct (negb (isEmpty (Js.get qrsApp "data"))); cbn [app];
      repeat (constructor; [cbn [In]; intuition discriminate|]); constructor. }
  assert (Hs : details (summaryItem modelId infoList)
               = VObj (("id", VStr modelId)
                         :: flat_map (fun it => Js.own_entries (details it)) infoList)).
  { unfold summaryItem. cbn [details set_details].
    rewrite (summaryDetails_fresh _ _ Hnd). reflexivity. }
  exists (summaryItem modelId infoList), infoList.
  split; [reflexivity|]. split; [reflexivity|]. split; [reflexivity|].
  split; [exact Hids|]. split; [exact Hs|]. split.
  - exists options. split; [reflexivity|]. apply (appPropsItem_inv _ _ _ Ho).
  - apply mapM_returns. constructor.
    + apply prepareItem_keys; rewrite Hs; cbn [Js.own_entries List.map fst];
        rewrite Hkeys; unfold appDetailKeys;
        destruct (negb (isEmpty (Js.get qrsApp "data"))); reflexivity.
    + apply List.Forall_forall. intros it Hin.
      apply prepareItem_keys; apply (flat_keys_item infoList it _ Hin);
        rewrite Hkeys; unfold appDetailKeys;
        destruct (negb (isEmpty (Js.get qrsApp "data"))); reflexivity.
Qed.

(** X26.  An app with a start bookmark cannot be inspected.  When the
    layout of the app options has a truthy [defaultBookmarkId] and the
    [app] query has resolved to the result of [getAppInfo] (for an app
    whose id is not the word [AppPropsList]), the load never completes:
    the callback throws where it looks for the bookmarks, whatever the
    other queries deliver. *)
Theorem start_bookmark_breaks_load (modelId : string) (appLayout : list (string * value))
        (themeList : list themeEntry) (appprops : list (string * value))
        (props : value) (config : list (string * value)) (qrsApp : value)
        (out : list item) (appId : string) (q : hostQueries) :
  getAppInfo toLocaleString toMegabytes
             isQlikCloud isQlikSenseClientManaged isQlikSenseDesktop
             modelId appLayout themeList appprops props config qrsApp = Ok out ->
  modelId <> "AppPropsList" ->
  Js.truthy (Js.get (VObj appprops) "defaultBookmarkId") = true ->
  q_getAppInfo q = Resolved out ->
  snd (loadInspector appId q) <> Loaded /\
  loading (fst (loadInspector appId q)) = true.
Proof.
  intros E Hid Hd Hq.
  assert (Hnot : snd (loadInspector appId q) <> Loaded).
  { intros Hl.
    destruct (loaded_app appId q Hl) as (app & prepared & d & Hq' & Hm & Hdb & Td).
    rewrite Hq in Hq'. injection Hq' as <-.
    destruct (getAppInfo_inv _ _ _ _ _ _ _ _ E)
      as (main & options & configuration & qrs & Hmain & Ho & Hc & _ & -> & _ & _).
    cbn [app] in Hm. apply mapM_Forall2 in Hm.
    inversion Hm as [|? s' ? r1 Hs' Hr1]; subst.
    inversion Hr1 as [|? m' ? r2 Hm' Hr2]; subst.
    inversion Hr2 as [|? o' ? r3 Ho' Hr3]; subst.
    pose proof (prepareItem_fields _ _ Hs') as (Hs1 & _).
    pose proof (prepareItem_fields _ _ Hm') as (Hm1 & _).
    pose proof (prepareItem_fields _ _ Ho') as (Ho1 & _).
    pose proof (prepareItem_keeps _ _ Ho') as (_ & _ & _ & _ & Hol & _).
    destruct (mainLayoutItem_inv _ _ Hmain) as (Hmi & _).
    destruct (appPropsItem_inv _ _ _ Ho) as (Hoi & Hlay & _).
    unfold defaultBookmarkIdOf in Hdb.
    cbn [Js.assoc String.eqb Ascii.eqb Bool.eqb List.find] in Hdb.
    rewrite Hs1, Hm1, Ho1, Hmi, Hoi in Hdb. cbn [id summaryItem set_details set_label newItem] in Hdb.
    destruct (String.eqb_spec modelId "AppPropsList") as [->|_]; [contradiction|].
    cbn [String.eqb Ascii.eqb Bool.eqb] in Hdb.
    rewrite Hol, Hlay in Hdb. injection Hdb as <-. congruence. }
  split; [exact Hnot|].
  unfold loadInspector in *.
  destruct (q_all (inspectorQueries appId q)) as [|args|m]; try reflexivity.
  destruct (q_appInfo_extensions q) as [|ext|m]; try reflexivity.
  pose proof (loading_of_populate args ext appId) as Hl. cbv zeta in Hl.
  destruct (populate args ext appId initialScope) as [s [u|m]]; cbn [fst snd] in *.
  - contradiction.
  - apply Hl.
Qed.

End AppInfoFacts.

(** ** The further definitions at work on the sample app *)

Section MoreRuns.
#[local] Existing Instance Sample.host.

Lemma master_item_search_terms_witness :
  exists (a' a'' : item) (tags : string),
    withSearchTerms "definition" SampleApp.dimension = Ok a' /\
    prepareItem a' = Ok a'' /\
    searchTerms a'' = VStr ("Region" ++ " " ++ tags).
Proof.
  assert (E1 : exists a', withSearchTerms "definition" SampleApp.dimension = Ok a')
    by (eexists; vm_compute; reflexivity).
  destruct E1 as (a' & E1).
  assert (E2 : exists a'', prepareItem a' = Ok a'').
  { revert E1. vm_compute. intros [= <-]. eexists. reflexivity. }
  destruct E2 as (a'' & E2).
  destruct (master_item_search_terms "definition" SampleApp.dimension a' a'' "Region"
              E1 E2 eq_refl eq_refl) as ((tags & Ht) & _).
  exists a', a'', tags. auto.
Defined.

Lemma getFieldInfo_returns_iff_witness :
  (exists out,
      getFieldInfo SampleApp.fields (getDataModelInfo SampleApp.model None) = Ok out) <->
  Forall (fieldInModel SampleApp.model) SampleApp.fields.
Proof.
  exact (getFieldInfo_returns_iff None SampleApp.model None SampleApp.fields eq_refl).
Defined.

Lemma field_items_witness :
  exists out fields : list item,
    getFieldInfo SampleApp.fields (getDataModelInfo SampleApp.model None) = Ok out /\
    out = dm_item (getDataModelInfo SampleApp.model None) :: fields /\
    Permutation (List.map id fields) (List.map fl_qName SampleApp.fields).
Proof.
  assert (E : exists out,
             getFieldInfo SampleApp.fields (getDataModelInfo SampleApp.model None) = Ok out)
    by (eexists; vm_compute; reflexivity).
  destruct E as (out & E).
  destruct (field_items _ _ _ E) as (fields & Ho & Hp & _).
  exists out, fields. auto.
Defined.

Lemma field_items_sorted_witness :
  exists out fields : list item,
    getFieldInfo SampleApp.fields (getDataModelInfo SampleApp.model None) = Ok out /\
    out = dm_item (getDataModelInfo SampleApp.model None) :: fields /\
    StronglySorted labelsAscend fields.
Proof.
  assert (E : exists out,
             getFieldInfo SampleApp.fields (getDataModelInfo SampleApp.model None) = Ok out)
    by (eexists; vm_compute; reflexivity).
  destruct E as (out & E).
  destruct (field_items_sorted (H := Sample.host)
              compareStrings_total compareStrings_trans _ _ _ E) as (fields & Ho & Hs).
  exists out, fields. auto.
Defined.

Lemma sample_appInfo :
  getAppInfo Js.ToString Js.ToString false false true
             "app1" SampleApp.appLayout SampleApp.themeList SampleApp.appprops
             (VObj []) SampleApp.config (VObj [("$$state", VObj [])])
  = Ok SampleApp.appInfo.
Proof. vm_compute. reflexivity. Defined.

Lemma app_info_items_witness :
  exists (summary : item) (infoList : list item),
    SampleApp.appInfo = summary :: infoList /\
    List.map id infoList = appInfoIds false.
Proof.
  destruct (app_info_items Js.ToString Js.ToString false false true
              "app1" SampleApp.appLayout SampleApp.themeList SampleApp.appprops
              (VObj []) SampleApp.config (VObj [("$$state", VObj [])])
              SampleApp.appInfo sample_appInfo)
    as (summary & infoList & Ho & _ & _ & Hids & _).
  exists summary, infoList. auto.
Defined.

Lemma start_bookmark_breaks_load_witness :
  snd (loadInspector "app1" SampleApp.queries) <> Loaded /\
  loading (fst (loadInspector "app1" SampleApp.queries)) = true.
Proof.
  refine (start_bookmark_breaks_load Js.ToString Js.ToString false false true
            "app1" SampleApp.appLayout SampleApp.themeList SampleApp.appprops
            (VObj []) SampleApp.config (VObj [("$$state", VObj [])])
            SampleApp.appInfo "app1" SampleApp.queries sample_appInfo _ _ eq_refl).
  - discriminate.
  - reflexivity.
Defined.

End MoreRuns.
